(** * OrderTogether: identity, authorization, deadline gate and live updates

    A shallow embedding of the Python sources under [app/]:
    [auth.py], [config.py], [models.py], [ws.py], [export.py],
    [routers/orders.py], [routers/items.py], [routers/auth.py],
    [routers/ws.py] and the [localtime] filter of [main.py].
    Definitions come first, the properties follow. *)

From Stdlib Require Import ZArith String Ascii List Bool Lia.
From Stdlib Require Import DecimalString Sorted.
From stdpp Require Import gmap strings list fin_maps.
Import ListNotations.

Local Open Scope string_scope.
Local Open Scope Z_scope.

Set Warnings "-clear-no-such-hyp".

(* ===================================================================== *)
(** * Part I: the model                                                    *)
(* ===================================================================== *)

(** ** Time zones ([config.py], [zoneinfo])

    A naive [datetime] is the count of microseconds on its wall clock
    since 1970-01-01T00:00, a [Z]; a [datetime] holds the years 1 to
    9999.  A [ZoneInfo] is the offset in force before its first
    transition and the list of its transitions, each the UTC instant at
    which a new UTC offset starts, in increasing order; offsets and
    instants are counted in microseconds as well. *)

Definition second : Z := 1000000.
Definition minute : Z := 60 * second.

(** [datetime.min] and [datetime.max]. *)
Definition datetime_min : Z := -62135596800 * second.
Definition datetime_max : Z := 253402300799 * second + 999999.

(** The result of [datetime] arithmetic: [None] stands for the
    [OverflowError] raised when it leaves the years 1 to 9999. *)
Definition new_datetime (z : Z) : option Z :=
  if (datetime_min <=? z) && (z <=? datetime_max) then Some z else None.

Record ZoneInfo := {
  tti_before : Z;
  trans_utc : list (Z * Z)
}.

(** [fromutc]: the offset in force at UTC instant [u] is that of the last
    transition at or before [u]. *)
Fixpoint utc_lookup (cur : Z) (ts : list (Z * Z)) (u : Z) : Z :=
  match ts with
  | [] => cur
  | (t, o) :: r => if u <? t then cur else utc_lookup o r u
  end.

(** [utcoffset] of a wall time with [fold = 0] (what [fromisoformat] and
    [replace] produce): on the wall clock a transition is taken to happen
    at its instant shifted by the larger of the offsets around it, so a
    skipped wall time is read with the offset before the transition and a
    repeated one as its first occurrence. *)
Fixpoint wall_lookup (cur : Z) (ts : list (Z * Z)) (w : Z) : Z :=
  match ts with
  | [] => cur
  | (t, o) :: r => if w <? t + Z.max cur o then cur else wall_lookup o r w
  end.

Definition utcoffset (tz : ZoneInfo) (wall : Z) : Z :=
  wall_lookup (tti_before tz) (trans_utc tz) wall.

(** The offset in force at UTC instant [u]. *)
Definition offset_at (tz : ZoneInfo) (u : Z) : Z :=
  utc_lookup (tti_before tz) (trans_utc tz) u.

(** [ZoneInfo.fromutc]: the instant plus the offset in force at it. *)
Definition fromutc (tz : ZoneInfo) (u : Z) : option Z :=
  new_datetime (u + offset_at tz u).

(** [dt.replace(tzinfo=LOCAL_TZ).astimezone(timezone.utc).replace(tzinfo=None)]
    of [create_order] and [extend_deadline]: the wall clock minus its
    offset. *)
Definition local_to_utc (tz : ZoneInfo) (wall : Z) : option Z :=
  new_datetime (wall - utcoffset tz wall).

(** [strftime("%Y-%m-%d %H:%M")]: the text names a minute of the wall
    clock, given here by the instant at which that minute starts. *)
Definition strftime_minute (wall : Z) : Z := wall - wall mod minute.

(** [_localtime_filter] of [main.py] on a stored deadline, with its
    default format: [dt.replace(tzinfo=utc).astimezone(LOCAL_TZ)], then
    [strftime]. *)
Definition _localtime_filter (tz : ZoneInfo) (dt : Z) : option Z :=
  strftime_minute <$> fromutc tz dt.

(** The composition the deadline goes through: submitted and stored,
    then converted back to the zone. *)
Definition deadline_roundtrip (tz : ZoneInfo) (wall : Z) : option Z :=
  local_to_utc tz wall ≫= fromutc tz.

(** What the page shows for a submitted deadline. *)
Definition deadline_shown (tz : ZoneInfo) (wall : Z) : option Z :=
  local_to_utc tz wall ≫= _localtime_filter tz.

(** A zone is well formed when its transitions come at increasing
    instants and the wall clock at the start of a period is not before
    the wall clock at the start of the period before it (periods last
    longer than the clock is set back).  [t0] is the instant of the
    previous transition and [l0] the wall clock at it. *)
Fixpoint zone_wf (t0 l0 : Z) (ts : list (Z * Z)) : Prop :=
  match ts with
  | [] => True
  | (t, o) :: r => t0 < t /\ l0 <= t + o /\ zone_wf t (t + o) r
  end.

Definition ZoneInfo_wf (tz : ZoneInfo) : Prop :=
  match trans_utc tz with
  | [] => True
  | (t, o) :: r => zone_wf t (t + o) r
  end.

(** A wall time exists in the zone when some UTC instant is shown as it. *)
Definition wall_exists (tz : ZoneInfo) (wall : Z) : Prop :=
  exists u, fromutc tz u = Some wall.

(** Europe/Berlin (the default [TIMEZONE]) around 2024: CET until
    2024-03-31 01:00 UTC, CEST until 2024-10-27 01:00 UTC, CET after. *)
Definition Europe_Berlin_2024 : ZoneInfo :=
  {| tti_before := 3600 * second;
     trans_utc := [(1711846800 * second, 7200 * second);
                   (1729990800 * second, 3600 * second)] |}.

Definition UTC_zone : ZoneInfo := {| tti_before := 0; trans_utc := [] |}.

(** ** Records ([models.py]) *)

Record Order := {
  o_id : string;
  o_admin_token : string;
  o_vendor_name : string;
  o_vendor_url : string;
  o_deadline : Z;
  o_creator_name : string;
  o_creator_identifier : option string;
  o_invite_only : bool;
  o_allow_oidc : bool;
  o_privacy_mode : bool
}.

Record OrderItem := {
  i_id : string;
  i_order_id : string;
  i_person_identifier : string;
  i_person_name : string;
  i_product_name : string;
  i_product_sku : option string;
  i_product_url : option string;
  i_quantity : string;
  i_note : option string
}.

Record EmailToken := {
  t_token : string;
  t_order_id : string;
  t_display_name : string
}.

(** ** Sessions and identities ([auth.py])

    The identity dict [{"type", "id", "name"}].  The session stores it
    under the keys [identity_type], [identity_id] and [identity_name],
    which are only ever written together ([get_identity],
    [set_oidc_identity], [set_token_identity]) and removed together
    ([clear_identity]); [identity_name] alone is rewritten by [add_item]
    once the three exist.  The session therefore holds one optional
    identity, and the optional list [admin_orders]. *)

Record Identity := {
  id_type : string;
  id_id : string;
  id_name : string
}.

Record Session := {
  s_identity : option Identity;
  s_admin_orders : option (list string)
}.

Definition empty_session : Session :=
  {| s_identity := None; s_admin_orders := None |}.

(** Python truthiness of a string, and of an optional string. *)
Definition truthy (s : string) : bool := negb (s =? "")%string.
Definition truthy_opt (s : option string) : bool :=
  match s with Some x => truthy x | None => false end.

(** [a or b] on strings. *)
Definition str_or (a b : string) : string := if truthy a then a else b.
(** [a or None]. *)
Definition or_None (a : string) : option string :=
  if truthy a then Some a else None.
(** [a or ""] on an optional string. *)
Definition or_empty (a : option string) : string :=
  match a with Some x => x | None => "" end.

(** [session.get("identity_type")] and [session.get("identity_id")]. *)
Definition session_identity_type (s : Session) : option string :=
  id_type <$> s_identity s.
Definition session_identity_id (s : Session) : option string :=
  id_id <$> s_identity s.
(** [session.get("admin_orders", [])]. *)
Definition session_admin_orders (s : Session) : list string :=
  default [] (s_admin_orders s).

(** [get_identity]: [uuid4] is the value [uuid.uuid4()] would draw. *)
Definition get_identity (uuid4 : string) (s : Session) : Identity * Session :=
  match s_identity s with
  | Some i => (i, s)
  | None =>
      let i := {| id_type := "anon"; id_id := uuid4; id_name := "" |} in
      (i, {| s_identity := Some i; s_admin_orders := s_admin_orders s |})
  end.

Definition set_oidc_identity (s : Session) (sub name : string) : Session :=
  {| s_identity := Some {| id_type := "oidc"; id_id := sub; id_name := name |};
     s_admin_orders := s_admin_orders s |}.

Definition set_token_identity (s : Session) (token display_name : string) : Session :=
  {| s_identity := Some {| id_type := "token"; id_id := token; id_name := display_name |};
     s_admin_orders := s_admin_orders s |}.

Definition clear_identity (s : Session) : Session := empty_session.

Definition set_order_admin (s : Session) (order_id : string) : Session :=
  let admin_orders := session_admin_orders s in
  let admin_orders' :=
    if bool_decide (order_id ∈ admin_orders) then admin_orders
    else (admin_orders ++ [order_id])%list in
  {| s_identity := s_identity s; s_admin_orders := Some admin_orders' |}.

Definition is_order_admin (s : Session) (order : Order) : bool :=
  if bool_decide (o_id order ∈ session_admin_orders s) then true
  else if bool_decide (session_identity_type s = Some "oidc")
          && truthy_opt (o_creator_identifier order)
          && bool_decide (session_identity_id s = o_creator_identifier order)
       then true
       else false.

Definition can_add_item (identity : Identity) (order : Order) (is_admin : bool) : bool :=
  if is_admin then true
  else if o_invite_only order then
    if (id_type identity =? "token")%string then true
    else if (id_type identity =? "oidc")%string && o_allow_oidc order then true
    else false
  else true.

Definition can_edit_item (OIDC_ENABLED : bool) (identity : Identity)
    (item : OrderItem) (order : Order) (is_admin : bool) : bool :=
  if is_admin then true
  else if (id_type identity =? "anon")%string && negb OIDC_ENABLED && negb (o_invite_only order)
  then true
  else (id_id identity =? i_person_identifier item)%string.

Definition can_see_item (identity : Identity) (item : OrderItem) (order : Order)
    (is_admin : bool) : bool :=
  if negb (o_privacy_mode order) then true
  else if is_admin then true
  else (id_id identity =? i_person_identifier item)%string.

(** ** Live update broadcaster ([ws.py])

    A connection is a number.  [_subs] maps an order id to the set of its
    connections; the entry of an order is absent when the set is empty.
    The frame sent is [json.dumps] of the payload object below. *)

Record Payload := {
  p_type : string;
  p_deadline : option string
}.

Definition subscribers (subs : gmap string (gset nat)) (order_id : string) : gset nat :=
  default ∅ (subs !! order_id).

Definition subscribe (subs : gmap string (gset nat)) (order_id : string) (ws : nat)
    : gmap string (gset nat) :=
  <[order_id := {[ws]} ∪ subscribers subs order_id]> subs.

Definition unsubscribe (subs : gmap string (gset nat)) (order_id : string) (ws : nat)
    : gmap string (gset nat) :=
  let s := subscribers subs order_id ∖ {[ws]} in
  if decide (s = ∅) then delete order_id subs else <[order_id := s]> subs.

(** The first loop of [broadcast]: [send_text ws] tells whether the send
    to [ws] returns ([true]) or raises ([false]).  The result is the set
    [dead] and the frames delivered, in order. *)
Fixpoint send_all (send_text : nat -> bool) (payload : Payload) (snapshot : list nat)
    : gset nat * list (nat * Payload) :=
  match snapshot with
  | [] => (∅, [])
  | ws :: rest =>
      let '(dead, sent) := send_all send_text payload rest in
      if send_text ws then (dead, (ws, payload) :: sent)
      else ({[ws]} ∪ dead, sent)
  end.

(** The second loop of [broadcast]. *)
Fixpoint unsubscribe_all (subs : gmap string (gset nat)) (order_id : string)
    (dead : list nat) : gmap string (gset nat) :=
  match dead with
  | [] => subs
  | ws :: rest => unsubscribe_all (unsubscribe subs order_id ws) order_id rest
  end.

Definition broadcast (send_text : nat -> bool) (subs : gmap string (gset nat))
    (order_id : string) (deadline : option string)
    : gmap string (gset nat) * list (nat * Payload) :=
  let payload := {| p_type := "update"; p_deadline := deadline |} in
  let '(dead, sent) := send_all send_text payload (elements (subscribers subs order_id)) in
  (unsubscribe_all subs order_id (elements dead), sent).

(** ** Request handlers: state and outcomes

    A request runs against the session of its caller, the three tables
    (keyed by their primary keys), the subscriber registry and the frames
    delivered so far.  The code reads the items of an order through a
    relationship without [order_by], so the order in which they come is
    the database's: [w_rowid] gives, for the primary key of an item, the
    position at which the database lists the row.  A handler returns a value, raises an
    [HTTPException], or fails with an exception that nothing catches (a
    primary-key clash at commit, a date out of range); what it wrote to
    the session before raising stays. *)

Record World := {
  w_session : Session;
  w_orders : gmap string Order;
  w_items : gmap string OrderItem;
  w_tokens : gmap string EmailToken;
  w_subs : gmap string (gset nat);
  w_sent : list (nat * Payload);
  w_rowid : string -> Z
}.

Inductive Result (A : Type) : Type :=
| Ok (a : A)
| HTTPException (status_code : Z) (detail : string)
| IntegrityError
| OverflowError.
Arguments Ok {A} a.
Arguments HTTPException {A} status_code detail.
Arguments IntegrityError {A}.
Arguments OverflowError {A}.

Definition Handler (A : Type) : Type := World -> Result A * World.

Definition ret {A} (a : A) : Handler A := fun w => (Ok a, w).
Definition raise {A} (status_code : Z) (detail : string) : Handler A :=
  fun w => (HTTPException status_code detail, w).
(** [astimezone] inside a handler. *)
Definition astimezone_utc (tz : ZoneInfo) (dt_local : Z) : Handler Z :=
  fun w =>
    match local_to_utc tz dt_local with
    | Some dt => (Ok dt, w)
    | None => (OverflowError, w)
    end.
Definition bind {A B} (c : Handler A) (k : A -> Handler B) : Handler B :=
  fun w =>
    match c w with
    | (Ok a, w') => k a w'
    | (HTTPException st d, w') => (HTTPException st d, w')
    | (IntegrityError, w') => (IntegrityError, w')
    | (OverflowError, w') => (OverflowError, w')
    end.

Notation "'do' x <- c ; k" := (bind c (fun x => k))
  (at level 10, x name, c at level 100, k at level 200).
Notation "'run' c ; k" := (bind c (fun _ => k))
  (at level 10, c at level 100, k at level 200).

Definition with_session (w : World) (s : Session) : World :=
  {| w_session := s; w_orders := w_orders w; w_items := w_items w;
     w_tokens := w_tokens w; w_subs := w_subs w; w_sent := w_sent w;
     w_rowid := w_rowid w |}.
Definition with_orders (w : World) (m : gmap string Order) : World :=
  {| w_session := w_session w; w_orders := m; w_items := w_items w;
     w_tokens := w_tokens w; w_subs := w_subs w; w_sent := w_sent w;
     w_rowid := w_rowid w |}.
Definition with_items (w : World) (m : gmap string OrderItem) : World :=
  {| w_session := w_session w; w_orders := w_orders w; w_items := m;
     w_tokens := w_tokens w; w_subs := w_subs w; w_sent := w_sent w;
     w_rowid := w_rowid w |}.
Definition with_tokens (w : World) (m : gmap string EmailToken) : World :=
  {| w_session := w_session w; w_orders := w_orders w; w_items := w_items w;
     w_tokens := m; w_subs := w_subs w; w_sent := w_sent w;
     w_rowid := w_rowid w |}.
Definition with_rowid (w : World) (rowid : string -> Z) : World :=
  {| w_session := w_session w; w_orders := w_orders w; w_items := w_items w;
     w_tokens := w_tokens w; w_subs := w_subs w; w_sent := w_sent w;
     w_rowid := rowid |}.
Definition with_channel (w : World) (subs : gmap string (gset nat))
    (sent : list (nat * Payload)) : World :=
  {| w_session := w_session w; w_orders := w_orders w; w_items := w_items w;
     w_tokens := w_tokens w; w_subs := subs; w_sent := sent;
     w_rowid := w_rowid w |}.

(** [get_identity(request)] inside a handler. *)
Definition request_identity (uuid4 : string) : Handler Identity :=
  fun w => let '(i, s) := get_identity uuid4 (w_session w) in (Ok i, with_session w s).

(** [is_order_admin(request, order)] inside a handler. *)
Definition request_is_admin (order : Order) : Handler bool :=
  fun w => (Ok (is_order_admin (w_session w) order), w).

(** [_get_order] (the same in both routers). *)
Definition _get_order (order_id : string) : Handler Order :=
  fun w =>
    match w_orders w !! order_id with
    | Some order => (Ok order, w)
    | None => (HTTPException 404 "Order not found", w)
    end.

(** [select(OrderItem).where(id == item_id, order_id == order_id)]. *)
Definition find_item (w : World) (order_id item_id : string) : option OrderItem :=
  match w_items w !! item_id with
  | Some item => if (i_order_id item =? order_id)%string then Some item else None
  | None => None
  end.

(** Rows as the database lists them: by position, rows at the same
    position in the order they come in. *)
Fixpoint insert_row (rowid : string -> Z) (x : OrderItem) (l : list OrderItem)
    : list OrderItem :=
  match l with
  | [] => [x]
  | y :: r => if rowid (i_id x) <? rowid (i_id y) then x :: y :: r
              else y :: insert_row rowid x r
  end.

Definition by_rowid (rowid : string -> Z) (l : list OrderItem) : list OrderItem :=
  fold_right (insert_row rowid) [] l.

(** [order.items]: the items of the order, as the database lists them. *)
Definition order_items (w : World) (order_id : string) : list OrderItem :=
  by_rowid (w_rowid w)
    (filter (fun item => i_order_id item = order_id)
       (map snd (map_to_list (w_items w)))).

(** [manager.broadcast] inside a handler. *)
Definition notify (send_text : nat -> bool) (order_id : string)
    (deadline : option string) : Handler unit :=
  fun w =>
    let '(subs, sent) := broadcast send_text (w_subs w) order_id deadline in
    (Ok tt, with_channel w subs (w_sent w ++ sent)%list).

(** What a handler answers.  Rendering is left out: a page is the name
    of its template, the items partial the list of items handed to it. *)
Inductive Response : Type :=
| RedirectResponse (url : string) (status_code : Z)
| Page (template : string)
| ItemsList (items : list OrderItem)
| TokenResult (display_name join_url : string).

(** Primary-key inserts and the updates of a loaded row, at commit. *)
Definition db_add_order (order : Order) : Handler unit :=
  fun w =>
    match w_orders w !! o_id order with
    | Some _ => (IntegrityError, w)
    | None => (Ok tt, with_orders w (<[o_id order := order]> (w_orders w)))
    end.
Definition db_add_item (item : OrderItem) : Handler unit :=
  fun w =>
    match w_items w !! i_id item with
    | Some _ => (IntegrityError, w)
    | None => (Ok tt, with_items w (<[i_id item := item]> (w_items w)))
    end.
Definition db_add_token (token : EmailToken) : Handler unit :=
  fun w =>
    match w_tokens w !! t_token token with
    | Some _ => (IntegrityError, w)
    | None => (Ok tt, with_tokens w (<[t_token token := token]> (w_tokens w)))
    end.
Definition db_update_order (order : Order) : Handler unit :=
  fun w => (Ok tt, with_orders w (<[o_id order := order]> (w_orders w))).
Definition db_update_item (item : OrderItem) : Handler unit :=
  fun w => (Ok tt, with_items w (<[i_id item := item]> (w_items w))).
Definition db_delete_item (item : OrderItem) : Handler unit :=
  fun w => (Ok tt, with_items w (delete (i_id item) (w_items w))).

(** [request.session["identity_name"] = name]. *)
Definition session_set_name (name : string) : Handler unit :=
  fun w =>
    let s := w_session w in
    let identity' :=
      (fun i => {| id_type := id_type i; id_id := id_id i; id_name := name |})
        <$> s_identity s in
    (Ok tt, with_session w {| s_identity := identity';
                              s_admin_orders := s_admin_orders s |}).

Definition set_deadline (order : Order) (dt : Z) : Order :=
  {| o_id := o_id order; o_admin_token := o_admin_token order;
     o_vendor_name := o_vendor_name order; o_vendor_url := o_vendor_url order;
     o_deadline := dt; o_creator_name := o_creator_name order;
     o_creator_identifier := o_creator_identifier order;
     o_invite_only := o_invite_only order; o_allow_oidc := o_allow_oidc order;
     o_privacy_mode := o_privacy_mode order |}.

Definition set_allow_oidc (order : Order) (b : bool) : Order :=
  {| o_id := o_id order; o_admin_token := o_admin_token order;
     o_vendor_name := o_vendor_name order; o_vendor_url := o_vendor_url order;
     o_deadline := o_deadline order; o_creator_name := o_creator_name order;
     o_creator_identifier := o_creator_identifier order;
     o_invite_only := o_invite_only order; o_allow_oidc := b;
     o_privacy_mode := o_privacy_mode order |}.

Section Handlers.

(** The deployment: [OIDC_ENABLED] and [LOCAL_TZ] from the environment,
    and the library functions the handlers call. *)
Variable OIDC_ENABLED : bool.
Variable LOCAL_TZ : ZoneInfo.
(** [datetime.fromisoformat]: [None] when it raises [ValueError]. *)
Variable fromisoformat : string -> option Z.
(** [datetime.isoformat]. *)
Variable isoformat : Z -> string.
(** [itsdangerous]: [sign_token] and [unsign_token]. *)
Variable sign_token : string -> string.
Variable unsign_token : string -> option string.

(** *** [routers/orders.py] *)

Definition create_order (uuid_identity uuid_order uuid_admin : string)
    (vendor_name vendor_url deadline : string)
    (invite_only allow_oidc privacy_mode : bool) : Handler Response :=
  do identity <- request_identity uuid_identity ;
  match fromisoformat deadline with
  | None => raise 400 "Invalid deadline format"
  | Some dt_local =>
      do dt <- astimezone_utc LOCAL_TZ dt_local ;
      let order :=
        {| o_id := uuid_order;
           o_admin_token := uuid_admin;
           o_vendor_name := vendor_name;
           o_vendor_url := vendor_url;
           o_deadline := dt;
           o_creator_name := str_or (id_name identity) "Admin";
           o_creator_identifier :=
             if (id_type identity =? "oidc")%string then Some (id_id identity) else None;
           o_invite_only := invite_only;
           o_allow_oidc := allow_oidc && invite_only;
           o_privacy_mode := privacy_mode && invite_only |} in
      run db_add_order order ;
      ret (RedirectResponse ("/orders/" ++ o_id order ++ "/admin/" ++ o_admin_token order) 303)
  end.

Definition enter_admin (order_id admin_token : string) : Handler Response :=
  do order <- _get_order order_id ;
  if negb (o_admin_token order =? admin_token)%string
  then raise 403 "Invalid admin token"
  else
    run (fun w => (Ok tt, with_session w (set_order_admin (w_session w) order_id))) ;
    ret (RedirectResponse ("/orders/" ++ order_id) 303).

Definition create_token (base_url uuid_raw : string) (order_id display_name : string)
    : Handler Response :=
  do order <- _get_order order_id ;
  do is_admin <- request_is_admin order ;
  if negb is_admin then raise 403 "Only the admin can generate tokens"
  else
    let signed := sign_token uuid_raw in
    let token := {| t_token := signed; t_order_id := order_id;
                    t_display_name := display_name |} in
    run db_add_token token ;
    ret (TokenResult display_name (base_url ++ "/orders/" ++ order_id ++ "/join/" ++ signed)).

Definition join_via_token (order_id token : string) : Handler Response :=
  match unsign_token token with
  | None => raise 400 "Invalid or expired token"
  | Some raw_id =>
      do email_token <- (fun w =>
        match w_tokens w !! token with
        | Some t => if (t_order_id t =? order_id)%string then (Ok t, w)
                    else (HTTPException 404 "Token not found", w)
        | None => (HTTPException 404 "Token not found", w)
        end) ;
      run (fun w => (Ok tt, with_session w
             (set_token_identity (w_session w) token (t_display_name email_token)))) ;
      ret (RedirectResponse ("/orders/" ++ order_id) 303)
  end.

Definition extend_deadline (send_text : nat -> bool) (order_id new_deadline : string)
    : Handler Response :=
  do order <- _get_order order_id ;
  do is_admin <- request_is_admin order ;
  if negb is_admin then raise 403 "Only the admin can change the deadline"
  else
    match fromisoformat new_deadline with
    | None => raise 400 "Invalid deadline format"
    | Some dt_local =>
        do dt <- astimezone_utc LOCAL_TZ dt_local ;
        run db_update_order (set_deadline order dt) ;
        run notify send_text order_id (Some (isoformat dt ++ "Z")) ;
        ret (RedirectResponse ("/orders/" ++ order_id) 303)
    end.

Definition update_settings (order_id : string) (allow_oidc : bool) : Handler Response :=
  do order <- _get_order order_id ;
  do is_admin <- request_is_admin order ;
  if negb is_admin then raise 403 "Only the admin can change settings"
  else
    run db_update_order (set_allow_oidc order (allow_oidc && o_invite_only order)) ;
    ret (RedirectResponse ("/orders/" ++ order_id) 303).

(** *** [routers/items.py] *)

Definition _items_response (order : Order) (identity : Identity) : Handler Response :=
  fun w =>
    let is_admin := is_order_admin (w_session w) order in
    let visible_items :=
      List.filter (fun i => can_see_item identity i order is_admin)
        (order_items w (o_id order)) in
    (Ok (ItemsList visible_items), w).

Definition add_item (uuid_identity uuid_item : string) (utcnow : Z)
    (send_text : nat -> bool)
    (order_id person_name product_name quantity product_sku product_url note : string)
    : Handler Response :=
  do order <- _get_order order_id ;
  do identity <- request_identity uuid_identity ;
  do is_admin <- request_is_admin order ;
  if negb (can_add_item identity order is_admin)
  then raise 403 "This order is invite-only. Use your invite link to participate."
  else if (utcnow >? o_deadline order) && negb is_admin
  then raise 403 "Order is closed"
  else
    let person_name :=
      if (id_type identity =? "token")%string then id_name identity else person_name in
    do identity <-
      (if (id_type identity =? "anon")%string && negb (truthy (id_name identity))
       then run session_set_name person_name ;
            ret {| id_type := id_type identity; id_id := id_id identity;
                   id_name := person_name |}
       else ret identity) ;
    let item :=
      {| i_id := uuid_item;
         i_order_id := order_id;
         i_person_identifier := id_id identity;
         i_person_name := person_name;
         i_product_name := product_name;
         i_product_sku := or_None product_sku;
         i_product_url := or_None product_url;
         i_quantity := str_or quantity "1";
         i_note := or_None note |} in
    run db_add_item item ;
    run notify send_text order_id None ;
    _items_response order identity.

Definition edit_item (uuid_identity : string) (utcnow : Z) (send_text : nat -> bool)
    (order_id item_id : string)
    (person_name product_name quantity product_sku product_url note : string)
    : Handler Response :=
  do order <- _get_order order_id ;
  do identity <- request_identity uuid_identity ;
  do is_admin <- request_is_admin order ;
  do found <- (fun w => (Ok (find_item w order_id item_id), w)) ;
  match found with
  | None => raise 404 "Item not found"
  | Some item =>
      if negb (can_edit_item OIDC_ENABLED identity item order is_admin)
      then raise 403 "Not allowed to edit this item"
      else if (utcnow >? o_deadline order) && negb is_admin
      then raise 403 "Order is closed"
      else
        let item' :=
          {| i_id := i_id item;
             i_order_id := i_order_id item;
             i_person_identifier := i_person_identifier item;
             i_person_name :=
               if (id_type identity =? "token")%string then id_name identity
               else person_name;
             i_product_name := product_name;
             i_product_sku := or_None product_sku;
             i_product_url := or_None product_url;
             i_quantity := str_or quantity "1";
             i_note := or_None note |} in
        run db_update_item item' ;
        run notify send_text order_id None ;
        _items_response order identity
  end.

Definition delete_item (uuid_identity : string) (utcnow : Z) (send_text : nat -> bool)
    (order_id item_id : string) : Handler Response :=
  do order <- _get_order order_id ;
  do identity <- request_identity uuid_identity ;
  do is_admin <- request_is_admin order ;
  do found <- (fun w => (Ok (find_item w order_id item_id), w)) ;
  match found with
  | None => raise 404 "Item not found"
  | Some item =>
      if negb (can_edit_item OIDC_ENABLED identity item order is_admin)
      then raise 403 "Not allowed to delete this item"
      else if (utcnow >? o_deadline order) && negb is_admin
      then raise 403 "Order is closed"
      else
        run db_delete_item item ;
        run notify send_text order_id None ;
        _items_response order identity
  end.

(** *** [routers/auth.py] and the home page

    What the provider's token exchange and userinfo call yield: the
    [sub], [name] and [email] claims, each possibly missing. *)

Record UserInfo := {
  ui_sub : option string;
  ui_name : option string;
  ui_email : option string
}.

(** [callback]: [exchange] is the outcome of [authorize_access_token],
    the text of the raised exception or the user info. *)
Definition callback (exchange : string + UserInfo) : Handler Response :=
  if negb OIDC_ENABLED then ret (RedirectResponse "/" 307)
  else
    match exchange with
    | inl exc =>
        raise 502
          ("OIDC token exchange failed: " ++ exc ++ ". " ++
           "Common causes: no signing certificate configured in the provider " ++
           "(Authentik: Applications → Provider → set a signing key), " ++
           "untrusted TLS certificate (set OIDC_SSL_VERIFY=false or point it " ++
           "at a CA-bundle), or a clock skew between container and provider.")
    | inr user_info =>
        let sub := or_empty (ui_sub user_info) in
        let name := str_or (or_empty (ui_name user_info))
                      (str_or (or_empty (ui_email user_info)) sub) in
        run (fun w => (Ok tt, with_session w (set_oidc_identity (w_session w) sub name))) ;
        ret (RedirectResponse "/" 307)
    end.

Definition logout : Handler Response :=
  run (fun w => (Ok tt, with_session w (clear_identity (w_session w)))) ;
  ret (RedirectResponse "/" 307).

(** [index]; the other pages ([view_order], [items_partial], [edit_form],
    [export_order], [list_orders]) change the state as [index] does, by
    resolving the caller's identity, or not at all. *)
Definition index (uuid_identity : string) : Handler Response :=
  do identity <- request_identity uuid_identity ;
  ret (Page "index.html").

End Handlers.

(** ** CSV export ([export.py])

    Strings are byte strings (UTF-8).  [py_int] is [int(s)] on a [str];
    [None] stands for [ValueError].  On ASCII text it drops the blanks
    around (tab to carriage return, and space), reads one sign, then
    decimal digits with single underscores between digits, and refuses
    a run of more digits than the interpreter's limit.  On text with a
    character outside ASCII, [int] also reads the decimal digits and
    blanks of Unicode: that part is the interpreter's, [int_unicode]. *)

Section CsvExport.

(** [sys.get_int_max_str_digits()]: 4300 unless the deployment sets it;
    0 for no limit (an accepted setting is 0 or at least 640). *)
Variable int_max_str_digits : Z.
(** [int] on a [str] that has a character outside ASCII. *)
Variable int_unicode : string -> option Z.

Definition is_space (c : ascii) : bool :=
  let n := Z.of_nat (nat_of_ascii c) in
  ((9 <=? n) && (n <=? 13)) || (n =? 32).

Definition is_ascii (s : string) : bool :=
  forallb (fun c => (nat_of_ascii c <? 128)%nat) (list_ascii_of_string s).

Fixpoint lstrip (s : string) : string :=
  match s with
  | String c r => if is_space c then lstrip r else s
  | EmptyString => EmptyString
  end.

Definition strip (s : string) : string :=
  string_of_list_ascii
    (rev (list_ascii_of_string
            (lstrip (string_of_list_ascii
                       (rev (list_ascii_of_string (lstrip s))))))).

Definition digit_of (c : ascii) : option Z :=
  let n := Z.of_nat (nat_of_ascii c) in
  if (48 <=? n) && (n <=? 57) then Some (n - 48) else None.

Inductive DigitState : Type := AtStart | AfterDigit | AfterUnderscore.

(** The run of digits: its value and the number of its digits. *)
Fixpoint parse_digits (acc digits : Z) (st : DigitState) (s : string)
    : option (Z * Z) :=
  match s with
  | EmptyString => match st with AfterDigit => Some (acc, digits) | _ => None end
  | String c r =>
      match digit_of c with
      | Some d => parse_digits (10 * acc + d) (digits + 1) AfterDigit r
      | None =>
          if (c =? "_")%char
          then match st with
               | AfterDigit => parse_digits acc digits AfterUnderscore r
               | _ => None
               end
          else None
      end
  end.

Definition long_from_string (s : string) : option Z :=
  match parse_digits 0 0 AtStart s with
  | Some (n, digits) =>
      if (0 <? int_max_str_digits) && (int_max_str_digits <? digits) then None
      else Some n
  | None => None
  end.

Definition py_int (s : string) : option Z :=
  if is_ascii s then
    match strip s with
    | String "+" r => long_from_string r
    | String "-" r => Z.opp <$> long_from_string r
    | t => long_from_string t
    end
  else int_unicode s.

(** The value of [total_quantity]: an [int] until a quantity fails to
    parse, a [str] after. *)
Inductive PyVal : Type :=
| PyInt (z : Z)
| PyStr (s : string).

(** [str(v)]. *)
Definition py_str (v : PyVal) : string :=
  match v with
  | PyInt z => NilZero.string_of_int (Z.to_int z)
  | PyStr s => s
  end.

(** The exceptions [export_csv] lets through. *)
Inductive PyExc : Type := TypeError.

(** The [try] block on one item:
    [total += int(quantity)], with [ValueError] caught and answered by
    [total = str(total) + "+" + quantity].  Adding an [int] to a [str]
    raises [TypeError], which the handler does not catch. *)
Definition add_quantity (total : PyVal) (quantity : string) : PyExc + PyVal :=
  match py_int quantity with
  | Some n =>
      match total with
      | PyInt t => inr (PyInt (t + n))
      | PyStr _ => inl TypeError
      end
  | None => inr (PyStr (py_str total ++ "+" ++ quantity))
  end.

Record Aggregate := {
  a_product : string;
  a_sku : string;
  a_url : string;
  a_note : string;
  a_total_quantity : PyVal
}.

Definition GroupKey : Type := string * string * string * string.

Definition key_eqb (a b : GroupKey) : bool := bool_decide (a = b).

(** Python dicts keep insertion order: association lists. *)
Fixpoint dict_get {V} (d : list (GroupKey * V)) (k : GroupKey) : option V :=
  match d with
  | [] => None
  | (k', v) :: r => if key_eqb k' k then Some v else dict_get r k
  end.

Fixpoint dict_set {V} (d : list (GroupKey * V)) (k : GroupKey) (v : V)
    : list (GroupKey * V) :=
  match d with
  | [] => [(k, v)]
  | (k', v') :: r => if key_eqb k' k then (k', v) :: r else (k', v') :: dict_set r k v
  end.

Definition item_key (item : OrderItem) : GroupKey :=
  (i_product_name item, or_empty (i_product_sku item),
   or_empty (i_product_url item), or_empty (i_note item)).

(** The loop over the items in the product branch. *)
Fixpoint aggregate (items : list OrderItem)
    (aggregated : list (GroupKey * Aggregate))
    (contributors : list (GroupKey * list string))
    : PyExc + (list (GroupKey * Aggregate) * list (GroupKey * list string)) :=
  match items with
  | [] => inr (aggregated, contributors)
  | item :: rest =>
      let key := item_key item in
      let entry :=
        match dict_get aggregated key with
        | Some a => a
        | None => {| a_product := i_product_name item;
                     a_sku := or_empty (i_product_sku item);
                     a_url := or_empty (i_product_url item);
                     a_note := or_empty (i_note item);
                     a_total_quantity := PyInt 0 |}
        end in
      match add_quantity (a_total_quantity entry) (i_quantity item) with
      | inl e => inl e
      | inr total =>
          let entry' := {| a_product := a_product entry; a_sku := a_sku entry;
                           a_url := a_url entry; a_note := a_note entry;
                           a_total_quantity := total |} in
          let names := default [] (dict_get contributors key) in
          aggregate rest (dict_set aggregated key entry')
            (dict_set contributors key
               (names ++ [(i_person_name item ++ "×" ++ i_quantity item)%string])%list)
      end
  end.

Inductive Row : Type :=
| PersonRow (person product sku quantity note url : string)
| ProductRow (product sku : string) (total_quantity : PyVal)
    (contributors url note : string).

(** [sorted] and [list.sort] with a string key: a stable insertion sort. *)
Fixpoint insert_by {A} (key : A -> string) (x : A) (l : list A) : list A :=
  match l with
  | [] => [x]
  | y :: r => if String.ltb (key x) (key y) then x :: y :: r
              else y :: insert_by key x r
  end.

Definition sort_by {A} (key : A -> string) (l : list A) : list A :=
  fold_left (fun acc x => insert_by key x acc) l [].

Definition row_product (r : Row) : string :=
  match r with
  | PersonRow _ product _ _ _ _ => product
  | ProductRow product _ _ _ _ _ => product
  end.

Record CsvResponse := {
  csv_filename : string;
  csv_fieldnames : list string;
  csv_rows : list Row
}.

Definition export_csv (order : Order) (items : list OrderItem) (group : string)
    : PyExc + CsvResponse :=
  let filename := "order-" ++ substring 0 8 (o_id order) ++ "-" ++ group ++ ".csv" in
  if (group =? "person")%string then
    let rows :=
      map (fun item =>
             PersonRow (i_person_name item) (i_product_name item)
               (or_empty (i_product_sku item)) (i_quantity item)
               (or_empty (i_note item)) (or_empty (i_product_url item)))
        (sort_by i_person_name items) in
    inr {| csv_filename := filename;
           csv_fieldnames := ["person"; "product"; "sku"; "quantity"; "note"; "url"];
           csv_rows := rows |}
  else
    match aggregate items [] [] with
    | inl e => inl e
    | inr (aggregated, contributors) =>
        let rows :=
          map (fun '(key, data) =>
                 ProductRow (a_product data) (a_sku data) (a_total_quantity data)
                   (String.concat "; " (default [] (dict_get contributors key)))
                   (a_url data) (a_note data))
            aggregated in
        inr {| csv_filename := filename;
               csv_fieldnames := ["product"; "sku"; "total_quantity"; "contributors";
                                  "url"; "note"];
               csv_rows := sort_by row_product rows |}
    end.

(** The items on which the product branch raises: some numeric quantity
    comes after a quantity of the same group that did not parse.
    [is_degraded] tells the groups whose total is a string already. *)
Definition degraded (aggregated : list (GroupKey * Aggregate)) (k : GroupKey) : bool :=
  match dict_get aggregated k with
  | Some a => match a_total_quantity a with PyStr _ => true | PyInt _ => false end
  | None => false
  end.

Fixpoint numeric_after_text (is_degraded : GroupKey -> bool) (items : list OrderItem)
    : bool :=
  match items with
  | [] => false
  | item :: rest =>
      match py_int (i_quantity item) with
      | Some _ => is_degraded (item_key item) || numeric_after_text is_degraded rest
      | None =>
          numeric_after_text
            (fun k => key_eqb (item_key item) k || is_degraded k) rest
      end
  end.

End CsvExport.

Definition empty_world : World :=
  {| w_session := empty_session; w_orders := ∅; w_items := ∅; w_tokens := ∅;
     w_subs := ∅; w_sent := []; w_rowid := fun _ => 0 |}.

(** ** The requests a deployment serves

    Sessions live in signed cookies: a request comes with the empty
    session or with any session the deployment has issued before, runs
    one handler, and the session it leaves is issued in turn.  A live
    connection opening or closing ([routers/ws.py]) is a request that
    leaves the session alone, and so is the database rearranging its
    rows. *)

Record Deployment := {
  d_cookies : list Session;
  d_orders : gmap string Order;
  d_items : gmap string OrderItem;
  d_tokens : gmap string EmailToken;
  d_subs : gmap string (gset nat);
  d_sent : list (nat * Payload);
  d_rowid : string -> Z
}.

Definition empty_deployment : Deployment :=
  {| d_cookies := []; d_orders := ∅; d_items := ∅; d_tokens := ∅;
     d_subs := ∅; d_sent := []; d_rowid := fun _ => 0 |}.

Definition enter (d : Deployment) (s : Session) : World :=
  {| w_session := s; w_orders := d_orders d; w_items := d_items d;
     w_tokens := d_tokens d; w_subs := d_subs d; w_sent := d_sent d;
     w_rowid := d_rowid d |}.

Definition leave (d : Deployment) (w : World) : Deployment :=
  {| d_cookies := w_session w :: d_cookies d; d_orders := w_orders w;
     d_items := w_items w; d_tokens := w_tokens w; d_subs := w_subs w;
     d_sent := w_sent w; d_rowid := w_rowid w |}.

Definition order_flags_ok (order : Order) : Prop :=
  o_invite_only order = false ->
  o_allow_oidc order = false /\ o_privacy_mode order = false.

Definition flags_inv (orders : gmap string Order) : Prop :=
  forall k order, orders !! k = Some order -> order_flags_ok order.

(** A session whose identity is an invite carries the name of the invite
    it redeemed. *)
Definition invite_backed (tokens : gmap string EmailToken) (s : Session) : Prop :=
  forall identity,
    s_identity s = Some identity -> id_type identity = "token" ->
    exists email_token,
      tokens !! id_id identity = Some email_token /\
      t_display_name email_token = id_name identity.

Section Requests.

Variable OIDC_ENABLED : bool.
Variable LOCAL_TZ : ZoneInfo.
Variable fromisoformat : string -> option Z.
Variable isoformat : Z -> string.
Variable sign_token : string -> string.
Variable unsign_token : string -> option string.

Inductive request_step (w : World) : World -> Prop :=
| step_index u :
    request_step w (snd (index u w))
| step_callback exchange :
    request_step w (snd (callback OIDC_ENABLED exchange w))
| step_logout :
    request_step w (snd (logout w))
| step_create_order u1 u2 u3 vendor_name vendor_url deadline invite_only allow_oidc privacy_mode :
    request_step w
      (snd (create_order LOCAL_TZ fromisoformat u1 u2 u3 vendor_name vendor_url
              deadline invite_only allow_oidc privacy_mode w))
| step_enter_admin order_id admin_token :
    request_step w (snd (enter_admin order_id admin_token w))
| step_create_token base_url u order_id display_name :
    request_step w (snd (create_token sign_token base_url u order_id display_name w))
| step_join_via_token order_id token :
    request_step w (snd (join_via_token unsign_token order_id token w))
| step_extend_deadline send_text order_id new_deadline :
    request_step w
      (snd (extend_deadline LOCAL_TZ fromisoformat isoformat send_text order_id
              new_deadline w))
| step_update_settings order_id allow_oidc :
    request_step w (snd (update_settings order_id allow_oidc w))
| step_add_item u1 u2 utcnow send_text order_id person product quantity sku url note :
    request_step w
      (snd (add_item u1 u2 utcnow send_text order_id person product quantity sku url
              note w))
| step_edit_item u1 utcnow send_text order_id item_id person product quantity sku url note :
    request_step w
      (snd (edit_item OIDC_ENABLED u1 utcnow send_text order_id item_id person product
              quantity sku url note w))
| step_delete_item u1 utcnow send_text order_id item_id :
    request_step w
      (snd (delete_item OIDC_ENABLED u1 utcnow send_text order_id item_id w))
| step_subscribe order_id ws :
    request_step w (with_channel w (subscribe (w_subs w) order_id ws) (w_sent w))
| step_unsubscribe order_id ws :
    request_step w (with_channel w (unsubscribe (w_subs w) order_id ws) (w_sent w))
| step_reorder rowid :
    request_step w (with_rowid w rowid).

Inductive serve (d : Deployment) : Deployment -> Prop :=
| serve_request s w' :
    s = empty_session \/ s ∈ d_cookies d ->
    request_step (enter d s) w' ->
    serve d (leave d w').

(** The states a deployment goes through from empty tables. *)
Inductive reachable : Deployment -> Prop :=
| reachable_init : reachable empty_deployment
| reachable_step d d' : reachable d -> serve d d' -> reachable d'.

End Requests.

(** ** Sample data used by the concrete instances *)

Definition sample_order (invite_only allow_oidc privacy_mode : bool)
    (creator : option string) (deadline : Z) : Order :=
  {| o_id := "order-1"; o_admin_token := "secret-1";
     o_vendor_name := "Bakery"; o_vendor_url := "https://bakery.example";
     o_deadline := deadline; o_creator_name := "Admin";
     o_creator_identifier := creator;
     o_invite_only := invite_only; o_allow_oidc := allow_oidc;
     o_privacy_mode := privacy_mode |}.

Definition sample_item (item_id owner name quantity : string) : OrderItem :=
  {| i_id := item_id; i_order_id := "order-1";
     i_person_identifier := owner; i_person_name := name;
     i_product_name := "Bread"; i_product_sku := None; i_product_url := None;
     i_quantity := quantity; i_note := None |}.

Definition anon_identity : Identity :=
  {| id_type := "anon"; id_id := "a-1"; id_name := "" |}.
Definition token_identity : Identity :=
  {| id_type := "token"; id_id := "tok-1"; id_name := "Bob" |}.
Definition oidc_identity : Identity :=
  {| id_type := "oidc"; id_id := "sub-1"; id_name := "Carol" |}.

(** One order ["order-1"] with deadline [100], the given flags, no items,
    seen from the given session. *)
Definition sample_world (s : Session) (invite_only : bool) : World :=
  {| w_session := s;
     w_orders := {[ "order-1" := sample_order invite_only false false None 100 ]};
     w_items := ∅; w_tokens := ∅; w_subs := ∅; w_sent := []; w_rowid := fun _ => 0 |}.

Definition admin_session : Session :=
  {| s_identity := None; s_admin_orders := Some ["order-1"] |}.

(** An invite-only order with one invite, for ["Bob"]. *)
Definition sample_invite_world : World :=
  {| w_session := empty_session;
     w_orders := {[ "order-1" := sample_order true false false None 100 ]};
     w_items := ∅;
     w_tokens := {[ "tok-1" := {| t_token := "tok-1"; t_order_id := "order-1";
                                  t_display_name := "Bob" |} ]};
     w_subs := ∅; w_sent := []; w_rowid := fun _ => 0 |}.

(** Scenario D: connections 1, 2 and 3 follow order ["X"]; the send to
    connection 2 fails. *)
Definition scenario_D_subs : gmap string (gset nat) :=
  subscribe (subscribe (subscribe ∅ "X" 1%nat) "X" 2%nat) "X" 3%nat.
Definition scenario_D_send : nat -> bool := fun ws => negb (ws =? 2)%nat.

(** Two contributions to the same product: a free-text quantity, then a
    numeric one. *)
Definition mixed_quantities : list OrderItem :=
  [sample_item "it-1" "a-1" "Alice" "a few"; sample_item "it-2" "a-2" "Bob" "2"].

(** Stand-ins for the library functions in concrete instances. *)
Definition sample_fromisoformat : string -> option Z := fun _ => Some 0.
(** The interpreter's default digit limit, and an [int] that reads no
    text outside ASCII. *)
Definition default_max_str_digits : Z := 4300.
Definition sample_int_unicode : string -> option Z := fun _ => None.
Definition sample_isoformat : Z -> string := fun _ => "1970-01-01T00:00:00".
Definition sample_sign_token : string -> string := fun raw => raw ++ ".sig".
Definition sample_unsign_token : string -> option string := fun token => Some token.

Definition all_sends_succeed : nat -> bool := fun _ => true.

(** ** Pages and the live connection

    The handlers that answer with a page or a file and write nothing but
    the caller's identity, and the connection handler of
    [routers/ws.py]. *)

(** The context [_order_context] hands to the order page. *)
Record OrderContext := {
  ctx_order : Order;
  ctx_items : list OrderItem;
  ctx_identity : Identity;
  ctx_is_creator : bool;
  ctx_oidc_enabled : bool;
  ctx_now : Z;
  ctx_deadline_passed : bool;
  ctx_can_edit_item : Identity -> OrderItem -> Order -> bool;
  ctx_can_add : bool;
  ctx_admin_url : option string
}.

Section Pages.

Variable OIDC_ENABLED : bool.
Variable int_max_str_digits : Z.
Variable int_unicode : string -> option Z.

(** [_order_context]: [base_url] is [str(request.base_url).rstrip("/")]
    and [utcnow] the clock it reads. *)
Definition _order_context (base_url : string) (utcnow : Z) (order : Order)
    (identity : Identity) : Handler OrderContext :=
  fun w =>
    let is_admin := is_order_admin (w_session w) order in
    let now := utcnow in
    let deadline_passed := now >? o_deadline order in
    let visible_items :=
      List.filter (fun i => can_see_item identity i order is_admin)
        (order_items w (o_id order)) in
    let _can_edit := fun ident item o => can_edit_item OIDC_ENABLED ident item o is_admin in
    let admin_url :=
      base_url ++ "/orders/" ++ o_id order ++ "/admin/" ++ o_admin_token order in
    (Ok {| ctx_order := order;
           ctx_items := visible_items;
           ctx_identity := identity;
           ctx_is_creator := is_admin;
           ctx_oidc_enabled := OIDC_ENABLED;
           ctx_now := now;
           ctx_deadline_passed := deadline_passed;
           ctx_can_edit_item := _can_edit;
           ctx_can_add := can_add_item identity order is_admin;
           ctx_admin_url := if is_admin then Some admin_url else None |}, w).

Definition view_order (base_url uuid_identity : string) (utcnow : Z)
    (order_id : string) : Handler OrderContext :=
  do order <- _get_order order_id ;
  do identity <- request_identity uuid_identity ;
  _order_context base_url utcnow order identity.

(** [export_order]: the answer is the file, or the [TypeError] that
    [export_csv] lets through. *)
Definition export_order (uuid_identity : string) (order_id group : string)
    : Handler (PyExc + CsvResponse) :=
  do order <- _get_order order_id ;
  do identity <- request_identity uuid_identity ;
  do is_admin <- request_is_admin order ;
  do visible_items <- (fun w =>
    (Ok (List.filter (fun i => can_see_item identity i order is_admin)
           (order_items w (o_id order))), w)) ;
  let group :=
    if negb ((group =? "person")%string || (group =? "product")%string)
    then "person" else group in
  ret (export_csv int_max_str_digits int_unicode order visible_items group).

Definition items_partial (uuid_identity : string) (order_id : string)
    : Handler Response :=
  do order <- _get_order order_id ;
  do identity <- request_identity uuid_identity ;
  _items_response order identity.

(** [edit_form]: the answer is the item put into the form. *)
Definition edit_form (uuid_identity : string) (order_id item_id : string)
    : Handler OrderItem :=
  do order <- _get_order order_id ;
  do identity <- request_identity uuid_identity ;
  do is_admin <- request_is_admin order ;
  do found <- (fun w => (Ok (find_item w order_id item_id), w)) ;
  match found with
  | None => raise 404 "Item not found"
  | Some item =>
      if negb (can_edit_item OIDC_ENABLED identity item order is_admin)
      then raise 403 "Not allowed to edit this item"
      else ret item
  end.

End Pages.

(** How a connection handler ends: [accept] raises; or [receive_text]
    raises [WebSocketDisconnect] or another [Exception], which the
    handler catches; or the task is cancelled, and [CancelledError],
    which is no [Exception], passes the [except] clause. *)
Inductive Ending : Type :=
| AcceptRaised
| ExceptionCaught
| Cancelled.

(** [order_ws]: the connection is subscribed once accepted and
    unsubscribed in the [except] clause only; [during] is what the other
    requests and connections do to the registry in between. *)
Definition order_ws (ending : Ending)
    (during : gmap string (gset nat) -> gmap string (gset nat))
    (subs : gmap string (gset nat)) (order_id : string) (websocket : nat)
    : gmap string (gset nat) :=
  match ending with
  | AcceptRaised => subs
  | ExceptionCaught =>
      unsubscribe (during (subscribe subs order_id websocket)) order_id websocket
  | Cancelled => during (subscribe subs order_id websocket)
  end.

(** ** Invariants of the stored state *)

(** No order of the registry has an empty set of connections. *)
Definition no_empty_entry (subs : gmap string (gset nat)) : Prop :=
  forall order_id s, subs !! order_id = Some s -> s <> ∅.

(** Rows sit under their primary keys, and items and invites belong to
    stored orders. *)
Definition tables_ok (orders : gmap string Order) (items : gmap string OrderItem)
    (tokens : gmap string EmailToken) : Prop :=
  (forall k order, orders !! k = Some order -> o_id order = k) /\
  (forall k item, items !! k = Some item ->
     i_id item = k /\ is_Some (orders !! i_order_id item)) /\
  (forall k token, tokens !! k = Some token ->
     t_token token = k /\ is_Some (orders !! t_order_id token)).

(** Everything but the caller's session is as before. *)
Definition same_state (w w' : World) : Prop :=
  w_orders w' = w_orders w /\ w_items w' = w_items w /\
  w_tokens w' = w_tokens w /\ w_subs w' = w_subs w /\ w_sent w' = w_sent w.

(** A result that is not [Ok]. *)
Definition refused {A} (r : Result A) : Prop :=
  match r with Ok _ => False | _ => True end.



(** No element has a key strictly below that of the element before it. *)
Definition sorted_by {A} (key : A -> string) (l : list A) : Prop :=
  Sorted (fun x y => String.ltb (key y) (key x) = false) l.

(** The deployment after one order was created from empty tables. *)
Definition one_order_deployment : Deployment :=
  leave empty_deployment
    (snd (create_order UTC_zone sample_fromisoformat "u" "order-2" "secret-2"
            "Bakery" "https://bakery.example" "2024-05-01T12:00" false true true
            (enter empty_deployment empty_session))).

(** Order ["order-1"] (open until 100, public unless [privacy]) holding
    one item of contributor ["u"] and one of contributor ["v"], seen from
    the given session. *)
Definition two_items_world (s : Session) (privacy : bool) : World :=
  {| w_session := s;
     w_orders := {[ "order-1" := sample_order privacy false privacy None 100 ]};
     w_items := {[ "it-1" := sample_item "it-1" "u" "Al" "2";
                   "it-2" := sample_item "it-2" "v" "Vi" "3" ]};
     w_tokens := ∅; w_subs := ∅; w_sent := []; w_rowid := fun _ => 0 |}.

Definition session_of (identity : Identity) : Session :=
  {| s_identity := Some identity; s_admin_orders := None |}.

(* ===================================================================== *)
(** * Part II: the properties                                              *)
(* ===================================================================== *)

(** ** Authorization engine *)

Lemma string_eqb_true (a b : string) : (a =? b)%string = true <-> a = b.
Proof. apply String.eqb_eq. Qed.

(** C1, as stated, fails: with no OIDC configured and an order that is
    not invite-only, an invite (token) identity that does not own the
    item is refused. *)
Lemma C1_counterexample :
  ~ (forall identity item order,
        o_invite_only order = false ->
        can_edit_item false identity item order false = true).
Proof.
  intros H.
  specialize (H token_identity (sample_item "it-1" "a-1" "Alice" "1")
                (sample_order false false false None 100) eq_refl).
  vm_compute in H. discriminate H.
Qed.

(** C1, amended: with no OIDC configured, on an order that is not
    invite-only and for a caller who is not admin, [can_edit_item] is
    true for every anonymous identity whatever the item's contributor
    key; for an identity of any other kind it is true exactly when the
    identity's id equals the item's contributor key. *)
Theorem C1_open_mode_is_for_anonymous (identity : Identity) (item : OrderItem)
    (order : Order) :
  o_invite_only order = false ->
  (id_type identity = "anon" ->
     can_edit_item false identity item order false = true) /\
  (id_type identity <> "anon" ->
     (can_edit_item false identity item order false = true <->
      id_id identity = i_person_identifier item)).
Proof.
  intros Hopen. unfold can_edit_item. rewrite Hopen. simpl.
  split.
  - intros ->. reflexivity.
  - intros Hkind.
    destruct (id_type identity =? "anon")%string eqn:E.
    + apply string_eqb_true in E. contradiction.
    + simpl. apply string_eqb_true.
Qed.

Lemma C1_open_mode_witness :
  can_edit_item false anon_identity (sample_item "it-1" "someone-else" "Al" "1")
    (sample_order false false false None 100) false = true.
Proof.
  exact (proj1 (C1_open_mode_is_for_anonymous anon_identity
                  (sample_item "it-1" "someone-else" "Al" "1")
                  (sample_order false false false None 100) eq_refl) eq_refl).
Defined.

(** C4: [can_add_item] is true for an admin; for a non-admin on an
    invite-only order it is true exactly for an invite identity, or an
    external identity when the order allows external users without
    invite; for a non-admin on any other order it is true. *)
Theorem C4_can_add_item_decision (identity : Identity) (order : Order)
    (is_admin : bool) :
  (is_admin = true -> can_add_item identity order is_admin = true) /\
  (is_admin = false -> o_invite_only order = true ->
     (can_add_item identity order is_admin = true <->
      id_type identity = "token" \/
      (id_type identity = "oidc" /\ o_allow_oidc order = true))) /\
  (is_admin = false -> o_invite_only order = false ->
     can_add_item identity order is_admin = true).
Proof.
  unfold can_add_item. split; [|split].
  - intros ->. reflexivity.
  - intros -> ->. split.
    + destruct (id_type identity =? "token")%string eqn:Et.
      * intros _. left. now apply string_eqb_true.
      * destruct (id_type identity =? "oidc")%string eqn:Eo; simpl.
        -- destruct (o_allow_oidc order) eqn:Ea; [|discriminate].
           intros _. right. split; [now apply string_eqb_true | reflexivity].
        -- discriminate.
    + intros [Ht | [Ho Ha]].
      * apply string_eqb_true in Ht. now rewrite Ht.
      * apply string_eqb_true in Ho. rewrite Ho, Ha.
        now destruct (id_type identity =? "token")%string.
  - intros -> ->. reflexivity.
Qed.

(** Scenario B: invite-only, external users not allowed. *)
Lemma C4_scenario_B_witness :
  can_add_item token_identity (sample_order true false false None 100) false = true /\
  can_add_item oidc_identity (sample_order true false false None 100) false <> true.
Proof.
  split.
  - apply (proj1 (proj2 (C4_can_add_item_decision token_identity
                           (sample_order true false false None 100) false))
             eq_refl eq_refl).
    left. reflexivity.
  - intros H.
    apply (proj1 (proj2 (C4_can_add_item_decision oidc_identity
                           (sample_order true false false None 100) false))
             eq_refl eq_refl) in H.
    destruct H as [H | [_ H]]; discriminate H.
Defined.

(** ** Admin recognition *)

(** C6, as stated, fails: an external identity whose key is the empty
    string (the default of a missing [sub]) equals the creator key the
    order stored, yet [is_order_admin] is false, because the creator key
    is tested for truth first. *)
Lemma C6_counterexample :
  ~ (forall (uuid4 : string) (s : Session) (order : Order),
        is_order_admin s order = true <->
        (o_id order ∈ session_admin_orders s \/
         (id_type (fst (get_identity uuid4 s)) = "oidc" /\
          o_creator_identifier order = Some (id_id (fst (get_identity uuid4 s)))))).
Proof.
  intros H.
  specialize (H "u" (set_oidc_identity empty_session "" "Dan")
                (sample_order false false false (Some "") 100)).
  destruct H as [_ H].
  assert (F : is_order_admin (set_oidc_identity empty_session "" "Dan")
                (sample_order false false false (Some "") 100) = true).
  { apply H. right. split; reflexivity. }
  vm_compute in F. discriminate F.
Qed.

(** C6, amended: [is_order_admin] is true exactly when the order's id is
    in the session's admin-granted list, or the session's resolved
    identity is external and its key equals the order's creator key and
    that key is not empty; in particular a brand-new session that holds
    the creator's (non-empty) external key is admin at once. *)
Theorem C6_is_order_admin_decision (uuid4 : string) (s : Session) (order : Order) :
  (is_order_admin s order = true <->
   (o_id order ∈ session_admin_orders s \/
    (id_type (fst (get_identity uuid4 s)) = "oidc" /\
     o_creator_identifier order = Some (id_id (fst (get_identity uuid4 s))) /\
     id_id (fst (get_identity uuid4 s)) <> ""))) /\
  (forall K name, K <> "" -> o_creator_identifier order = Some K ->
     is_order_admin (set_oidc_identity empty_session K name) order = true).
Proof.
  split.
  - unfold is_order_admin, session_identity_type, session_identity_id, get_identity.
    destruct (bool_decide (o_id order ∈ session_admin_orders s)) eqn:Hin.
    { apply bool_decide_eq_true in Hin. split; auto. }
    apply bool_decide_eq_false in Hin.
    destruct (s_identity s) as [i|]; simpl.
    + destruct (o_creator_identifier order) as [c|]; simpl.
      * split.
        -- destruct (bool_decide (Some (id_type i) = Some "oidc")) eqn:Ht;
             [|discriminate].
           destruct (truthy c) eqn:Hc; [|discriminate].
           destruct (bool_decide (Some (id_id i) = Some c)) eqn:Hi;
             [|discriminate].
           intros _. right.
           apply bool_decide_eq_true in Ht, Hi.
           injection Ht as Ht. injection Hi as Hi. subst c.
           repeat split; auto.
           intros E. unfold truthy in Hc. rewrite E in Hc. discriminate Hc.
        -- intros [Hc | (Ht & Hi & Hne)]; [contradiction|].
           injection Hi as Hi. subst c.
           rewrite Ht.
           rewrite (bool_decide_eq_true_2 _ eq_refl).
           rewrite (bool_decide_eq_true_2 _ eq_refl).
           unfold truthy.
           destruct (id_id i =? "")%string eqn:E; [|reflexivity].
           apply string_eqb_true in E. contradiction.
      * rewrite andb_false_r. split; [discriminate|].
        intros [Hc | (_ & Hi & _)]; [contradiction | discriminate].
    + split; [discriminate|].
      intros [Hc | (Ht & _)]; [contradiction | discriminate].
  - intros K name HK Hcr.
    unfold is_order_admin, session_identity_type, session_identity_id. simpl.
    rewrite Hcr. simpl.
    rewrite (bool_decide_eq_true_2 _ eq_refl).
    unfold truthy. destruct (K =? "")%string eqn:E.
    + apply string_eqb_true in E. contradiction.
    + now destruct (bool_decide (o_id order ∈ [])).
Qed.

(** Scenario E: the creator's key on a brand-new session. *)
Lemma C6_scenario_E_witness :
  is_order_admin (set_oidc_identity empty_session "K" "Carol")
    (sample_order false false false (Some "K") 100) = true.
Proof.
  apply (proj2 (C6_is_order_admin_decision "u" empty_session
                  (sample_order false false false (Some "K") 100)) "K" "Carol").
  - discriminate.
  - reflexivity.
Defined.

(** Scenario A: the identity drawn on first contact stays. *)
Lemma get_identity_stable (u1 u2 : string) (s : Session) :
  get_identity u2 (snd (get_identity u1 s)) = get_identity u1 s.
Proof. unfold get_identity. destruct (s_identity s) eqn:E; simpl; now rewrite ?E. Qed.

Lemma can_see_item_public (identity : Identity) (item : OrderItem) (order : Order)
    (is_admin : bool) :
  o_privacy_mode order = false -> can_see_item identity item order is_admin = true.
Proof. unfold can_see_item. now intros ->. Qed.

(** Granting admin twice is granting it once. *)
Lemma set_order_admin_idempotent (s : Session) (order_id : string) :
  set_order_admin (set_order_admin s order_id) order_id = set_order_admin s order_id.
Proof.
  unfold set_order_admin, session_admin_orders. simpl.
  destruct (bool_decide (order_id ∈ default [] (s_admin_orders s))) eqn:E.
  - now rewrite E.
  - rewrite bool_decide_eq_true_2; [reflexivity|].
    set_solver.
Qed.

(** ** Admin grant protocol *)

(** C2, as stated, fails: with no order of that id the grant fails with
    404 "Order not found", not with a Forbidden error, so the two
    failures differ in shape. *)
Lemma C2_counterexample :
  ~ (forall (w : World) (order_id admin_token : string),
        (w_orders w !! order_id = None \/
         exists order, w_orders w !! order_id = Some order /\
                       o_admin_token order <> admin_token) ->
        exists detail,
          enter_admin order_id admin_token w = (HTTPException 403 detail, w)).
Proof.
  intros H.
  destruct (H empty_world "order-1" "guess") as [detail Hd].
  - left. reflexivity.
  - vm_compute in Hd. discriminate Hd.
Qed.

(** C2, amended: a grant on an order id that does not exist fails with
    404 "Order not found"; a grant with a secret that does not match the
    order's fails with 403 "Invalid admin token"; either way the session
    and everything else are left as they were.  With the matching secret
    the order id is added to the session's admin-granted list. *)
Theorem C2_enter_admin_outcomes (w : World) (order_id admin_token : string) :
  (w_orders w !! order_id = None ->
     enter_admin order_id admin_token w = (HTTPException 404 "Order not found", w)) /\
  (forall order, w_orders w !! order_id = Some order ->
     o_admin_token order <> admin_token ->
     enter_admin order_id admin_token w = (HTTPException 403 "Invalid admin token", w)) /\
  (forall order, w_orders w !! order_id = Some order ->
     o_admin_token order = admin_token ->
     enter_admin order_id admin_token w =
       (Ok (RedirectResponse ("/orders/" ++ order_id) 303),
        with_session w (set_order_admin (w_session w) order_id))).
Proof.
  unfold enter_admin, bind, _get_order, raise, ret.
  split; [|split].
  - intros ->. reflexivity.
  - intros order -> Hne.
    destruct (o_admin_token order =? admin_token)%string eqn:E; [|reflexivity].
    apply string_eqb_true in E. contradiction.
  - intros order -> <-. rewrite String.eqb_refl. reflexivity.
Qed.

Lemma C2_wrong_secret_witness :
  enter_admin "order-1" "guess" (sample_world empty_session false) =
    (HTTPException 403 "Invalid admin token", sample_world empty_session false).
Proof.
  apply (proj1 (proj2 (C2_enter_admin_outcomes (sample_world empty_session false)
                         "order-1" "guess"))
           (sample_order false false false None 100)).
  - reflexivity.
  - discriminate.
Defined.

(** ** Deadline gate *)

Lemma is_order_admin_get_identity (uuid4 : string) (s : Session) (order : Order) :
  is_order_admin (snd (get_identity uuid4 s)) order = is_order_admin s order.
Proof.
  unfold get_identity. destruct (s_identity s) as [i|] eqn:E; [reflexivity|].
  unfold is_order_admin, session_identity_type, session_identity_id,
    session_admin_orders. simpl. rewrite E. simpl.
  destruct (bool_decide _); reflexivity.
Qed.

Lemma can_add_item_admin (identity : Identity) (order : Order) :
  can_add_item identity order true = true.
Proof. reflexivity. Qed.

Lemma can_edit_item_admin (oidc : bool) (identity : Identity) (item : OrderItem)
    (order : Order) :
  can_edit_item oidc identity item order true = true.
Proof. reflexivity. Qed.

(** Unfolds a handler down to its case analysis. *)
Ltac handler_unfold :=
  unfold bind, _get_order, request_identity, request_is_admin, raise, ret,
    astimezone_utc, db_add_item, db_update_item, db_delete_item, notify, _items_response,
    session_set_name.

(** The three first steps shared by the item handlers. *)
Ltac handler_prelude Horder Hadm uuid w order :=
  rewrite Horder;
  pose proof (is_order_admin_get_identity uuid (w_session w) order) as Hadm;
  destruct (get_identity uuid (w_session w)) as [identity s'];
  simpl in Hadm |- *.

(** Closes a goal of the shape "the handler returned this error and the
    items are as before". *)
Ltac gate_refused :=
  eexists _, _; split; [reflexivity|]; split; [reflexivity|]; eauto.

(** C3, as stated, fails: editing an item id that the order does not
    hold is answered 404 "Item not found" before the gate is reached,
    also past the deadline and for a caller who is not admin. *)
Lemma C3_counterexample :
  ~ (forall (oidc : bool) (w : World) (order : Order) (uuid : string) (utcnow : Z)
            (send_text : nat -> bool)
            (order_id item_id person product quantity sku url note : string),
        w_orders w !! order_id = Some order ->
        utcnow > o_deadline order ->
        is_order_admin (w_session w) order = false ->
        exists detail w',
          edit_item oidc uuid utcnow send_text order_id item_id
            person product quantity sku url note w
          = (HTTPException 403 detail, w') /\
          w_items w' = w_items w).
Proof.
  intros H.
  destruct (H false (sample_world empty_session false)
              (sample_order false false false None 100) "u" 200 all_sends_succeed
              "order-1" "no-such-item" "Al" "Bread" "1" "" "" "")
    as (detail & w' & Hr & _); [reflexivity | reflexivity | reflexivity |].
  vm_compute in Hr. discriminate Hr.
Qed.

Section DeadlineGate.

#[local] Arguments can_edit_item : simpl never.
#[local] Arguments can_add_item : simpl never.

Variable OIDC_ENABLED : bool.
Variables (w : World) (order_id : string) (order : Order).
Variables (uuid : string) (utcnow : Z) (send_text : nat -> bool).
Hypothesis Horder : w_orders w !! order_id = Some order.

Lemma add_item_closed (uuid_item person product quantity sku url note : string) :
  utcnow > o_deadline order ->
  is_order_admin (w_session w) order = false ->
  exists detail w',
    add_item uuid uuid_item utcnow send_text order_id
      person product quantity sku url note w = (HTTPException 403 detail, w') /\
    w_items w' = w_items w.
Proof.
  intros Hlate Hna. unfold add_item. handler_unfold.
  handler_prelude Horder Hadm uuid w order. rewrite Hadm, Hna.
  destruct (can_add_item identity order false); simpl.
  - assert ((utcnow >? o_deadline order) = true) as -> by (apply Z.gtb_lt; lia).
    simpl. eexists _, _. split; reflexivity.
  - eexists _, _. split; reflexivity.
Qed.

Lemma edit_item_closed (item_id person product quantity sku url note : string) :
  utcnow > o_deadline order ->
  is_order_admin (w_session w) order = false ->
  exists r w',
    edit_item OIDC_ENABLED uuid utcnow send_text order_id item_id
      person product quantity sku url note w = (r, w') /\
    w_items w' = w_items w /\
    match find_item w order_id item_id with
    | Some _ => (exists detail, r = HTTPException 403 detail)
    | None => r = HTTPException 404 "Item not found"
    end.
Proof.
  intros Hlate Hna. unfold edit_item. handler_unfold.
  handler_prelude Horder Hadm uuid w order. rewrite Hadm, Hna.
  unfold find_item. simpl.
  destruct (w_items w !! item_id) as [item|]; [|gate_refused].
  destruct (i_order_id item =? order_id)%string; [|gate_refused].
  destruct (can_edit_item OIDC_ENABLED identity item order false); simpl.
  - assert ((utcnow >? o_deadline order) = true) as -> by (apply Z.gtb_lt; lia).
    simpl. gate_refused.
  - gate_refused.
Qed.

Lemma delete_item_closed (item_id : string) :
  utcnow > o_deadline order ->
  is_order_admin (w_session w) order = false ->
  exists r w',
    delete_item OIDC_ENABLED uuid utcnow send_text order_id item_id w = (r, w') /\
    w_items w' = w_items w /\
    match find_item w order_id item_id with
    | Some _ => (exists detail, r = HTTPException 403 detail)
    | None => r = HTTPException 404 "Item not found"
    end.
Proof.
  intros Hlate Hna. unfold delete_item. handler_unfold.
  handler_prelude Horder Hadm uuid w order. rewrite Hadm, Hna.
  unfold find_item. simpl.
  destruct (w_items w !! item_id) as [item|]; [|gate_refused].
  destruct (i_order_id item =? order_id)%string; [|gate_refused].
  destruct (can_edit_item OIDC_ENABLED identity item order false); simpl.
  - assert ((utcnow >? o_deadline order) = true) as -> by (apply Z.gtb_lt; lia).
    simpl. gate_refused.
  - gate_refused.
Qed.

Lemma add_item_admin (uuid_item person product quantity sku url note : string) :
  is_order_admin (w_session w) order = true ->
  w_items w !! uuid_item = None ->
  exists response w',
    add_item uuid uuid_item utcnow send_text order_id
      person product quantity sku url note w = (Ok response, w') /\
    is_Some (w_items w' !! uuid_item).
Proof.
  intros Had Hfresh. unfold add_item. handler_unfold.
  handler_prelude Horder Hadm uuid w order. rewrite Hadm, Had.
  rewrite andb_false_r. simpl.
  destruct ((id_type identity =? "anon")%string && negb (truthy (id_name identity)));
    simpl; rewrite Hfresh; simpl;
    destruct (broadcast send_text (w_subs w) order_id None) as [subs sent]; simpl;
    eexists _, _; (split; [reflexivity|]); simpl;
    rewrite lookup_insert_eq; eauto.
Qed.

Lemma edit_item_admin (item_id person product quantity sku url note : string) :
  is_order_admin (w_session w) order = true ->
  is_Some (find_item w order_id item_id) ->
  exists response w',
    edit_item OIDC_ENABLED uuid utcnow send_text order_id item_id
      person product quantity sku url note w = (Ok response, w').
Proof.
  intros Had [item Hfound]. unfold edit_item. handler_unfold.
  handler_prelude Horder Hadm uuid w order. rewrite Hadm, Had.
  replace (find_item (with_session w s') order_id item_id) with (Some item)
    by (rewrite <- Hfound; reflexivity).
  rewrite andb_false_r. simpl.
  destruct (broadcast send_text (w_subs w) order_id None) as [subs sent]; simpl.
  eauto.
Qed.

Lemma delete_item_admin (item_id : string) :
  is_order_admin (w_session w) order = true ->
  is_Some (find_item w order_id item_id) ->
  exists response w',
    delete_item OIDC_ENABLED uuid utcnow send_text order_id item_id w
      = (Ok response, w').
Proof.
  intros Had [item Hfound]. unfold delete_item. handler_unfold.
  handler_prelude Horder Hadm uuid w order. rewrite Hadm, Had.
  replace (find_item (with_session w s') order_id item_id) with (Some item)
    by (rewrite <- Hfound; reflexivity).
  rewrite andb_false_r. simpl.
  destruct (broadcast send_text (w_subs w) order_id None) as [subs sent]; simpl.
  eauto.
Qed.

(** C3, amended: past the deadline a caller who is not admin cannot
    change the items: adding fails with 403, editing or deleting an item
    the order holds fails with 403, editing or deleting an item id the
    order does not hold fails with 404 "Item not found", and the items
    table is unchanged in every case.  For an admin the deadline blocks
    nothing, whatever the clock reads: adding succeeds, and editing or
    deleting an item the order holds succeeds. *)
Theorem C3_deadline_gate :
  (utcnow > o_deadline order ->
   is_order_admin (w_session w) order = false ->
   (forall uuid_item person product quantity sku url note,
      exists detail w',
        add_item uuid uuid_item utcnow send_text order_id
          person product quantity sku url note w = (HTTPException 403 detail, w') /\
        w_items w' = w_items w) /\
   (forall item_id person product quantity sku url note,
      exists r w',
        edit_item OIDC_ENABLED uuid utcnow send_text order_id item_id
          person product quantity sku url note w = (r, w') /\
        w_items w' = w_items w /\
        match find_item w order_id item_id with
        | Some _ => (exists detail, r = HTTPException 403 detail)
        | None => r = HTTPException 404 "Item not found"
        end) /\
   (forall item_id,
      exists r w',
        delete_item OIDC_ENABLED uuid utcnow send_text order_id item_id w = (r, w') /\
        w_items w' = w_items w /\
        match find_item w order_id item_id with
        | Some _ => (exists detail, r = HTTPException 403 detail)
        | None => r = HTTPException 404 "Item not found"
        end)) /\
  (is_order_admin (w_session w) order = true ->
   (forall uuid_item person product quantity sku url note,
      w_items w !! uuid_item = None ->
      exists response w',
        add_item uuid uuid_item utcnow send_text order_id
          person product quantity sku url note w = (Ok response, w') /\
        is_Some (w_items w' !! uuid_item)) /\
   (forall item_id person product quantity sku url note,
      is_Some (find_item w order_id item_id) ->
      exists response w',
        edit_item OIDC_ENABLED uuid utcnow send_text order_id item_id
          person product quantity sku url note w = (Ok response, w')) /\
   (forall item_id,
      is_Some (find_item w order_id item_id) ->
      exists response w',
        delete_item OIDC_ENABLED uuid utcnow send_text order_id item_id w
          = (Ok response, w'))).
Proof.
  split.
  - intros Hlate Hna. split; [|split]; intros.
    + now apply add_item_closed.
    + now apply edit_item_closed.
    + now apply delete_item_closed.
  - intros Had. split; [|split]; intros.
    + now apply add_item_admin.
    + now apply edit_item_admin.
    + now apply delete_item_admin.
Qed.

End DeadlineGate.

(** Scenario C: order ["order-1"] closed at 100, the clock reads 200. *)
Lemma C3_scenario_C_witness :
  (exists detail w',
     add_item "u" "it-9" 200 all_sends_succeed "order-1" "Al" "Bread" "2" "" "" ""
       (sample_world empty_session false) = (HTTPException 403 detail, w') /\
     w_items w' = w_items (sample_world empty_session false)) /\
  (exists response w',
     add_item "u" "it-9" 200 all_sends_succeed "order-1" "Al" "Bread" "2" "" "" ""
       (sample_world admin_session false) = (Ok response, w') /\
     is_Some (w_items w' !! "it-9")).
Proof.
  split.
  - apply (proj1 (proj1 (C3_deadline_gate false (sample_world empty_session false)
                           "order-1" (sample_order false false false None 100)
                           "u" 200 all_sends_succeed eq_refl)
                    eq_refl eq_refl)).
  - apply (proj1 (proj2 (C3_deadline_gate false (sample_world admin_session false)
                           "order-1" (sample_order false false false None 100)
                           "u" 200 all_sends_succeed eq_refl)
                    eq_refl)).
    reflexivity.
Defined.

(** ** Order flags *)

Lemma flags_inv_same (orders orders' : gmap string Order) :
  orders' = orders -> flags_inv orders -> flags_inv orders'.
Proof. now intros ->. Qed.

Lemma flags_inv_insert (orders : gmap string Order) (k : string) (order : Order) :
  order_flags_ok order -> flags_inv orders -> flags_inv (<[k := order]> orders).
Proof.
  unfold flags_inv. intros Hok Hinv k' order'.
  rewrite lookup_insert. case_decide.
  - intros [= <-]. exact Hok.
  - apply Hinv.
Qed.

Lemma set_deadline_flags_ok (order : Order) (dt : Z) :
  order_flags_ok order -> order_flags_ok (set_deadline order dt).
Proof. unfold order_flags_ok. simpl. auto. Qed.

Lemma set_allow_oidc_flags_ok (order : Order) (allow_oidc : bool) :
  order_flags_ok order ->
  order_flags_ok (set_allow_oidc order (allow_oidc && o_invite_only order)).
Proof.
  unfold order_flags_ok. simpl. intros Hok Hopen.
  rewrite Hopen, andb_false_r. split; [reflexivity|]. now apply Hok.
Qed.

(** Splits a handler's run into its branches and closes those that leave
    the orders table as it was. *)
Ltac orders_untouched :=
  handler_unfold;
  repeat (simpl;
          match goal with
          | |- context [match ?x with _ => _ end] =>
              lazymatch x with
              | context [match _ with _ => _ end] => fail
              | _ => destruct x eqn:?
              end
          end);
  simpl; try reflexivity.

Section Flags.

Variable OIDC_ENABLED : bool.
Variable LOCAL_TZ : ZoneInfo.
Variable fromisoformat : string -> option Z.
Variable isoformat : Z -> string.
Variable sign_token : string -> string.
Variable unsign_token : string -> option string.

Lemma create_order_flags (w : World) u1 u2 u3 vendor_name vendor_url deadline
    invite_only allow_oidc privacy_mode :
  flags_inv (w_orders w) ->
  flags_inv (w_orders (snd (create_order LOCAL_TZ fromisoformat u1 u2 u3 vendor_name vendor_url
                    deadline invite_only allow_oidc privacy_mode w))).
Proof.
  intros Hinv. unfold create_order, db_add_order. handler_unfold.
  destruct (get_identity u1 (w_session w)) as [identity s'].
  destruct (fromisoformat deadline) as [dt_local|]; simpl;
    [|exact Hinv].
  destruct (local_to_utc LOCAL_TZ dt_local) as [dt|]; simpl;
    [|exact Hinv].
  destruct (w_orders w !! u2); simpl; [exact Hinv|].
  apply flags_inv_insert; [|exact Hinv].
  unfold order_flags_ok. simpl. intros ->. now rewrite !andb_false_r.
Qed.

Lemma extend_deadline_flags (w : World) send_text order_id new_deadline :
  flags_inv (w_orders w) ->
  flags_inv (w_orders (snd (extend_deadline LOCAL_TZ fromisoformat isoformat send_text
                    order_id new_deadline w))).
Proof.
  intros Hinv. unfold extend_deadline, db_update_order. handler_unfold.
  destruct (w_orders w !! order_id) as [order|] eqn:Ho; simpl;
    [|exact Hinv].
  destruct (is_order_admin (w_session w) order); simpl;
    [|exact Hinv].
  destruct (fromisoformat new_deadline) as [dt_local|]; simpl;
    [|exact Hinv].
  destruct (local_to_utc LOCAL_TZ dt_local) as [dt|]; simpl;
    [|exact Hinv].
  destruct (broadcast _ _ _ _) as [subs sent]. simpl.
  apply flags_inv_insert; [|exact Hinv].
  apply set_deadline_flags_ok. eapply Hinv, Ho.
Qed.

Lemma update_settings_flags (w : World) order_id allow_oidc :
  flags_inv (w_orders w) ->
  flags_inv (w_orders (snd (update_settings order_id allow_oidc w))).
Proof.
  intros Hinv. unfold update_settings, db_update_order. handler_unfold.
  destruct (w_orders w !! order_id) as [order|] eqn:Ho; simpl;
    [|exact Hinv].
  destruct (is_order_admin (w_session w) order); simpl;
    [|exact Hinv].
  apply flags_inv_insert; [|exact Hinv].
  apply set_allow_oidc_flags_ok. eapply Hinv, Ho.
Qed.

Lemma request_step_flags (w w' : World) :
  flags_inv (w_orders w) ->
  request_step OIDC_ENABLED LOCAL_TZ fromisoformat isoformat sign_token unsign_token
    w w' ->
  flags_inv (w_orders w').
Proof.
  intros Hinv Hstep. destruct Hstep.
  - apply (flags_inv_same (w_orders w)); [|exact Hinv].
    unfold index. orders_untouched.
  - apply (flags_inv_same (w_orders w)); [|exact Hinv].
    unfold callback. orders_untouched.
  - exact Hinv.
  - now apply create_order_flags.
  - apply (flags_inv_same (w_orders w)); [|exact Hinv].
    unfold enter_admin. orders_untouched.
  - apply (flags_inv_same (w_orders w)); [|exact Hinv].
    unfold create_token, db_add_token. orders_untouched.
  - apply (flags_inv_same (w_orders w)); [|exact Hinv].
    unfold join_via_token. orders_untouched.
  - now apply extend_deadline_flags.
  - now apply update_settings_flags.
  - apply (flags_inv_same (w_orders w)); [|exact Hinv].
    unfold add_item. orders_untouched.
  - apply (flags_inv_same (w_orders w)); [|exact Hinv].
    unfold edit_item. orders_untouched.
  - apply (flags_inv_same (w_orders w)); [|exact Hinv].
    unfold delete_item. orders_untouched.
  - exact Hinv.
  - exact Hinv.
  - exact Hinv.
Qed.

(** C5: an order created with [invite_only = false] stores
    [allow_oidc = false] and [privacy_mode = false] whatever the form
    asked for; a settings update on an order with [invite_only = false]
    stores [allow_oidc = false] whatever the form asked for, and leaves
    the other two flags as they were; every request keeps the invariant
    "[invite_only = false] implies both flags are false" on all stored
    orders, so it holds in every state reached from empty tables. *)
Theorem C5_flags_cleared_unless_invite_only :
  (forall w u1 u2 u3 vendor_name vendor_url deadline allow_oidc privacy_mode
          response w',
     create_order LOCAL_TZ fromisoformat u1 u2 u3 vendor_name vendor_url deadline
       false allow_oidc privacy_mode w = (Ok response, w') ->
     exists order,
       w_orders w' !! u2 = Some order /\ o_invite_only order = false /\
       o_allow_oidc order = false /\ o_privacy_mode order = false) /\
  (forall w order_id allow_oidc order response w',
     w_orders w !! order_id = Some order ->
     o_invite_only order = false ->
     update_settings order_id allow_oidc w = (Ok response, w') ->
     exists order',
       w_orders w' !! o_id order = Some order' /\ o_invite_only order' = false /\
       o_allow_oidc order' = false /\ o_privacy_mode order' = o_privacy_mode order) /\
  (forall w w',
     flags_inv (w_orders w) ->
     request_step OIDC_ENABLED LOCAL_TZ fromisoformat isoformat sign_token
       unsign_token w w' ->
     flags_inv (w_orders w')) /\
  (forall d,
     reachable OIDC_ENABLED LOCAL_TZ fromisoformat isoformat sign_token
       unsign_token d ->
     flags_inv (d_orders d)).
Proof.
  split; [|split; [|split]].
  - intros w u1 u2 u3 vendor_name vendor_url deadline allow_oidc privacy_mode
      response w'.
    unfold create_order, db_add_order. handler_unfold.
    destruct (get_identity u1 (w_session w)) as [identity s'].
    destruct (fromisoformat deadline) as [dt_local|]; simpl; [|discriminate].
    destruct (local_to_utc LOCAL_TZ dt_local) as [dt|]; simpl; [|discriminate].
    destruct (w_orders w !! u2); simpl; [discriminate|].
    intros [= _ <-]. simpl. rewrite lookup_insert_eq.
    eexists. split; [reflexivity|]. simpl. now rewrite !andb_false_r.
  - intros w order_id allow_oidc order response w' Ho Hopen.
    unfold update_settings, db_update_order. handler_unfold.
    rewrite Ho. simpl.
    destruct (is_order_admin (w_session w) order); simpl; [|discriminate].
    intros [= _ <-]. simpl. rewrite lookup_insert_eq.
    eexists. split; [reflexivity|]. simpl.
    now rewrite Hopen, andb_false_r.
  - exact request_step_flags.
  - intros d Hreach. induction Hreach as [|d d' _ IH Hserve].
    + intros k order. simpl. rewrite lookup_empty. discriminate.
    + destruct Hserve as [s w' _ Hstep].
      exact (request_step_flags (enter d s) w' IH Hstep).
Qed.

End Flags.

(** A public order asked for with both flags set stores them cleared. *)
Lemma C5_created_order_witness :
  exists order,
    w_orders (snd (create_order UTC_zone sample_fromisoformat "u" "order-2" "secret-2"
                     "Bakery" "https://bakery.example" "2024-05-01T12:00"
                     false true true empty_world)) !! "order-2" = Some order /\
    o_invite_only order = false /\ o_allow_oidc order = false /\
    o_privacy_mode order = false.
Proof.
  apply (proj1 (C5_flags_cleared_unless_invite_only false UTC_zone sample_fromisoformat
                  sample_isoformat sample_sign_token sample_unsign_token)
           empty_world "u" "order-2" "secret-2" "Bakery" "https://bakery.example"
           "2024-05-01T12:00" true true
           (RedirectResponse "/orders/order-2/admin/secret-2" 303)).
  reflexivity.
Defined.

(** ** Invite identities keep their name *)

Lemma invite_backed_grow (tokens tokens' : gmap string EmailToken) (s : Session) :
  (forall k email_token,
     tokens !! k = Some email_token -> tokens' !! k = Some email_token) ->
  invite_backed tokens s -> invite_backed tokens' s.
Proof.
  intros Hgrow Hb identity Hi Hty.
  destruct (Hb identity Hi Hty) as (email_token & Hlook & Hname).
  exists email_token. auto.
Qed.

Lemma invite_backed_empty_session (tokens : gmap string EmailToken) :
  invite_backed tokens empty_session.
Proof. intros identity Hi. discriminate Hi. Qed.

(** Splits a handler's run into its branches, the session's identity
    read off the session itself. *)
Ltac handler_cases :=
  handler_unfold; unfold get_identity;
  repeat (simpl;
          match goal with
          | |- context [match ?x with _ => _ end] =>
              lazymatch x with
              | context [match _ with _ => _ end] => fail
              | _ => destruct x eqn:?
              end
          end);
  simpl.

(** Closes "the session left is backed" in one branch: the identity is
    the one the request came with, or it is not an invite. *)
Ltac backed_leaf Hb :=
  let identity := fresh "identity" in
  let Hi := fresh "Hi" in
  let Hty := fresh "Hty" in
  intros identity Hi Hty; simpl in *;
  try match goal with
      | H : s_identity _ = _ |- _ =>
          tryif constr_eq H Hi then fail else (rewrite H in Hi; simpl in Hi)
      end;
  first
    [ now (apply Hb; [congruence | exact Hty])
    | discriminate Hi
    | injection Hi as <-; simpl in Hty; first
        [ discriminate Hty
        | match goal with
          | H : (id_type ?i =? "anon")%string && _ = true |- _ =>
              rewrite Hty in H; discriminate H
          end ] ].

Section InviteName.

Variable OIDC_ENABLED : bool.
Variable LOCAL_TZ : ZoneInfo.
Variable fromisoformat : string -> option Z.
Variable isoformat : Z -> string.
Variable sign_token : string -> string.
Variable unsign_token : string -> option string.

#[local] Arguments can_edit_item : simpl never.
#[local] Arguments can_add_item : simpl never.

Lemma request_step_tokens (w w' : World) :
  request_step OIDC_ENABLED LOCAL_TZ fromisoformat isoformat sign_token unsign_token
    w w' ->
  forall k email_token,
    w_tokens w !! k = Some email_token -> w_tokens w' !! k = Some email_token.
Proof.
  intros Hstep k email_token Hk.
  destruct Hstep;
    try (match goal with
         | |- w_tokens ?w1 !! _ = _ =>
             replace (w_tokens w1) with (w_tokens w); [exact Hk|]
         end;
         unfold index, callback, logout, create_order, db_add_order, enter_admin,
           join_via_token, extend_deadline, update_settings, db_update_order,
           add_item, edit_item, delete_item;
         handler_cases; reflexivity).
  unfold create_token, db_add_token. handler_cases; try exact Hk.
  rewrite lookup_insert_ne; [exact Hk|]. intros <-. congruence.
Qed.

Lemma request_step_backed (w w' : World) :
  request_step OIDC_ENABLED LOCAL_TZ fromisoformat isoformat sign_token unsign_token
    w w' ->
  invite_backed (w_tokens w) (w_session w) ->
  invite_backed (w_tokens w') (w_session w').
Proof.
  intros Hstep Hb.
  apply (invite_backed_grow (w_tokens w)); [now apply request_step_tokens|].
  destruct Hstep.
  - unfold index. handler_cases; backed_leaf Hb.
  - unfold callback. handler_cases; backed_leaf Hb.
  - unfold logout. handler_cases; backed_leaf Hb.
  - unfold create_order, db_add_order. handler_cases; backed_leaf Hb.
  - unfold enter_admin. handler_cases; backed_leaf Hb.
  - unfold create_token, db_add_token. handler_cases; backed_leaf Hb.
  - unfold join_via_token. handler_cases; try backed_leaf Hb.
    intros identity [= <-] _. simpl.
    match goal with
    | H : w_tokens w !! _ = Some ?t |- _ => exists t; split; [exact H | reflexivity]
    end.
  - unfold extend_deadline, db_update_order. handler_cases; backed_leaf Hb.
  - unfold update_settings, db_update_order. handler_cases; backed_leaf Hb.
  - unfold add_item. handler_cases; backed_leaf Hb.
  - unfold edit_item. handler_cases; backed_leaf Hb.
  - unfold delete_item. handler_cases; backed_leaf Hb.
  - exact Hb.
  - exact Hb.
  - exact Hb.
Qed.

Lemma reachable_backed (d : Deployment) :
  reachable OIDC_ENABLED LOCAL_TZ fromisoformat isoformat sign_token unsign_token d ->
  forall s, s ∈ d_cookies d -> invite_backed (d_tokens d) s.
Proof.
  intros Hreach. induction Hreach as [|d d' _ IH Hserve]; intros s Hs.
  - simpl in Hs. inversion Hs.
  - destruct Hserve as [s0 w' Hs0 Hstep]. simpl in Hs |- *.
    assert (Hb0 : invite_backed (w_tokens (enter d s0)) (w_session (enter d s0))).
    { simpl. destruct Hs0 as [-> | Hs0];
        [apply invite_backed_empty_session | now apply IH]. }
    apply elem_of_cons in Hs. destruct Hs as [-> | Hs].
    + exact (request_step_backed _ _ Hstep Hb0).
    + apply (invite_backed_grow (d_tokens d)); [|now apply IH].
      exact (request_step_tokens _ _ Hstep).
Qed.

Lemma join_via_token_sets_name (w : World) order_id token response w' :
  join_via_token unsign_token order_id token w = (Ok response, w') ->
  exists email_token,
    w_tokens w !! token = Some email_token /\
    s_identity (w_session w') =
      Some {| id_type := "token"; id_id := token;
              id_name := t_display_name email_token |}.
Proof.
  unfold join_via_token. handler_unfold.
  destruct (unsign_token token); [|discriminate].
  destruct (w_tokens w !! token) as [t|]; [|discriminate].
  destruct (t_order_id t =? order_id)%string; [|discriminate].
  intros [= _ <-]. exists t. split; reflexivity.
Qed.

Lemma add_item_invite_name (w : World) (identity : Identity)
    uuid uuid_item utcnow send_text order_id
    person_name product quantity sku url note response w' :
  s_identity (w_session w) = Some identity ->
  id_type identity = "token" ->
  add_item uuid uuid_item utcnow send_text order_id
    person_name product quantity sku url note w = (Ok response, w') ->
  exists item,
    w_items w' !! uuid_item = Some item /\
    i_person_name item = id_name identity.
Proof.
  intros Hid Hkind. unfold add_item. handler_unfold.
  destruct (w_orders w !! order_id) as [order|]; [|discriminate].
  unfold get_identity. rewrite Hid, Hkind. simpl.
  destruct (negb (can_add_item identity order _)); [discriminate|].
  destruct ((utcnow >? o_deadline order) && _); [discriminate|].
  simpl.
  destruct (w_items w !! uuid_item); [discriminate|]. simpl.
  destruct (broadcast send_text (w_subs w) order_id None) as [subs sent]. simpl.
  intros [= _ <-]. simpl.
  eexists. split; [apply lookup_insert_eq | reflexivity].
Qed.

Lemma edit_item_invite_name (w : World) (identity : Identity)
    uuid utcnow send_text order_id item_id
    person_name product quantity sku url note response w' :
  s_identity (w_session w) = Some identity ->
  id_type identity = "token" ->
  edit_item OIDC_ENABLED uuid utcnow send_text order_id item_id
    person_name product quantity sku url note w = (Ok response, w') ->
  exists item item',
    find_item w order_id item_id = Some item /\
    w_items w' !! i_id item = Some item' /\
    i_person_name item' = id_name identity.
Proof.
  intros Hid Hkind. unfold edit_item. handler_unfold.
  destruct (w_orders w !! order_id) as [order|]; [|discriminate].
  unfold get_identity. rewrite Hid. simpl.
  replace (find_item (with_session w (w_session w)) order_id item_id)
    with (find_item w order_id item_id) by reflexivity.
  destruct (find_item w order_id item_id) as [item|]; [|discriminate].
  destruct (negb (can_edit_item OIDC_ENABLED identity item order _));
    [discriminate|].
  destruct ((utcnow >? o_deadline order) && _); [discriminate|].
  simpl.
  destruct (broadcast send_text (w_subs w) order_id None) as [subs sent]. simpl.
  intros [= _ <-]. simpl.
  eexists _, _. split; [reflexivity|]. split; [apply lookup_insert_eq|].
  simpl. now rewrite Hkind.
Qed.

(** An invite identity always passes [can_add_item], so its [add_item]
    goes through while the order is open or for an admin. *)
Lemma add_item_invite_succeeds (w : World) (identity : Identity) (order : Order)
    uuid uuid_item utcnow send_text order_id
    person_name product quantity sku url note :
  s_identity (w_session w) = Some identity ->
  id_type identity = "token" ->
  w_orders w !! order_id = Some order ->
  is_order_admin (w_session w) order = true \/ utcnow <= o_deadline order ->
  w_items w !! uuid_item = None ->
  exists response w' item,
    add_item uuid uuid_item utcnow send_text order_id
      person_name product quantity sku url note w = (Ok response, w') /\
    w_items w' !! uuid_item = Some item /\
    i_person_name item = id_name identity /\
    i_person_identifier item = id_id identity.
Proof.
  intros Hid Hkind Horder Hopen Hfresh. unfold add_item. handler_unfold.
  rewrite Horder. unfold get_identity. rewrite Hid. simpl.
  assert (Hcan : can_add_item identity order (is_order_admin (w_session w) order)
                 = true).
  { unfold can_add_item. rewrite Hkind. simpl.
    now destruct (is_order_admin (w_session w) order), (o_invite_only order). }
  rewrite Hcan. simpl.
  assert (Hgate : (utcnow >? o_deadline order)
                  && negb (is_order_admin (w_session w) order) = false).
  { destruct Hopen as [-> | Hle]; [apply andb_false_r|].
    destruct (Z.gtb_spec utcnow (o_deadline order)); [lia | reflexivity]. }
  rewrite Hgate, Hkind. simpl. rewrite Hfresh. simpl.
  destruct (broadcast send_text (w_subs w) order_id None) as [subs sent]. simpl.
  eexists _, _, _. split; [reflexivity|]. simpl.
  split; [apply lookup_insert_eq|]. split; reflexivity.
Qed.

(** An invite identity can edit the item stored under its token while
    the order is open, and any item of the order when it is admin. *)
Lemma edit_item_invite_succeeds (w : World) (identity : Identity) (order : Order)
    (item : OrderItem) uuid utcnow send_text order_id item_id
    person_name product quantity sku url note :
  s_identity (w_session w) = Some identity ->
  id_type identity = "token" ->
  w_orders w !! order_id = Some order ->
  find_item w order_id item_id = Some item ->
  (is_order_admin (w_session w) order = true \/
   i_person_identifier item = id_id identity /\ utcnow <= o_deadline order) ->
  exists response w' item',
    edit_item OIDC_ENABLED uuid utcnow send_text order_id item_id
      person_name product quantity sku url note w = (Ok response, w') /\
    w_items w' !! i_id item = Some item' /\
    i_person_name item' = id_name identity /\
    i_person_identifier item' = i_person_identifier item.
Proof.
  intros Hid Hkind Horder Hfound Hopen. unfold edit_item. handler_unfold.
  rewrite Horder. unfold get_identity. rewrite Hid. simpl.
  replace (find_item (with_session w (w_session w)) order_id item_id)
    with (find_item w order_id item_id) by reflexivity.
  rewrite Hfound.
  assert (Hcan : can_edit_item OIDC_ENABLED identity item order
                   (is_order_admin (w_session w) order) = true).
  { unfold can_edit_item. destruct Hopen as [-> | [Hown _]]; [reflexivity|].
    rewrite Hkind, Hown, String.eqb_refl. simpl.
    now destruct (is_order_admin (w_session w) order). }
  rewrite Hcan. simpl.
  assert (Hgate : (utcnow >? o_deadline order)
                  && negb (is_order_admin (w_session w) order) = false).
  { destruct Hopen as [-> | [_ Hle]]; [apply andb_false_r|].
    destruct (Z.gtb_spec utcnow (o_deadline order)); [lia | reflexivity]. }
  rewrite Hgate. simpl.
  destruct (broadcast send_text (w_subs w) order_id None) as [subs sent]. simpl.
  eexists _, _, _. split; [reflexivity|]. simpl.
  split; [apply lookup_insert_eq|]. simpl. rewrite Hkind. split; reflexivity.
Qed.

(** C10: redeeming an invite sets the session's name to the token's
    display name, and in every state the deployment reaches a session
    whose identity is an invite carries the display name of its token;
    whenever an invite identity adds or edits an item, the item is
    stored under that name, whatever [person_name] the form carried; and
    such writes do happen: an invite identity's [add_item] succeeds
    while the order is open, and its [edit_item] succeeds on the item
    stored under its token while the order is open (for an admin, on any
    item of the order at any time), the item keeping its contributor
    key. *)
Theorem C10_invite_name_overrides_form :
  (forall w order_id token response w',
     join_via_token unsign_token order_id token w = (Ok response, w') ->
     exists email_token,
       w_tokens w !! token = Some email_token /\
       s_identity (w_session w') =
         Some {| id_type := "token"; id_id := token;
                 id_name := t_display_name email_token |}) /\
  (forall d s identity,
     reachable OIDC_ENABLED LOCAL_TZ fromisoformat isoformat sign_token
       unsign_token d ->
     s ∈ d_cookies d ->
     s_identity s = Some identity ->
     id_type identity = "token" ->
     exists email_token,
       d_tokens d !! id_id identity = Some email_token /\
       t_display_name email_token = id_name identity) /\
  (forall w identity uuid uuid_item utcnow send_text order_id
          person_name product quantity sku url note response w',
     s_identity (w_session w) = Some identity ->
     id_type identity = "token" ->
     add_item uuid uuid_item utcnow send_text order_id
       person_name product quantity sku url note w = (Ok response, w') ->
     exists item,
       w_items w' !! uuid_item = Some item /\
       i_person_name item = id_name identity) /\
  (forall w identity uuid utcnow send_text order_id item_id
          person_name product quantity sku url note response w',
     s_identity (w_session w) = Some identity ->
     id_type identity = "token" ->
     edit_item OIDC_ENABLED uuid utcnow send_text order_id item_id
       person_name product quantity sku url note w = (Ok response, w') ->
     exists item item',
       find_item w order_id item_id = Some item /\
       w_items w' !! i_id item = Some item' /\
       i_person_name item' = id_name identity) /\
  (forall w identity order uuid uuid_item utcnow send_text order_id
          person_name product quantity sku url note,
     s_identity (w_session w) = Some identity ->
     id_type identity = "token" ->
     w_orders w !! order_id = Some order ->
     is_order_admin (w_session w) order = true \/ utcnow <= o_deadline order ->
     w_items w !! uuid_item = None ->
     exists response w' item,
       add_item uuid uuid_item utcnow send_text order_id
         person_name product quantity sku url note w = (Ok response, w') /\
       w_items w' !! uuid_item = Some item /\
       i_person_name item = id_name identity /\
       i_person_identifier item = id_id identity) /\
  (forall w identity order item uuid utcnow send_text order_id item_id
          person_name product quantity sku url note,
     s_identity (w_session w) = Some identity ->
     id_type identity = "token" ->
     w_orders w !! order_id = Some order ->
     find_item w order_id item_id = Some item ->
     (is_order_admin (w_session w) order = true \/
      i_person_identifier item = id_id identity /\ utcnow <= o_deadline order) ->
     exists response w' item',
       edit_item OIDC_ENABLED uuid utcnow send_text order_id item_id
         person_name product quantity sku url note w = (Ok response, w') /\
       w_items w' !! i_id item = Some item' /\
       i_person_name item' = id_name identity /\
       i_person_identifier item' = i_person_identifier item).
Proof.
  split; [|split; [|split; [|split; [|split]]]].
  - intros w order_id token response w'. apply join_via_token_sets_name.
  - intros d s identity Hreach Hs Hid Hkind.
    exact (reachable_backed d Hreach s Hs identity Hid Hkind).
  - intros w identity uuid uuid_item utcnow send_text order_id
      person_name product quantity sku url note response w'.
    apply add_item_invite_name.
  - intros w identity uuid utcnow send_text order_id item_id
      person_name product quantity sku url note response w'.
    apply edit_item_invite_name.
  - intros w identity order uuid uuid_item utcnow send_text order_id
      person_name product quantity sku url note.
    apply add_item_invite_succeeds.
  - intros w identity order item uuid utcnow send_text order_id item_id
      person_name product quantity sku url note.
    apply edit_item_invite_succeeds.
Qed.

End InviteName.

(** Bob redeems his invite and adds an item; he then edits it, and the
    form carries another name: the edit goes through and the item is
    still Bob's. *)
Lemma C10_invite_name_witness :
  exists response w' item',
    edit_item false "u" 60 all_sends_succeed "order-1" "it-1"
      "Mallory" "Cake" "3" "" "" ""
      (snd (add_item "u" "it-1" 50 all_sends_succeed "order-1"
              "Mallory" "Bread" "2" "" "" ""
              (snd (join_via_token sample_unsign_token "order-1" "tok-1"
                      sample_invite_world))))
      = (Ok response, w') /\
    w_items w' !! "it-1" = Some item' /\
    i_person_name item' = "Bob" /\
    i_person_identifier item' = "tok-1".
Proof.
  apply (proj2 (proj2 (proj2 (proj2 (proj2
           (C10_invite_name_overrides_form false UTC_zone sample_fromisoformat
              sample_isoformat sample_sign_token sample_unsign_token)))))
           (snd (add_item "u" "it-1" 50 all_sends_succeed "order-1"
                   "Mallory" "Bread" "2" "" "" ""
                   (snd (join_via_token sample_unsign_token "order-1" "tok-1"
                           sample_invite_world))))
           {| id_type := "token"; id_id := "tok-1"; id_name := "Bob" |}
           (sample_order true false false None 100)
           {| i_id := "it-1"; i_order_id := "order-1";
              i_person_identifier := "tok-1"; i_person_name := "Bob";
              i_product_name := "Bread"; i_product_sku := None;
              i_product_url := None; i_quantity := "2"; i_note := None |}
           "u" 60 all_sends_succeed "order-1" "it-1" "Mallory" "Cake" "3" "" "" "").
  - reflexivity.
  - reflexivity.
  - reflexivity.
  - vm_compute. reflexivity.
  - right. split; [reflexivity | simpl; lia].
Defined.

(** ** Live update broadcaster *)

Lemma send_all_dead (send_text : nat -> bool) (payload : Payload) (l : list nat)
    (ws : nat) :
  ws ∈ (send_all send_text payload l).1 <-> ws ∈ l /\ send_text ws = false.
Proof.
  induction l as [|a l IH]; simpl.
  - set_solver.
  - destruct (send_all send_text payload l) as [dead sent].
    destruct (send_text a) eqn:Ea; simpl in *.
    + rewrite IH, elem_of_cons. split.
      * intros [? ?]. auto.
      * intros [[-> | ?] ?]; [congruence | auto].
    + rewrite elem_of_union, elem_of_singleton, IH, elem_of_cons. split.
      * intros [-> | [? ?]]; auto.
      * intros [[-> | ?] ?]; auto.
Qed.

Lemma send_all_sent (send_text : nat -> bool) (payload : Payload) (l : list nat)
    (ws : nat) (p : Payload) :
  (ws, p) ∈ (send_all send_text payload l).2 <->
  ws ∈ l /\ send_text ws = true /\ p = payload.
Proof.
  induction l as [|a l IH]; simpl.
  - split; [intros H; inversion H | intros [H _]; inversion H].
  - destruct (send_all send_text payload l) as [dead sent].
    destruct (send_text a) eqn:Ea; simpl in *.
    + rewrite !elem_of_cons, IH. split.
      * intros [[= -> ->] | (? & ? & ?)]; auto.
      * intros ([-> | ?] & ? & ->); auto.
    + rewrite IH, elem_of_cons. split.
      * intros (? & ? & ?). auto.
      * intros ([-> | ?] & ? & ?); [congruence | auto].
Qed.

Lemma subscribers_unsubscribe (subs : gmap string (gset nat)) (order_id : string)
    (ws : nat) :
  subscribers (unsubscribe subs order_id ws) order_id
  = subscribers subs order_id ∖ {[ws]}.
Proof.
  unfold unsubscribe. case_decide as Hempty.
  - rewrite Hempty. unfold subscribers at 1. now rewrite lookup_delete_eq.
  - unfold subscribers at 1. now rewrite lookup_insert_eq.
Qed.

Lemma unsubscribe_other (subs : gmap string (gset nat)) (order_id other : string)
    (ws : nat) :
  other <> order_id -> unsubscribe subs order_id ws !! other = subs !! other.
Proof.
  intros Hne. unfold unsubscribe. case_decide.
  - now rewrite lookup_delete_ne.
  - now rewrite lookup_insert_ne.
Qed.

Lemma subscribers_unsubscribe_all (order_id : string) (dead : list nat) :
  forall subs : gmap string (gset nat),
    subscribers (unsubscribe_all subs order_id dead) order_id
    = subscribers subs order_id ∖ list_to_set dead.
Proof.
  induction dead as [|ws dead IH]; intros subs; simpl.
  - set_solver.
  - rewrite IH, subscribers_unsubscribe. set_solver.
Qed.

Lemma unsubscribe_all_other (order_id other : string) (dead : list nat) :
  other <> order_id ->
  forall subs : gmap string (gset nat),
    unsubscribe_all subs order_id dead !! other = subs !! other.
Proof.
  intros Hne. induction dead as [|ws dead IH]; intros subs; simpl.
  - reflexivity.
  - rewrite IH. now apply unsubscribe_other.
Qed.

(** An order without subscribers has no entry, once pruned. *)
Lemma unsubscribe_discards_empty (subs : gmap string (gset nat)) (order_id : string)
    (ws : nat) :
  subscribers subs order_id ⊆ {[ws]} -> unsubscribe subs order_id ws !! order_id = None.
Proof.
  intros Hsub. unfold unsubscribe. case_decide as Hempty.
  - apply lookup_delete_eq.
  - exfalso. apply Hempty. set_solver.
Qed.

(** Unsubscribing a connection that is not subscribed changes no
    subscriber set. *)
Lemma unsubscribe_not_subscribed (subs : gmap string (gset nat))
    (order_id other : string) (ws : nat) :
  ws ∉ subscribers subs order_id ->
  subscribers (unsubscribe subs order_id ws) other = subscribers subs other.
Proof.
  intros Hnot. destruct (decide (other = order_id)) as [->|Hne].
  - rewrite subscribers_unsubscribe. set_solver.
  - unfold subscribers. now rewrite unsubscribe_other.
Qed.

Lemma broadcast_subscribers (send_text : nat -> bool) (subs : gmap string (gset nat))
    (order_id : string) (deadline : option string) (ws : nat) :
  ws ∈ subscribers (broadcast send_text subs order_id deadline).1 order_id <->
  ws ∈ subscribers subs order_id /\ send_text ws = true.
Proof.
  unfold broadcast.
  pose proof (send_all_dead send_text {| p_type := "update"; p_deadline := deadline |}
                (elements (subscribers subs order_id))) as Hdead.
  destruct (send_all _ _ _) as [dead sent]. simpl in *.
  rewrite subscribers_unsubscribe_all, list_to_set_elements_L, elem_of_difference.
  rewrite Hdead, elem_of_elements.
  destruct (send_text ws); split; intros [? ?]; split; auto.
  all: try congruence.
  intros [_ ?]. congruence.
Qed.

Lemma broadcast_sent (send_text : nat -> bool) (subs : gmap string (gset nat))
    (order_id : string) (deadline : option string) (ws : nat) (p : Payload) :
  (ws, p) ∈ (broadcast send_text subs order_id deadline).2 <->
  ws ∈ subscribers subs order_id /\ send_text ws = true /\
  p = {| p_type := "update"; p_deadline := deadline |}.
Proof.
  unfold broadcast.
  pose proof (send_all_sent send_text {| p_type := "update"; p_deadline := deadline |}
                (elements (subscribers subs order_id)) ws p) as Hsent.
  destruct (send_all _ _ _) as [dead sent]. simpl in *.
  now rewrite Hsent, elem_of_elements.
Qed.

Lemma broadcast_other (send_text : nat -> bool) (subs : gmap string (gset nat))
    (order_id other : string) (deadline : option string) :
  other <> order_id ->
  (broadcast send_text subs order_id deadline).1 !! other = subs !! other.
Proof.
  intros Hne. unfold broadcast.
  destruct (send_all _ _ _) as [dead sent]. simpl.
  now apply unsubscribe_all_other.
Qed.

Lemma send_all_receivers (send_text : nat -> bool) (payload : Payload) (l : list nat) :
  (send_all send_text payload l).2.*1 = List.filter send_text l.
Proof.
  induction l as [|a l IH]; simpl; [reflexivity|].
  destruct (send_all send_text payload l) as [dead sent].
  cbn [snd] in IH.
  destruct (send_text a); cbn [snd].
  - rewrite fmap_cons. cbn [fst]. now rewrite IH.
  - exact IH.
Qed.

Lemma broadcast_once (send_text : nat -> bool) (subs : gmap string (gset nat))
    (order_id : string) (deadline : option string) :
  NoDup (broadcast send_text subs order_id deadline).2.*1.
Proof.
  unfold broadcast.
  pose proof (send_all_receivers send_text
                {| p_type := "update"; p_deadline := deadline |}
                (elements (subscribers subs order_id))) as Hrecv.
  destruct (send_all _ _ _) as [dead sent]. cbn [fst snd] in *.
  rewrite Hrecv. apply NoDup_ListNoDup, List.NoDup_filter, NoDup_ListNoDup, NoDup_elements.
Qed.

(** C7: [broadcast] sends the payload [{type: update, deadline: hint}]
    to every connection subscribed to the order when it is called: each
    connection whose send succeeds receives it, once, and nothing else is
    delivered; a connection whose send fails is removed, and only such
    connections are removed, from this order's set only; [broadcast]
    returns (inside a handler it never raises); and a following
    broadcast for the order reaches exactly the connections that
    remained. *)
Theorem C7_broadcast_best_effort (send_text : nat -> bool)
    (subs : gmap string (gset nat)) (order_id : string) (deadline : option string) :
  (forall ws, ws ∈ subscribers subs order_id -> send_text ws = true ->
     (ws, {| p_type := "update"; p_deadline := deadline |})
       ∈ (broadcast send_text subs order_id deadline).2) /\
  (forall ws p, (ws, p) ∈ (broadcast send_text subs order_id deadline).2 ->
     ws ∈ subscribers subs order_id /\ send_text ws = true /\
     p = {| p_type := "update"; p_deadline := deadline |}) /\
  NoDup (broadcast send_text subs order_id deadline).2.*1 /\
  (forall ws,
     ws ∈ subscribers (broadcast send_text subs order_id deadline).1 order_id <->
     ws ∈ subscribers subs order_id /\ send_text ws = true) /\
  (forall other, other <> order_id ->
     (broadcast send_text subs order_id deadline).1 !! other = subs !! other) /\
  (forall w, exists w', notify send_text order_id deadline w = (Ok tt, w')) /\
  (forall send_text2 deadline2 ws p,
     (ws, p) ∈ (broadcast send_text2 (broadcast send_text subs order_id deadline).1
                  order_id deadline2).2 <->
     (ws ∈ subscribers (broadcast send_text subs order_id deadline).1 order_id /\
      send_text2 ws = true /\
      p = {| p_type := "update"; p_deadline := deadline2 |})).
Proof.
  split; [|split; [|split; [|split; [|split; [|split]]]]].
  - intros ws Hin Hok. apply broadcast_sent. auto.
  - intros ws p Hin. now apply broadcast_sent in Hin.
  - apply broadcast_once.
  - intros ws. apply broadcast_subscribers.
  - intros other Hne. now apply broadcast_other.
  - intros w. unfold notify.
    destruct (broadcast send_text (w_subs w) order_id deadline) as [subs' sent].
    eauto.
  - intros send_text2 deadline2 ws p. apply broadcast_sent.
Qed.

(** Scenario D: the payload reaches connections 1 and 3, connection 2 is
    pruned, and the next broadcast reaches 1 and 3 only. *)
Lemma C7_scenario_D_witness :
  (1%nat, {| p_type := "update"; p_deadline := None |})
    ∈ (broadcast scenario_D_send scenario_D_subs "X" None).2 /\
  (3%nat, {| p_type := "update"; p_deadline := None |})
    ∈ (broadcast scenario_D_send scenario_D_subs "X" None).2 /\
  (2%nat ∉ subscribers (broadcast scenario_D_send scenario_D_subs "X" None).1 "X") /\
  (forall ws p,
     (ws, p) ∈ (broadcast all_sends_succeed
                  (broadcast scenario_D_send scenario_D_subs "X" None).1 "X" None).2 ->
     ws = 1%nat \/ ws = 3%nat).
Proof.
  pose proof (C7_broadcast_best_effort scenario_D_send scenario_D_subs "X" None)
    as (Hdeliver & _ & _ & Hleft & _ & _ & Hnext).
  assert (Hsubs : forall ws, ws ∈ subscribers scenario_D_subs "X" <->
                             ws = 1%nat \/ ws = 2%nat \/ ws = 3%nat).
  { intros ws. unfold scenario_D_subs, subscribe, subscribers.
    rewrite !lookup_insert_eq. simpl. rewrite lookup_empty. simpl. set_solver. }
  split; [|split; [|split]].
  - apply Hdeliver; [apply Hsubs; auto | reflexivity].
  - apply Hdeliver; [apply Hsubs; auto | reflexivity].
  - intros Hin. apply Hleft in Hin. destruct Hin as [_ Hin]. discriminate Hin.
  - intros ws p Hin. apply Hnext in Hin. destruct Hin as (Hin & _ & _).
    apply Hleft in Hin. destruct Hin as [Hin Hok].
    apply Hsubs in Hin. destruct Hin as [-> | [-> | ->]]; auto.
    discriminate Hok.
Defined.

(** ** Deadline round trip *)

Lemma utc_lookup_lower (r : list (Z * Z)) :
  forall t l cur u,
    zone_wf t l r -> l <= u + cur -> l <= u + utc_lookup cur r u.
Proof.
  induction r as [|[t2 o2] r IH]; intros t l cur u Hwf Hl; simpl.
  - exact Hl.
  - destruct Hwf as (Ht & Hmono & Hwf).
    destruct (u <? t2) eqn:E; [exact Hl|].
    apply Z.ltb_ge in E.
    specialize (IH t2 (t2 + o2) o2 u Hwf). lia.
Qed.

Lemma wall_lookup_lower (r : list (Z * Z)) :
  forall t l cur w,
    zone_wf t l r -> t <= w - cur -> t <= w - wall_lookup cur r w.
Proof.
  induction r as [|[t2 o2] r IH]; intros t l cur w Hwf Hl; simpl.
  - exact Hl.
  - destruct Hwf as (Ht & Hmono & Hwf).
    destruct (w <? t2 + Z.max cur o2) eqn:E; [exact Hl|].
    apply Z.ltb_ge in E.
    specialize (IH t2 (t2 + o2) o2 w Hwf). lia.
Qed.

(** The offset read off the wall clock is the one in force at the
    instant it yields, whenever the wall time is that of some instant. *)
Lemma wall_lookup_utc_lookup (ts : list (Z * Z)) :
  forall cur u w,
    match ts with [] => True | (t, o) :: r => zone_wf t (t + o) r end ->
    u + utc_lookup cur ts u = w ->
    utc_lookup cur ts (w - wall_lookup cur ts w) = wall_lookup cur ts w.
Proof.
  induction ts as [|[t o1] r IH]; intros cur u w Hwf Hu.
  - reflexivity.
  - simpl in Hu |- *.
    destruct (w <? t + Z.max cur o1) eqn:Ew.
    + apply Z.ltb_lt in Ew.
      destruct (u <? t) eqn:Eu.
      * apply Z.ltb_lt in Eu.
        assert ((w - cur <? t) = true) as -> by (apply Z.ltb_lt; lia).
        reflexivity.
      * apply Z.ltb_ge in Eu.
        pose proof (utc_lookup_lower r t (t + o1) o1 u Hwf ltac:(lia)) as Hlow.
        assert ((w - cur <? t) = true) as -> by (apply Z.ltb_lt; lia).
        reflexivity.
    + apply Z.ltb_ge in Ew.
      destruct (u <? t) eqn:Eu.
      * apply Z.ltb_lt in Eu. lia.
      * pose proof (wall_lookup_lower r t (t + o1) o1 w Hwf ltac:(lia)) as Hlow.
        assert ((w - wall_lookup o1 r w <? t) = false) as ->
          by (apply Z.ltb_ge; lia).
        apply (IH o1 u w); [|exact Hu].
        destruct r as [|[t2 o2] r']; [exact I|]. simpl in Hwf. tauto.
Qed.

Lemma new_datetime_Some (z dt : Z) :
  new_datetime z = Some dt <-> dt = z /\ datetime_min <= z <= datetime_max.
Proof.
  unfold new_datetime.
  destruct ((datetime_min <=? z) && (z <=? datetime_max)) eqn:E.
  - apply andb_true_iff in E. destruct E as [E1 E2].
    apply Z.leb_le in E1, E2. split; [intros [= <-]; auto | intros [-> _]; auto].
  - apply andb_false_iff in E. split; [discriminate|]. intros [_ [H1 H2]].
    destruct E as [E | E]; apply Z.leb_gt in E; lia.
Qed.

(** C9, as stated, fails in the default zone: 02:30 on 2024-03-31 does
    not exist in Europe/Berlin (the clock jumps from 02:00 to 03:00); it
    is stored as 01:30 UTC and converted back to 03:30. *)
Lemma C9_counterexample :
  ~ (forall wall : Z,
       new_datetime wall = Some wall ->
       deadline_roundtrip Europe_Berlin_2024 wall = Some wall).
Proof.
  intros H. specialize (H (1711852200 * second) ltac:(reflexivity)).
  vm_compute in H. discriminate H.
Qed.

(** C9, amended: in a zone whose transitions are well formed, the round
    trip local -> UTC -> local reproduces a submitted wall-clock time
    exactly if and only if that wall-clock time exists in the zone (some
    UTC instant is converted to it: it is not skipped by a forward jump
    of the clock) and its conversion to UTC stays within the years 1 to
    9999, outside of which the conversion raises [OverflowError]; a
    repeated wall-clock time is reproduced as well.  When the wall-clock
    time is reproduced, the page shows it cut to the whole minute. *)
Theorem C9_roundtrip_iff_wall_exists (tz : ZoneInfo) (wall : Z) :
  ZoneInfo_wf tz ->
  (deadline_roundtrip tz wall = Some wall <->
   wall_exists tz wall /\ is_Some (local_to_utc tz wall)) /\
  (deadline_roundtrip tz wall = Some wall ->
   deadline_shown tz wall = Some (strftime_minute wall)).
Proof.
  intros Hwf.
  unfold deadline_roundtrip, deadline_shown, _localtime_filter, wall_exists.
  split; [split|].
  - destruct (local_to_utc tz wall) as [dt|] eqn:E; simpl; [|discriminate].
    intros H. split; [exists dt; exact H | eauto].
  - intros [[u Hu] [dt Hdt]]. rewrite Hdt. simpl.
    unfold fromutc, local_to_utc, offset_at, utcoffset in *.
    apply new_datetime_Some in Hu. destruct Hu as [Hu Hrange].
    apply new_datetime_Some in Hdt. destruct Hdt as [-> _].
    rewrite (wall_lookup_utc_lookup (trans_utc tz) (tti_before tz) u wall Hwf
               (eq_sym Hu)).
    apply new_datetime_Some. split; [lia|].
    replace (wall - wall_lookup (tti_before tz) (trans_utc tz) wall +
             wall_lookup (tti_before tz) (trans_utc tz) wall) with wall by lia.
    rewrite Hu. exact Hrange.
  - destruct (local_to_utc tz wall) as [dt|]; simpl; [|discriminate].
    intros ->. reflexivity.
Qed.

(** Noon on 2024-07-01 in Berlin comes back as submitted, and is shown
    as 12:00. *)
Lemma C9_berlin_summer_witness :
  deadline_roundtrip Europe_Berlin_2024 (1719835200 * second)
    = Some (1719835200 * second) /\
  deadline_shown Europe_Berlin_2024 (1719835200 * second)
    = Some (strftime_minute (1719835200 * second)).
Proof.
  pose proof (C9_roundtrip_iff_wall_exists Europe_Berlin_2024 (1719835200 * second)
                ltac:(cbv [ZoneInfo_wf Europe_Berlin_2024 trans_utc zone_wf second]; lia)) as [Hiff Hshown].
  assert (H : deadline_roundtrip Europe_Berlin_2024 (1719835200 * second)
              = Some (1719835200 * second)).
  { apply Hiff. split.
    - exists ((1719835200 - 7200) * second). reflexivity.
    - exists ((1719835200 - 7200) * second). reflexivity. }
  split; [exact H | exact (Hshown H)].
Defined.

(** With a fixed offset every wall-clock time whose conversion stays in
    range comes back as submitted. *)
Lemma roundtrip_fixed_offset (offset wall : Z) :
  new_datetime wall = Some wall ->
  is_Some (local_to_utc {| tti_before := offset; trans_utc := [] |} wall) ->
  deadline_roundtrip {| tti_before := offset; trans_utc := [] |} wall = Some wall.
Proof.
  unfold deadline_roundtrip, fromutc, local_to_utc, offset_at, utcoffset. simpl.
  intros Hwall [dt Hdt]. rewrite Hdt. simpl.
  apply new_datetime_Some in Hdt. destruct Hdt as [-> _].
  replace (wall - offset + offset) with wall by lia. exact Hwall.
Qed.

(** A wall-clock time that occurs twice (02:30 on 2024-10-27 in Berlin)
    comes back as submitted. *)
Example roundtrip_berlin_repeated_hour :
  deadline_roundtrip Europe_Berlin_2024 (1729996200 * second)
    = Some (1729996200 * second).
Proof. reflexivity. Qed.

(** A deadline with seconds is shown without them. *)
Example shown_without_seconds :
  deadline_shown Europe_Berlin_2024 (1719835200 * second + 30 * second)
    = Some (1719835200 * second).
Proof. reflexivity. Qed.

(** ** Product-grouped export *)

Example py_int_plain :
  py_int default_max_str_digits sample_int_unicode "12" = Some 12.
Proof. reflexivity. Qed.
Example py_int_blanks_sign :
  py_int default_max_str_digits sample_int_unicode "  -3 " = Some (-3).
Proof. reflexivity. Qed.
Example py_int_underscore :
  py_int default_max_str_digits sample_int_unicode "1_000" = Some 1000.
Proof. reflexivity. Qed.
Example py_int_text :
  py_int default_max_str_digits sample_int_unicode "a few" = None.
Proof. reflexivity. Qed.
Example py_int_empty :
  py_int default_max_str_digits sample_int_unicode "" = None.
Proof. reflexivity. Qed.
Example py_int_double_underscore :
  py_int default_max_str_digits sample_int_unicode "1__0" = None.
Proof. reflexivity. Qed.
(** The unit separator (byte 31) is no blank for [int]. *)
Example py_int_unit_separator :
  py_int default_max_str_digits sample_int_unicode (String (ascii_of_nat 31) "2") = None.
Proof. reflexivity. Qed.
(** More digits than the limit allows. *)
Example py_int_too_many_digits :
  py_int 640 sample_int_unicode (String.concat "" (repeat "1234567890" 65)) = None.
Proof. reflexivity. Qed.

Section ExportRaises.

Variable int_max_str_digits : Z.
Variable int_unicode : string -> option Z.

(** A quantity that does not parse never raises: the total becomes a
    string. *)
Lemma add_quantity_fallback (total : PyVal) (quantity : string) :
  py_int int_max_str_digits int_unicode quantity = None ->
  add_quantity int_max_str_digits int_unicode total quantity = inr (PyStr (py_str total ++ "+" ++ quantity)).
Proof. unfold add_quantity. now intros ->. Qed.

(** The block raises exactly on a numeric quantity met after the total
    became a string. *)
Lemma add_quantity_raises (total : PyVal) (quantity : string) :
  add_quantity int_max_str_digits int_unicode total quantity = inl TypeError <->
  (exists s, total = PyStr s) /\ is_Some (py_int int_max_str_digits int_unicode quantity).
Proof.
  unfold add_quantity. destruct (py_int int_max_str_digits int_unicode quantity) as [n|], total as [t|s].
  - split; [discriminate | intros [[s ?] _]; discriminate].
  - split; [eauto | reflexivity].
  - split; [discriminate | intros [[s ?] _]; discriminate].
  - split; [discriminate | intros [_ [n ?]]; discriminate].
Qed.

Lemma dict_get_set {V} (d : list (GroupKey * V)) (k k' : GroupKey) (v : V) :
  dict_get (dict_set d k v) k' = if key_eqb k k' then Some v else dict_get d k'.
Proof.
  unfold key_eqb.
  induction d as [|[k0 v0] d IH]; simpl.
  - reflexivity.
  - unfold key_eqb. destruct (bool_decide (k0 = k)) eqn:E0; simpl; unfold key_eqb.
    + apply bool_decide_eq_true in E0. subst k0.
      now destruct (bool_decide (k = k')).
    + apply bool_decide_eq_false in E0. rewrite IH.
      destruct (bool_decide (k0 = k')) eqn:E1; [|reflexivity].
      apply bool_decide_eq_true in E1. subst k'.
      rewrite bool_decide_eq_false_2; [reflexivity | congruence].
Qed.

Lemma numeric_after_text_ext (f g : GroupKey -> bool) (items : list OrderItem) :
  (forall k, f k = g k) ->
  numeric_after_text int_max_str_digits int_unicode f items = numeric_after_text int_max_str_digits int_unicode g items.
Proof.
  revert f g. induction items as [|item rest IH]; intros f g Hfg; simpl.
  - reflexivity.
  - destruct (py_int int_max_str_digits int_unicode (i_quantity item)).
    + now rewrite Hfg, (IH f g Hfg).
    + apply IH. intros k. now rewrite Hfg.
Qed.

(** The loop raises exactly when a numeric quantity follows a quantity
    of its group that did not parse. *)
Lemma aggregate_raises (items : list OrderItem) :
  forall aggregated contributors,
    aggregate int_max_str_digits int_unicode items aggregated contributors = inl TypeError <->
    numeric_after_text int_max_str_digits int_unicode (degraded aggregated) items = true.
Proof.
  induction items as [|item rest IH]; intros aggregated contributors; simpl.
  - split; discriminate.
  - unfold add_quantity.
    destruct (py_int int_max_str_digits int_unicode (i_quantity item)) as [n|] eqn:Hq.
    + unfold degraded at 1.
      destruct (dict_get aggregated (item_key item)) as [a|] eqn:Hget; simpl.
      * destruct (a_total_quantity a) as [t|txt] eqn:Ha; simpl; [|tauto].
        rewrite IH. erewrite numeric_after_text_ext; [reflexivity|].
        intros k. unfold degraded. rewrite dict_get_set.
        unfold key_eqb. destruct (bool_decide (item_key item = k)) eqn:E;
          [|reflexivity].
        apply bool_decide_eq_true in E. subst k. simpl. now rewrite Hget, Ha.
      * rewrite IH. erewrite numeric_after_text_ext; [reflexivity|].
        intros k. unfold degraded. rewrite dict_get_set.
        unfold key_eqb. destruct (bool_decide (item_key item = k)) eqn:E;
          [|reflexivity].
        apply bool_decide_eq_true in E. subst k. simpl. now rewrite Hget.
    + rewrite IH. erewrite numeric_after_text_ext; [reflexivity|].
      intros k. unfold degraded. rewrite dict_get_set.
      now destruct (key_eqb (item_key item) k).
Qed.

(** The export raises in the product grouping exactly on such lists, and
    never in the person grouping. *)
Lemma export_csv_raises (order : Order) (items : list OrderItem) (group : string) :
  export_csv int_max_str_digits int_unicode order items group = inl TypeError <->
  group <> "person" /\ numeric_after_text int_max_str_digits int_unicode (fun _ => false) items = true.
Proof.
  unfold export_csv.
  destruct (group =? "person")%string eqn:Eg.
  - apply string_eqb_true in Eg. split; [discriminate | intros [? _]; contradiction].
  - assert (Hne : group <> "person").
    { intros ->. rewrite String.eqb_refl in Eg. discriminate Eg. }
    pose proof (aggregate_raises items [] []) as Hagg.
    destruct (aggregate int_max_str_digits int_unicode items [] []) as [[]|[aggregated contributors]].
    + split; [intros _; split; [exact Hne | now apply Hagg] | reflexivity].
    + split; [discriminate|]. intros [_ H]. apply Hagg in H. discriminate H.
Qed.

(** C8 fails on the code: in the product-grouped export, a numeric
    quantity that follows a non-numeric one of the same group raises
    [TypeError], whatever comes after. *)
Theorem C8_export_raises_after_fallback (order : Order) (first second : OrderItem)
    (rest : list OrderItem) :
  item_key first = item_key second ->
  py_int int_max_str_digits int_unicode (i_quantity first) = None ->
  is_Some (py_int int_max_str_digits int_unicode (i_quantity second)) ->
  export_csv int_max_str_digits int_unicode order (first :: second :: rest) "product" = inl TypeError.
Proof.
  intros Hkey Hfirst [n Hsecond].
  unfold export_csv. simpl.
  rewrite (add_quantity_fallback _ _ Hfirst).
  rewrite <- Hkey.
  unfold key_eqb. rewrite (bool_decide_eq_true_2 _ eq_refl).
  unfold add_quantity. simpl. rewrite Hsecond. reflexivity.
Qed.

End ExportRaises.

Lemma C8_mixed_quantities_witness :
  export_csv default_max_str_digits sample_int_unicode
    (sample_order false false false None 100) mixed_quantities "product"
  = inl TypeError.
Proof.
  apply (C8_export_raises_after_fallback default_max_str_digits sample_int_unicode
           (sample_order false false false None 100)
           (sample_item "it-1" "a-1" "Alice" "a few")
           (sample_item "it-2" "a-2" "Bob" "2") []).
  - reflexivity.
  - reflexivity.
  - exists 2. reflexivity.
Defined.

(** Two free-text quantities in a row degrade to a concatenation. *)
Example export_two_free_text_quantities :
  csv_rows <$>
    (match export_csv default_max_str_digits sample_int_unicode
             (sample_order false false false None 100)
             [sample_item "it-1" "a-1" "Alice" "a few";
              sample_item "it-2" "a-2" "Bob" "some"] "product"
     with inr r => Some r | inl _ => None end)
  = Some [ProductRow "Bread" "" (PyStr "0+a few+some")
            "Alice×a few; Bob×some" "" ""].
Proof. reflexivity. Qed.

(* ===================================================================== *)
(** * Part III: further properties of the code                             *)
(* ===================================================================== *)

(** ** Sessions ([auth.py], [routers/auth.py]) *)

(** X1: on first contact [get_identity] draws an anonymous identity with
    the fresh id and an empty name, keeps the admin grants, and every
    later call returns that identity and writes nothing. *)
Theorem get_identity_first_contact (uuid4 later : string) (s : Session) :
  s_identity s = None ->
  fst (get_identity uuid4 s) = {| id_type := "anon"; id_id := uuid4; id_name := "" |} /\
  s_admin_orders (snd (get_identity uuid4 s)) = s_admin_orders s /\
  get_identity later (snd (get_identity uuid4 s))
    = (fst (get_identity uuid4 s), snd (get_identity uuid4 s)).
Proof.
  intros Hnone. unfold get_identity. rewrite Hnone. simpl. auto.
Qed.

Lemma get_identity_first_contact_witness :
  fst (get_identity "u-1" admin_session)
    = {| id_type := "anon"; id_id := "u-1"; id_name := "" |} /\
  s_admin_orders (snd (get_identity "u-1" admin_session)) = Some ["order-1"] /\
  get_identity "u-2" (snd (get_identity "u-1" admin_session))
    = (fst (get_identity "u-1" admin_session), snd (get_identity "u-1" admin_session)).
Proof.
  exact (get_identity_first_contact "u-1" "u-2" admin_session eq_refl).
Defined.

Lemma is_order_admin_granted (s : Session) (order : Order) :
  o_id order ∈ session_admin_orders s -> is_order_admin s order = true.
Proof.
  intros Hin. unfold is_order_admin. now rewrite bool_decide_eq_true_2.
Qed.

Lemma set_order_admin_orders (s : Session) (order_id k : string) :
  k ∈ session_admin_orders (set_order_admin s order_id) <->
  k = order_id \/ k ∈ session_admin_orders s.
Proof.
  unfold set_order_admin, session_admin_orders at 1. simpl.
  destruct (bool_decide (order_id ∈ session_admin_orders s)) eqn:E.
  - apply bool_decide_eq_true in E. split; [auto | intros [-> | ?]; auto].
  - rewrite elem_of_app, list_elem_of_singleton. tauto.
Qed.

(** X2: [set_order_admin] makes the session admin of every order with
    that id, keeps the admin rights the session had, and leaves the
    identity alone. *)
Theorem set_order_admin_grants (s : Session) (order : Order) (order_id : string) :
  (o_id order = order_id -> is_order_admin (set_order_admin s order_id) order = true) /\
  (is_order_admin s order = true ->
   is_order_admin (set_order_admin s order_id) order = true) /\
  s_identity (set_order_admin s order_id) = s_identity s.
Proof.
  split; [|split].
  - intros <-. apply is_order_admin_granted, set_order_admin_orders. auto.
  - intros H.
    destruct (bool_decide (o_id order ∈ session_admin_orders s)) eqn:E.
    + apply bool_decide_eq_true in E.
      apply is_order_admin_granted, set_order_admin_orders. auto.
    + unfold is_order_admin in *. rewrite E in H.
      destruct (bool_decide
                  (o_id order ∈ session_admin_orders (set_order_admin s order_id)));
        [reflexivity | exact H].
  - reflexivity.
Qed.

Lemma set_order_admin_grants_witness :
  is_order_admin (set_order_admin empty_session "order-1")
    (sample_order false false false None 100) = true.
Proof.
  exact (proj1 (set_order_admin_grants empty_session
                  (sample_order false false false None 100) "order-1") eq_refl).
Defined.

(** X3: [set_order_admin] never stores an order id twice, and granting
    the same order again changes nothing. *)
Theorem set_order_admin_no_duplicates (s : Session) (order_id : string) :
  NoDup (session_admin_orders s) ->
  NoDup (session_admin_orders (set_order_admin s order_id)) /\
  set_order_admin (set_order_admin s order_id) order_id = set_order_admin s order_id.
Proof.
  intros Hnd. split; [|apply set_order_admin_idempotent].
  unfold set_order_admin, session_admin_orders at 1. simpl.
  destruct (bool_decide (order_id ∈ session_admin_orders s)) eqn:E; [exact Hnd|].
  apply bool_decide_eq_false in E.
  apply NoDup_app. split; [exact Hnd|]. split.
  - intros x Hx Hx'. apply list_elem_of_singleton in Hx'. now subst.
  - apply NoDup_singleton.
Qed.

Lemma set_order_admin_no_duplicates_witness :
  NoDup (session_admin_orders (set_order_admin admin_session "order-1")) /\
  set_order_admin (set_order_admin admin_session "order-1") "order-1"
    = set_order_admin admin_session "order-1".
Proof.
  apply (set_order_admin_no_duplicates admin_session "order-1").
  apply NoDup_singleton.
Defined.

(** X4: after [logout] the session is admin of no order, whatever it was
    before (secret link or creator), the next identity is a fresh
    anonymous one, and nothing else has changed. *)
Theorem logout_drops_everything (w : World) (order : Order) (uuid4 : string) :
  fst (logout w) = Ok (RedirectResponse "/" 307) /\
  is_order_admin (w_session (snd (logout w))) order = false /\
  fst (get_identity uuid4 (w_session (snd (logout w))))
    = {| id_type := "anon"; id_id := uuid4; id_name := "" |} /\
  same_state w (snd (logout w)).
Proof.
  unfold logout, same_state. handler_unfold. simpl.
  repeat split.
Qed.

(** X5: logging in through OIDC or redeeming an invite keeps the admin
    rights the session got from a secret link, whatever the outcome of
    the request. *)
Theorem login_keeps_admin_grants (oidc : bool) (unsign_token : string -> option string)
    (w : World) (order : Order) (exchange : string + UserInfo)
    (order_id token : string) :
  o_id order ∈ session_admin_orders (w_session w) ->
  is_order_admin (w_session (snd (callback oidc exchange w))) order = true /\
  is_order_admin (w_session (snd (join_via_token unsign_token order_id token w))) order
    = true.
Proof.
  intros Hin. split; apply is_order_admin_granted.
  - unfold callback. handler_cases; exact Hin.
  - unfold join_via_token. handler_cases; exact Hin.
Qed.

Lemma login_keeps_admin_grants_witness :
  is_order_admin
    (w_session (snd (callback true
                       (inr {| ui_sub := Some "sub-1"; ui_name := Some "Carol";
                               ui_email := None |})
                       (sample_world admin_session false))))
    (sample_order false false false None 100) = true /\
  is_order_admin
    (w_session (snd (join_via_token sample_unsign_token "order-1" "tok-1"
                       (sample_world admin_session false))))
    (sample_order false false false None 100) = true.
Proof.
  apply (login_keeps_admin_grants true sample_unsign_token
           (sample_world admin_session false)
           (sample_order false false false None 100)).
  unfold session_admin_orders. simpl. set_solver.
Defined.

(** X6: on an order that keeps its flags ([privacy_mode] only with
    [invite_only]), whoever may edit an item may see it. *)
Theorem can_edit_implies_can_see (oidc : bool) (identity : Identity)
    (item : OrderItem) (order : Order) (is_admin : bool) :
  order_flags_ok order ->
  can_edit_item oidc identity item order is_admin = true ->
  can_see_item identity item order is_admin = true.
Proof.
  unfold order_flags_ok, can_edit_item, can_see_item.
  intros Hflags. destruct is_admin.
  - now destruct (o_privacy_mode order).
  - destruct (o_invite_only order) eqn:Einv.
    + rewrite andb_false_r. intros ->. now destruct (o_privacy_mode order).
    + destruct (Hflags eq_refl) as [_ ->]. reflexivity.
Qed.

Lemma can_edit_implies_can_see_witness :
  can_see_item token_identity (sample_item "it-1" "tok-1" "Bob" "1")
    (sample_order true false true None 100) false = true.
Proof.
  apply (can_edit_implies_can_see false token_identity
           (sample_item "it-1" "tok-1" "Bob" "1")
           (sample_order true false true None 100) false).
  - intros H. discriminate H.
  - reflexivity.
Defined.

(** ** The registry of live connections ([ws.py], [routers/ws.py]) *)

Lemma unsubscribe_no_empty_entry (subs : gmap string (gset nat)) (order_id : string)
    (ws : nat) :
  no_empty_entry subs -> no_empty_entry (unsubscribe subs order_id ws).
Proof.
  intros Hinv other s. unfold unsubscribe. case_decide as Hempty.
  - rewrite lookup_delete. case_decide; [discriminate | apply Hinv].
  - rewrite lookup_insert. case_decide.
    + intros [= <-]. exact Hempty.
    + apply Hinv.
Qed.

Lemma unsubscribe_all_no_empty_entry (order_id : string) (dead : list nat) :
  forall subs : gmap string (gset nat),
    no_empty_entry subs -> no_empty_entry (unsubscribe_all subs order_id dead).
Proof.
  induction dead as [|ws dead IH]; intros subs Hinv; simpl; [exact Hinv|].
  apply IH. now apply unsubscribe_no_empty_entry.
Qed.

Lemma no_empty_entry_lookup (subs : gmap string (gset nat)) (order_id : string) :
  no_empty_entry subs ->
  subs !! order_id = if decide (subscribers subs order_id = ∅) then None
                     else Some (subscribers subs order_id).
Proof.
  intros Hinv. unfold subscribers.
  destruct (subs !! order_id) as [s|] eqn:E; simpl.
  - case_decide as Hs; [|reflexivity]. exfalso. exact (Hinv _ _ E Hs).
  - case_decide as Hs; [reflexivity|]. now contradiction Hs.
Qed.

(** X7: the registry never holds an order with an empty set of
    connections: [subscribe], [unsubscribe] and [broadcast] keep that. *)
Theorem registry_no_empty_entry (subs : gmap string (gset nat)) (order_id : string)
    (ws : nat) (send_text : nat -> bool) (deadline : option string) :
  no_empty_entry subs ->
  no_empty_entry (subscribe subs order_id ws) /\
  no_empty_entry (unsubscribe subs order_id ws) /\
  no_empty_entry (broadcast send_text subs order_id deadline).1.
Proof.
  intros Hinv. split; [|split].
  - intros other s. unfold subscribe. rewrite lookup_insert. case_decide.
    + intros [= <-]. set_solver.
    + apply Hinv.
  - now apply unsubscribe_no_empty_entry.
  - unfold broadcast. destruct (send_all _ _ _) as [dead sent]. simpl.
    now apply unsubscribe_all_no_empty_entry.
Qed.

Lemma registry_no_empty_entry_witness :
  no_empty_entry (subscribe ∅ "X" 1%nat) /\
  no_empty_entry (unsubscribe ∅ "X" 1%nat) /\
  no_empty_entry (broadcast all_sends_succeed ∅ "X" None).1.
Proof.
  apply (registry_no_empty_entry ∅ "X" 1%nat all_sends_succeed None).
  intros order_id s H. rewrite lookup_empty in H. discriminate H.
Defined.

(** X8: the three ways a connection handler ends.  When [receive_text]
    raises an exception the handler catches, the connection is out of
    the order's set afterwards, and the registry is back to what it was
    if nothing else touched it and the connection was not subscribed
    before.  When the handler is cancelled, nothing unsubscribes the
    connection: it stays in the order's set, and the next broadcast for
    the order removes it exactly if the send to it fails.  When [accept]
    raises, the registry is untouched. *)
Theorem order_ws_endings (subs : gmap string (gset nat)) (order_id : string)
    (websocket : nat) :
  (forall during,
     websocket ∉ subscribers (order_ws ExceptionCaught during subs order_id websocket)
                   order_id) /\
  (no_empty_entry subs ->
   websocket ∉ subscribers subs order_id ->
   order_ws ExceptionCaught (fun registry => registry) subs order_id websocket = subs) /\
  websocket ∈ subscribers (order_ws Cancelled (fun registry => registry) subs order_id
                             websocket) order_id /\
  (forall send_text deadline,
     websocket ∈ subscribers
                   (broadcast send_text
                      (order_ws Cancelled (fun registry => registry) subs order_id
                         websocket) order_id deadline).1 order_id <->
     send_text websocket = true) /\
  (forall during, order_ws AcceptRaised during subs order_id websocket = subs).
Proof.
  assert (Hin : websocket ∈ subscribers (subscribe subs order_id websocket) order_id).
  { unfold subscribe, subscribers at 1. rewrite lookup_insert_eq. simpl. set_solver. }
  unfold order_ws. split; [|split; [|split; [|split]]].
  - intros during. rewrite subscribers_unsubscribe. set_solver.
  - intros Hinv Hnot.
    pose proof (no_empty_entry_lookup subs order_id Hinv) as Hlook.
    unfold unsubscribe.
    assert (Hs : subscribers (subscribe subs order_id websocket) order_id ∖ {[websocket]}
                 = subscribers subs order_id).
    { unfold subscribe, subscribers at 1. rewrite lookup_insert_eq. simpl. set_solver. }
    rewrite Hs. unfold subscribe.
    destruct (decide (subscribers subs order_id = ∅)) as [Hempty|Hne].
    + rewrite delete_insert_eq. apply delete_id. exact Hlook.
    + rewrite insert_insert_eq. apply insert_id. exact Hlook.
  - exact Hin.
  - intros send_text deadline. rewrite broadcast_subscribers. tauto.
  - reflexivity.
Qed.

Lemma order_ws_endings_witness :
  order_ws ExceptionCaught (fun registry => registry) (subscribe ∅ "X" 1%nat) "X" 2%nat
  = subscribe ∅ "X" 1%nat.
Proof.
  apply (proj1 (proj2 (order_ws_endings (subscribe ∅ "X" 1%nat) "X" 2%nat))).
  - intros other s. unfold subscribe. rewrite lookup_insert. case_decide.
    + intros [= <-]. set_solver.
    + rewrite lookup_empty. discriminate.
  - unfold subscribe, subscribers. rewrite lookup_insert_eq, lookup_empty. simpl.
    set_solver.
Defined.

Lemma send_all_none_dead (send_text : nat -> bool) (payload : Payload) (l : list nat) :
  (forall ws, ws ∈ l -> send_text ws = true) ->
  send_all send_text payload l = (∅, map (fun ws => (ws, payload)) l).
Proof.
  induction l as [|a l IH]; intros Hall; simpl; [reflexivity|].
  rewrite IH by (intros ws Hws; apply Hall; now right).
  rewrite (Hall a) by now left. reflexivity.
Qed.

Lemma send_all_all_dead (send_text : nat -> bool) (payload : Payload) (l : list nat) :
  (forall ws, ws ∈ l -> send_text ws = false) ->
  (send_all send_text payload l).2 = [].
Proof.
  induction l as [|a l IH]; intros Hall; simpl; [reflexivity|].
  specialize (IH (fun ws Hws => Hall ws (list_elem_of_further _ _ _ Hws))).
  destruct (send_all send_text payload l) as [dead sent]. simpl in IH. subst sent.
  rewrite (Hall a) by now left. reflexivity.
Qed.

(** X9: when every send succeeds (in particular when nobody is
    subscribed) [broadcast] leaves the registry exactly as it was and
    delivers one frame per subscriber. *)
Theorem broadcast_all_delivered (send_text : nat -> bool)
    (subs : gmap string (gset nat)) (order_id : string) (deadline : option string) :
  (forall ws, ws ∈ subscribers subs order_id -> send_text ws = true) ->
  (broadcast send_text subs order_id deadline).1 = subs /\
  length (broadcast send_text subs order_id deadline).2
    = size (subscribers subs order_id).
Proof.
  intros Hall. unfold broadcast.
  rewrite send_all_none_dead
    by (intros ws Hws; apply Hall; now apply elem_of_elements).
  rewrite elements_empty. simpl. split; [reflexivity|].
  now rewrite length_map.
Qed.

Lemma broadcast_all_delivered_witness :
  (broadcast all_sends_succeed scenario_D_subs "X" None).1 = scenario_D_subs /\
  length (broadcast all_sends_succeed scenario_D_subs "X" None).2
    = size (subscribers scenario_D_subs "X").
Proof.
  apply (broadcast_all_delivered all_sends_succeed scenario_D_subs "X" None).
  intros ws _. reflexivity.
Defined.

(** X10: when every send fails, nothing is delivered and the order's
    entry is discarded from the registry. *)
Theorem broadcast_all_failed (send_text : nat -> bool)
    (subs : gmap string (gset nat)) (order_id : string) (deadline : option string) :
  no_empty_entry subs ->
  (forall ws, ws ∈ subscribers subs order_id -> send_text ws = false) ->
  (broadcast send_text subs order_id deadline).1 !! order_id = None /\
  (broadcast send_text subs order_id deadline).2 = [].
Proof.
  intros Hinv Hall. split.
  - pose proof (proj2 (proj2 (registry_no_empty_entry subs order_id 0%nat send_text
                                deadline Hinv))) as Hinv'.
    rewrite (no_empty_entry_lookup _ order_id Hinv').
    case_decide as Hs; [reflexivity|]. exfalso. apply Hs.
    apply set_eq. intros ws. rewrite broadcast_subscribers. split.
    + intros [Hin Hok]. rewrite (Hall ws Hin) in Hok. discriminate Hok.
    + set_solver.
  - unfold broadcast.
    pose proof (send_all_all_dead send_text
                  {| p_type := "update"; p_deadline := deadline |}
                  (elements (subscribers subs order_id))) as Hsent.
    destruct (send_all _ _ _) as [dead sent]. simpl in *.
    apply Hsent. intros ws Hws. apply Hall. now apply elem_of_elements.
Qed.

Lemma broadcast_all_failed_witness :
  (broadcast (fun _ => false) (subscribe ∅ "X" 1%nat) "X" None).1 !! "X" = None /\
  (broadcast (fun _ => false) (subscribe ∅ "X" 1%nat) "X" None).2 = [].
Proof.
  apply (broadcast_all_failed (fun _ => false) (subscribe ∅ "X" 1%nat) "X" None).
  - apply (proj1 (registry_no_empty_entry ∅ "X" 1%nat all_sends_succeed None
                    ltac:(intros k s H; rewrite lookup_empty in H; discriminate H))).
  - intros ws _. reflexivity.
Defined.

(** ** Requests: refusals and permissions ([routers/orders.py],
    [routers/items.py], [routers/auth.py]) *)

(** Closes one branch of "a refused request left the state as it was". *)
Ltac refusal_leaf :=
  simpl; intros Href; first [ contradiction | repeat split ].

Section Refusals.

Variable OIDC_ENABLED : bool.
Variable LOCAL_TZ : ZoneInfo.
Variable fromisoformat : string -> option Z.
Variable isoformat : Z -> string.
Variable sign_token : string -> string.
Variable unsign_token : string -> option string.

#[local] Arguments can_edit_item : simpl never.
#[local] Arguments can_add_item : simpl never.

(** X11: a request that is refused (an HTTP error, a key clash or a
    date out of range) has stored nothing, changed no row, touched no subscription and sent no
    frame: only the caller's session may have got its identity. *)
Theorem refused_requests_change_nothing (w : World) :
  (forall u1 u2 u3 vendor_name vendor_url deadline invite_only allow_oidc privacy_mode,
     refused (fst (create_order LOCAL_TZ fromisoformat u1 u2 u3 vendor_name vendor_url
                     deadline invite_only allow_oidc privacy_mode w)) ->
     same_state w (snd (create_order LOCAL_TZ fromisoformat u1 u2 u3 vendor_name
                          vendor_url deadline invite_only allow_oidc privacy_mode w))) /\
  (forall order_id admin_token,
     refused (fst (enter_admin order_id admin_token w)) ->
     snd (enter_admin order_id admin_token w) = w) /\
  (forall base_url u order_id display_name,
     refused (fst (create_token sign_token base_url u order_id display_name w)) ->
     snd (create_token sign_token base_url u order_id display_name w) = w) /\
  (forall order_id token,
     refused (fst (join_via_token unsign_token order_id token w)) ->
     snd (join_via_token unsign_token order_id token w) = w) /\
  (forall send_text order_id new_deadline,
     refused (fst (extend_deadline LOCAL_TZ fromisoformat isoformat send_text order_id
                     new_deadline w)) ->
     snd (extend_deadline LOCAL_TZ fromisoformat isoformat send_text order_id
            new_deadline w) = w) /\
  (forall order_id allow_oidc,
     refused (fst (update_settings order_id allow_oidc w)) ->
     snd (update_settings order_id allow_oidc w) = w) /\
  (forall u1 u2 utcnow send_text order_id person product quantity sku url note,
     refused (fst (add_item u1 u2 utcnow send_text order_id person product quantity
                     sku url note w)) ->
     same_state w (snd (add_item u1 u2 utcnow send_text order_id person product
                          quantity sku url note w))) /\
  (forall u1 utcnow send_text order_id item_id person product quantity sku url note,
     refused (fst (edit_item OIDC_ENABLED u1 utcnow send_text order_id item_id person
                     product quantity sku url note w)) ->
     same_state w (snd (edit_item OIDC_ENABLED u1 utcnow send_text order_id item_id
                          person product quantity sku url note w))) /\
  (forall u1 utcnow send_text order_id item_id,
     refused (fst (delete_item OIDC_ENABLED u1 utcnow send_text order_id item_id w)) ->
     same_state w (snd (delete_item OIDC_ENABLED u1 utcnow send_text order_id
                          item_id w))) /\
  (forall exchange,
     refused (fst (callback OIDC_ENABLED exchange w)) ->
     snd (callback OIDC_ENABLED exchange w) = w).
Proof.
  unfold same_state.
  repeat match goal with |- _ /\ _ => split end; intros.
  - revert H. unfold create_order, db_add_order. handler_cases; refusal_leaf.
  - revert H. unfold enter_admin. handler_cases; refusal_leaf.
  - revert H. unfold create_token, db_add_token. handler_cases; refusal_leaf.
  - revert H. unfold join_via_token. handler_cases; refusal_leaf.
  - revert H. unfold extend_deadline, db_update_order. handler_cases; refusal_leaf.
  - revert H. unfold update_settings, db_update_order. handler_cases; refusal_leaf.
  - revert H. unfold add_item. handler_cases; refusal_leaf.
  - revert H. unfold edit_item. handler_cases; refusal_leaf.
  - revert H. unfold delete_item. handler_cases; refusal_leaf.
  - revert H. unfold callback. handler_cases; refusal_leaf.
Qed.

End Refusals.

Lemma refused_requests_witness :
  same_state (sample_world empty_session true)
    (snd (add_item "u" "it-1" 50 all_sends_succeed "order-1" "Al" "Bread" "1" "" "" ""
            (sample_world empty_session true))).
Proof.
  apply (proj1 (proj2 (proj2 (proj2 (proj2 (proj2 (proj2
           (refused_requests_change_nothing false UTC_zone sample_fromisoformat
              sample_isoformat sample_sign_token sample_unsign_token
              (sample_world empty_session true))))))))).
  exact I.
Defined.

Section Permissions.

Variable OIDC_ENABLED : bool.
Variable LOCAL_TZ : ZoneInfo.
Variable fromisoformat : string -> option Z.
Variable isoformat : Z -> string.
Variable sign_token : string -> string.

#[local] Arguments can_edit_item : simpl never.
#[local] Arguments can_add_item : simpl never.

Lemma closed_or_admin (utcnow deadline : Z) (is_admin : bool) :
  (utcnow >? deadline) && negb is_admin = false ->
  is_admin = true \/ utcnow <= deadline.
Proof.
  destruct is_admin; [auto|]. rewrite andb_true_r. intros H.
  right. destruct (Z.gtb_spec utcnow deadline); [discriminate | lia].
Qed.

(** X12: an item is stored, changed or removed only for a caller the
    authorization functions let through, and only while the order is
    open or for an admin: a successful [add_item] had [can_add_item]
    true, a successful [edit_item] or [delete_item] found the item in
    the order and had [can_edit_item] true on it. *)
Theorem item_writes_need_permission (w : World) (uuid : string) (utcnow : Z)
    (send_text : nat -> bool) (order_id : string) :
  (forall uuid_item person product quantity sku url note response w',
     add_item uuid uuid_item utcnow send_text order_id person product quantity sku
       url note w = (Ok response, w') ->
     exists order,
       w_orders w !! order_id = Some order /\
       can_add_item (fst (get_identity uuid (w_session w))) order
         (is_order_admin (w_session w) order) = true /\
       (is_order_admin (w_session w) order = true \/ utcnow <= o_deadline order)) /\
  (forall item_id person product quantity sku url note response w',
     edit_item OIDC_ENABLED uuid utcnow send_text order_id item_id person product
       quantity sku url note w = (Ok response, w') ->
     exists order item,
       w_orders w !! order_id = Some order /\
       find_item w order_id item_id = Some item /\
       can_edit_item OIDC_ENABLED (fst (get_identity uuid (w_session w))) item order
         (is_order_admin (w_session w) order) = true /\
       (is_order_admin (w_session w) order = true \/ utcnow <= o_deadline order)) /\
  (forall item_id response w',
     delete_item OIDC_ENABLED uuid utcnow send_text order_id item_id w
       = (Ok response, w') ->
     exists order item,
       w_orders w !! order_id = Some order /\
       find_item w order_id item_id = Some item /\
       can_edit_item OIDC_ENABLED (fst (get_identity uuid (w_session w))) item order
         (is_order_admin (w_session w) order) = true /\
       (is_order_admin (w_session w) order = true \/ utcnow <= o_deadline order)).
Proof.
  split; [|split].
  - intros uuid_item person product quantity sku url note response w'.
    unfold add_item. handler_unfold.
    destruct (w_orders w !! order_id) as [order|]; [|discriminate].
    pose proof (is_order_admin_get_identity uuid (w_session w) order) as Hadm.
    destruct (get_identity uuid (w_session w)) as [identity s']. simpl in Hadm |- *.
    rewrite Hadm.
    destruct (can_add_item identity order _) eqn:Hcan; [|discriminate]. simpl.
    destruct ((utcnow >? o_deadline order) && _) eqn:Hopen; [discriminate|].
    intros _. exists order. split; [reflexivity|]. split; [exact Hcan|].
    now apply closed_or_admin.
  - intros item_id person product quantity sku url note response w'.
    unfold edit_item. handler_unfold.
    destruct (w_orders w !! order_id) as [order|]; [|discriminate].
    pose proof (is_order_admin_get_identity uuid (w_session w) order) as Hadm.
    destruct (get_identity uuid (w_session w)) as [identity s']. simpl in Hadm |- *.
    rewrite Hadm.
    replace (find_item (with_session w s') order_id item_id)
      with (find_item w order_id item_id) by reflexivity.
    destruct (find_item w order_id item_id) as [item|]; [|discriminate].
    destruct (can_edit_item OIDC_ENABLED identity item order _) eqn:Hcan;
      [|discriminate]. simpl.
    destruct ((utcnow >? o_deadline order) && _) eqn:Hopen; [discriminate|].
    intros _. exists order, item. split; [reflexivity|]. split; [reflexivity|].
    split; [exact Hcan|]. now apply closed_or_admin.
  - intros item_id response w'.
    unfold delete_item. handler_unfold.
    destruct (w_orders w !! order_id) as [order|]; [|discriminate].
    pose proof (is_order_admin_get_identity uuid (w_session w) order) as Hadm.
    destruct (get_identity uuid (w_session w)) as [identity s']. simpl in Hadm |- *.
    rewrite Hadm.
    replace (find_item (with_session w s') order_id item_id)
      with (find_item w order_id item_id) by reflexivity.
    destruct (find_item w order_id item_id) as [item|]; [|discriminate].
    destruct (can_edit_item OIDC_ENABLED identity item order _) eqn:Hcan;
      [|discriminate]. simpl.
    destruct ((utcnow >? o_deadline order) && _) eqn:Hopen; [discriminate|].
    intros _. exists order, item. split; [reflexivity|]. split; [reflexivity|].
    split; [exact Hcan|]. now apply closed_or_admin.
Qed.

(** X13: changing the deadline, changing the settings and issuing an
    invite succeed only for a session that is admin of the order. *)
Theorem admin_only_operations (w : World) (order_id : string) :
  (forall send_text new_deadline response w',
     extend_deadline LOCAL_TZ fromisoformat isoformat send_text order_id
       new_deadline w = (Ok response, w') ->
     exists order,
       w_orders w !! order_id = Some order /\
       is_order_admin (w_session w) order = true) /\
  (forall allow_oidc response w',
     update_settings order_id allow_oidc w = (Ok response, w') ->
     exists order,
       w_orders w !! order_id = Some order /\
       is_order_admin (w_session w) order = true) /\
  (forall base_url u display_name response w',
     create_token sign_token base_url u order_id display_name w = (Ok response, w') ->
     exists order,
       w_orders w !! order_id = Some order /\
       is_order_admin (w_session w) order = true).
Proof.
  split; [|split].
  - intros send_text new_deadline response w'.
    unfold extend_deadline. handler_unfold.
    destruct (w_orders w !! order_id) as [order|]; [|discriminate]. simpl.
    destruct (is_order_admin (w_session w) order) eqn:E; [|discriminate].
    intros _. eauto.
  - intros allow_oidc response w'.
    unfold update_settings. handler_unfold.
    destruct (w_orders w !! order_id) as [order|]; [|discriminate]. simpl.
    destruct (is_order_admin (w_session w) order) eqn:E; [|discriminate].
    intros _. eauto.
  - intros base_url u display_name response w'.
    unfold create_token. handler_unfold.
    destruct (w_orders w !! order_id) as [order|]; [|discriminate]. simpl.
    destruct (is_order_admin (w_session w) order) eqn:E; [|discriminate].
    intros _. eauto.
Qed.

End Permissions.

Lemma item_writes_need_permission_witness :
  exists order,
    w_orders (sample_world admin_session false) !! "order-1" = Some order /\
    can_add_item (fst (get_identity "u" admin_session)) order
      (is_order_admin admin_session order) = true /\
    (is_order_admin admin_session order = true \/ 200 <= o_deadline order).
Proof.
  eapply (proj1 (item_writes_need_permission false (sample_world admin_session false)
                   "u" 200 all_sends_succeed "order-1")
            "it-9" "Al" "Bread" "2" "" "" "").
  vm_compute. reflexivity.
Defined.

Lemma admin_only_operations_witness :
  exists order,
    w_orders (sample_world admin_session true) !! "order-1" = Some order /\
    is_order_admin admin_session order = true.
Proof.
  eapply (proj2 (proj2 (admin_only_operations UTC_zone sample_fromisoformat
                          sample_isoformat sample_sign_token
                          (sample_world admin_session true) "order-1"))
            "https://host" "raw-1" "Bob").
  vm_compute. reflexivity.
Defined.

(** ** Orders: creation, admin link, deadline, settings, invites
    ([routers/orders.py]) *)

Section Orders.

Variable OIDC_ENABLED : bool.
Variable LOCAL_TZ : ZoneInfo.
Variable fromisoformat : string -> option Z.
Variable isoformat : Z -> string.
Variable sign_token : string -> string.
Variable unsign_token : string -> option string.

#[local] Arguments can_edit_item : simpl never.
#[local] Arguments can_add_item : simpl never.

(** X14: a successful [create_order] stores the order under a key that
    was free, with its deadline converted to UTC (the conversion did not
    leave the years 1 to 9999), keeps every stored
    order, item and invite, and redirects to the admin link; following
    that link makes the session admin of the new order. *)
Theorem create_order_then_admin_link (w : World) u1 u2 u3 vendor_name vendor_url
    deadline invite_only allow_oidc privacy_mode response w' :
  create_order LOCAL_TZ fromisoformat u1 u2 u3 vendor_name vendor_url deadline
    invite_only allow_oidc privacy_mode w = (Ok response, w') ->
  response = RedirectResponse ("/orders/" ++ u2 ++ "/admin/" ++ u3) 303 /\
  w_orders w !! u2 = None /\
  (forall k order, w_orders w !! k = Some order -> w_orders w' !! k = Some order) /\
  w_items w' = w_items w /\ w_tokens w' = w_tokens w /\
  exists order dt_local,
    w_orders w' !! u2 = Some order /\
    fromisoformat deadline = Some dt_local /\
    local_to_utc LOCAL_TZ dt_local = Some (o_deadline order) /\
    enter_admin u2 u3 w'
      = (Ok (RedirectResponse ("/orders/" ++ u2) 303),
         with_session w' (set_order_admin (w_session w') u2)) /\
    is_order_admin (w_session (snd (enter_admin u2 u3 w'))) order = true.
Proof.
  unfold create_order, db_add_order. handler_unfold.
  destruct (get_identity u1 (w_session w)) as [identity s'].
  destruct (fromisoformat deadline) as [dt_local|]; simpl; [|discriminate].
  destruct (local_to_utc LOCAL_TZ dt_local) as [dt|] eqn:Hutc; simpl; [|discriminate].
  destruct (w_orders w !! u2) eqn:Hfree; simpl; [discriminate|].
  intros [= <- <-]. simpl.
  split; [reflexivity|]. split; [reflexivity|]. split.
  { intros k order Hk. rewrite lookup_insert_ne; [exact Hk|]. congruence. }
  split; [reflexivity|]. split; [reflexivity|].
  eexists _, dt_local. rewrite lookup_insert_eq.
  split; [reflexivity|]. split; [reflexivity|]. split; [exact Hutc|].
  unfold enter_admin. handler_unfold. simpl. rewrite lookup_insert_eq. simpl.
  rewrite String.eqb_refl. simpl. split; [reflexivity|].
  apply is_order_admin_granted. simpl. apply set_order_admin_orders. auto.
Qed.

(** X15: an order created by an OIDC identity stores the creator's
    [sub], and every session logged in with that (non-empty) [sub] is
    admin of it without the secret link; an order created by any other
    identity stores no creator, and a session is admin of it only
    through the admin-granted list. *)
Theorem create_order_creator (w : World) u1 u2 u3 vendor_name vendor_url
    deadline invite_only allow_oidc privacy_mode response w' :
  create_order LOCAL_TZ fromisoformat u1 u2 u3 vendor_name vendor_url deadline
    invite_only allow_oidc privacy_mode w = (Ok response, w') ->
  exists order,
    w_orders w' !! u2 = Some order /\
    (forall sub, session_identity_type (w_session w) = Some "oidc" ->
       session_identity_id (w_session w) = Some sub -> sub <> "" ->
       o_creator_identifier order = Some sub /\
       forall s name, is_order_admin (set_oidc_identity s sub name) order = true) /\
    (session_identity_type (w_session w) <> Some "oidc" ->
       o_creator_identifier order = None /\
       forall s, is_order_admin s order = true -> u2 ∈ session_admin_orders s).
Proof.
  unfold create_order, db_add_order. handler_unfold.
  unfold get_identity, session_identity_type, session_identity_id.
  destruct (s_identity (w_session w)) as [i|] eqn:Hi; simpl.
  - destruct (fromisoformat deadline) as [dt_local|]; simpl; [|discriminate].
    destruct (local_to_utc LOCAL_TZ dt_local) as [dt|]; simpl; [|discriminate].
    destruct (w_orders w !! u2) eqn:Hfree; simpl; [discriminate|].
    intros [= _ <-]. simpl. rewrite lookup_insert_eq.
    eexists. split; [reflexivity|]. simpl. split.
    + intros sub [= Hty] [= Hsub] Hne. rewrite Hty, Hsub. simpl.
      split; [reflexivity|]. intros s name.
      unfold is_order_admin, session_identity_type, session_identity_id. simpl.
      rewrite (bool_decide_eq_true_2 _ eq_refl).
      unfold truthy. destruct (sub =? "")%string eqn:E.
      * apply String.eqb_eq in E. contradiction.
      * now destruct (bool_decide (u2 ∈ session_admin_orders (set_oidc_identity s sub name))).
    + intros Hty. destruct (id_type i =? "oidc")%string eqn:E.
      * apply String.eqb_eq in E. rewrite E in Hty. contradiction.
      * split; [reflexivity|]. intros s. unfold is_order_admin. simpl.
        destruct (bool_decide (u2 ∈ session_admin_orders s)) eqn:Hin.
        -- intros _. now apply bool_decide_eq_true in Hin.
        -- rewrite andb_false_r. discriminate.
  - destruct (fromisoformat deadline) as [dt_local|]; simpl; [|discriminate].
    destruct (local_to_utc LOCAL_TZ dt_local) as [dt|]; simpl; [|discriminate].
    destruct (w_orders w !! u2) eqn:Hfree; simpl; [discriminate|].
    intros [= _ <-]. simpl. rewrite lookup_insert_eq.
    eexists. split; [reflexivity|]. simpl. split.
    + intros sub [=].
    + intros _. split; [reflexivity|]. intros s. unfold is_order_admin. simpl.
      destruct (bool_decide (u2 ∈ session_admin_orders s)) eqn:Hin.
      * intros _. now apply bool_decide_eq_true in Hin.
      * rewrite andb_false_r. discriminate.
Qed.

Lemma is_order_admin_set_deadline (s : Session) (order : Order) (dt : Z) :
  is_order_admin s (set_deadline order dt) = is_order_admin s order.
Proof. reflexivity. Qed.

(** X16: when an admin submits a deadline that parses: if its
    conversion to UTC leaves the years 1 to 9999 the request fails with
    an [OverflowError] that nothing catches and changes nothing;
    otherwise the order gets that deadline converted to UTC and nothing
    else of it changes, the subscribers are sent the new deadline as ISO
    text with a trailing Z, and from then on a caller who may add items
    and is not admin can add them up to the new deadline, also when the
    order was closed before. *)
Theorem extend_deadline_reopens (w : World) (order : Order) (send_text : nat -> bool)
    (order_id new_deadline : string) (dt_local : Z) :
  w_orders w !! order_id = Some order ->
  o_id order = order_id ->
  is_order_admin (w_session w) order = true ->
  fromisoformat new_deadline = Some dt_local ->
  (local_to_utc LOCAL_TZ dt_local = None ->
   extend_deadline LOCAL_TZ fromisoformat isoformat send_text order_id new_deadline w
     = (OverflowError, w)) /\
  (forall dt,
     local_to_utc LOCAL_TZ dt_local = Some dt ->
     exists w1,
       extend_deadline LOCAL_TZ fromisoformat isoformat send_text order_id new_deadline w
         = (Ok (RedirectResponse ("/orders/" ++ order_id) 303), w1) /\
       w_orders w1 = <[order_id := set_deadline order dt]> (w_orders w) /\
       w_items w1 = w_items w /\
       w_sent w1
         = (w_sent w ++
            (broadcast send_text (w_subs w) order_id
               (Some (isoformat dt ++ "Z")%string)).2)%list /\
       forall s uuid uuid_item utcnow send_text2 person product quantity sku url note,
         utcnow <= dt ->
         w_items w !! uuid_item = None ->
         can_add_item (fst (get_identity uuid s)) order (is_order_admin s order) = true ->
         exists response w2,
           add_item uuid uuid_item utcnow send_text2 order_id person product quantity
             sku url note (with_session w1 s) = (Ok response, w2)).
Proof.
  intros Horder Hid Hadmin Hparse.
  unfold extend_deadline, db_update_order. handler_unfold.
  rewrite Horder. simpl. rewrite Hadmin, Hparse. simpl. split.
  { intros ->. simpl. now destruct w. }
  intros dt ->. simpl. rewrite Hid.
  destruct (broadcast send_text (w_subs w) order_id _) as [subs sent] eqn:Hb.
  eexists. split; [reflexivity|]. simpl.
  split; [reflexivity|]. split; [reflexivity|]. split; [reflexivity|].
  intros s uuid uuid_item utcnow send_text2 person product quantity sku url note
    Hnow Hfresh Hcan.
  unfold add_item. handler_unfold. simpl. rewrite lookup_insert_eq.
  pose proof (is_order_admin_get_identity uuid s order) as Hadm.
  destruct (get_identity uuid s) as [identity s'] eqn:Hget. simpl in *.
  rewrite Hget. simpl.
  rewrite is_order_admin_set_deadline, Hadm.
  replace (can_add_item identity (set_deadline order dt) (is_order_admin s order))
    with (can_add_item identity order (is_order_admin s order)) by reflexivity.
  rewrite Hcan. simpl.
  assert ((utcnow >? dt) = false) as ->.
  { destruct (Z.gtb_spec utcnow dt); [lia | reflexivity]. }
  simpl.
  destruct ((id_type identity =? "anon")%string && negb (truthy (id_name identity)));
    simpl; rewrite Hfresh; simpl;
    destruct (broadcast send_text2 subs order_id None) as [subs2 sent2]; simpl;
    eauto.
Qed.

(** X17: an invite issued by an admin can be redeemed: [create_token]
    stores the signed token with its display name and answers the join
    link, and any session that follows the link for this order gets the
    invite identity with that name, keeps its admin grants and may add
    items even when the order is invite-only; the same token on another
    order's link is answered 404. *)
Theorem create_token_then_join (w : World) (order : Order)
    (base_url uuid_raw order_id display_name : string) :
  w_orders w !! order_id = Some order ->
  is_order_admin (w_session w) order = true ->
  w_tokens w !! sign_token uuid_raw = None ->
  is_Some (unsign_token (sign_token uuid_raw)) ->
  exists w1,
    create_token sign_token base_url uuid_raw order_id display_name w
      = (Ok (TokenResult display_name
               (base_url ++ "/orders/" ++ order_id ++ "/join/" ++ sign_token uuid_raw)),
         w1) /\
    w_orders w1 = w_orders w /\
    (forall s,
       join_via_token unsign_token order_id (sign_token uuid_raw) (with_session w1 s)
         = (Ok (RedirectResponse ("/orders/" ++ order_id) 303),
            with_session w1
              (set_token_identity s (sign_token uuid_raw) display_name)) /\
       can_add_item
         {| id_type := "token"; id_id := sign_token uuid_raw; id_name := display_name |}
         order false = true) /\
    (forall s other,
       other <> order_id ->
       join_via_token unsign_token other (sign_token uuid_raw) (with_session w1 s)
         = (HTTPException 404 "Token not found", with_session w1 s)).
Proof.
  intros Horder Hadmin Hfresh [raw Hraw].
  unfold create_token, db_add_token. handler_unfold.
  rewrite Horder. simpl. rewrite Hadmin. simpl. rewrite Hfresh. simpl.
  eexists. split; [reflexivity|]. simpl. split; [reflexivity|]. split.
  - intros s. split.
    + unfold join_via_token. handler_unfold. rewrite Hraw. simpl.
      rewrite lookup_insert_eq. simpl. rewrite String.eqb_refl. reflexivity.
    + unfold can_add_item. simpl. now destruct (o_invite_only order).
  - intros s other Hne.
    unfold join_via_token. handler_unfold. rewrite Hraw. simpl.
    rewrite lookup_insert_eq. simpl.
    destruct (order_id =? other)%string eqn:E; [|reflexivity].
    apply String.eqb_eq in E. congruence.
Qed.

(** X18: when an admin changes the settings of an invite-only order, an
    OIDC user who is not admin may add items afterwards exactly when
    [allow_oidc] was switched on; invite identities may add items either
    way, anonymous callers never. *)
Theorem update_settings_opens_to_oidc (w : World) (order : Order)
    (order_id : string) (allow_oidc : bool) :
  w_orders w !! order_id = Some order ->
  o_id order = order_id ->
  o_invite_only order = true ->
  is_order_admin (w_session w) order = true ->
  exists w1 order',
    update_settings order_id allow_oidc w
      = (Ok (RedirectResponse ("/orders/" ++ order_id) 303), w1) /\
    w_orders w1 !! order_id = Some order' /\
    o_deadline order' = o_deadline order /\
    o_privacy_mode order' = o_privacy_mode order /\
    forall identity,
      (id_type identity = "oidc" -> can_add_item identity order' false = allow_oidc) /\
      (id_type identity = "token" -> can_add_item identity order' false = true) /\
      (id_type identity = "anon" -> can_add_item identity order' false = false).
Proof.
  intros Horder Hid Hinv Hadmin.
  unfold update_settings, db_update_order. handler_unfold.
  rewrite Horder. simpl. rewrite Hadmin. simpl. rewrite Hid.
  eexists _, _. split; [reflexivity|]. simpl. rewrite lookup_insert_eq.
  split; [reflexivity|]. split; [reflexivity|]. split; [reflexivity|].
  intros identity. unfold can_add_item. simpl. rewrite Hinv, andb_true_r.
  split; [|split]; intros ->; simpl; [now destruct allow_oidc | reflexivity..].
Qed.

End Orders.

Lemma create_order_then_admin_link_witness :
  exists order dt_local,
    w_orders (snd (create_order UTC_zone sample_fromisoformat "u" "order-2" "secret-2"
                     "Bakery" "https://bakery.example" "2024-05-01T12:00"
                     true true true empty_world)) !! "order-2" = Some order /\
    sample_fromisoformat "2024-05-01T12:00" = Some dt_local /\
    local_to_utc UTC_zone dt_local = Some (o_deadline order) /\
    enter_admin "order-2" "secret-2"
      (snd (create_order UTC_zone sample_fromisoformat "u" "order-2" "secret-2"
              "Bakery" "https://bakery.example" "2024-05-01T12:00"
              true true true empty_world))
      = (Ok (RedirectResponse "/orders/order-2" 303),
         with_session
           (snd (create_order UTC_zone sample_fromisoformat "u" "order-2" "secret-2"
                   "Bakery" "https://bakery.example" "2024-05-01T12:00"
                   true true true empty_world))
           (set_order_admin
              (w_session
                 (snd (create_order UTC_zone sample_fromisoformat "u" "order-2"
                         "secret-2" "Bakery" "https://bakery.example"
                         "2024-05-01T12:00" true true true empty_world)))
              "order-2")) /\
    is_order_admin
      (w_session
         (snd (enter_admin "order-2" "secret-2"
                 (snd (create_order UTC_zone sample_fromisoformat "u" "order-2"
                         "secret-2" "Bakery" "https://bakery.example"
                         "2024-05-01T12:00" true true true empty_world)))))
      order = true.
Proof.
  apply (create_order_then_admin_link UTC_zone sample_fromisoformat empty_world
           "u" "order-2" "secret-2" "Bakery" "https://bakery.example"
           "2024-05-01T12:00" true true true
           (RedirectResponse "/orders/order-2/admin/secret-2" 303)).
  reflexivity.
Defined.

Lemma create_order_creator_witness :
  exists order,
    w_orders (snd (create_order UTC_zone sample_fromisoformat "u" "order-2" "secret-2"
                     "Bakery" "https://bakery.example" "2024-05-01T12:00"
                     false false false
                     (with_session empty_world
                        (set_oidc_identity empty_session "sub-1" "Carol"))))
      !! "order-2" = Some order /\
    is_order_admin (set_oidc_identity empty_session "sub-1" "Carol again") order = true.
Proof.
  destruct (create_order_creator UTC_zone sample_fromisoformat
              (with_session empty_world (set_oidc_identity empty_session "sub-1" "Carol"))
              "u" "order-2" "secret-2" "Bakery" "https://bakery.example"
              "2024-05-01T12:00" false false false
              (RedirectResponse "/orders/order-2/admin/secret-2" 303)
              _ eq_refl) as (order & Hlook & Hoidc & _).
  exists order. split; [exact Hlook|].
  apply (proj2 (Hoidc "sub-1" eq_refl eq_refl ltac:(discriminate))).
Defined.

Lemma extend_deadline_reopens_witness :
  exists w1,
    extend_deadline UTC_zone sample_fromisoformat sample_isoformat all_sends_succeed
      "order-1" "1970-01-01T00:00" (sample_world admin_session false)
      = (Ok (RedirectResponse "/orders/order-1" 303), w1) /\
    w_orders w1 !! "order-1"
      = Some (set_deadline (sample_order false false false None 100) 0).
Proof.
  destruct (proj2 (extend_deadline_reopens UTC_zone sample_fromisoformat
                     sample_isoformat (sample_world admin_session false)
                     (sample_order false false false None 100) all_sends_succeed
                     "order-1" "1970-01-01T00:00" 0 eq_refl eq_refl eq_refl eq_refl)
              0 eq_refl)
    as (w1 & Hrun & Horders & _).
  exists w1. split; [exact Hrun|]. rewrite Horders. reflexivity.
Defined.

Lemma create_token_then_join_witness :
  exists w1,
    create_token sample_sign_token "https://host" "raw-1" "order-1" "Bob"
      (sample_world admin_session true)
      = (Ok (TokenResult "Bob" "https://host/orders/order-1/join/raw-1.sig"), w1) /\
    join_via_token sample_unsign_token "order-1" "raw-1.sig"
      (with_session w1 empty_session)
      = (Ok (RedirectResponse "/orders/order-1" 303),
         with_session w1 (set_token_identity empty_session "raw-1.sig" "Bob")).
Proof.
  destruct (create_token_then_join sample_sign_token sample_unsign_token
              (sample_world admin_session true)
              (sample_order true false false None 100)
              "https://host" "raw-1" "order-1" "Bob"
              eq_refl eq_refl eq_refl ltac:(eexists; reflexivity))
    as (w1 & Hrun & _ & Hjoin & _).
  exists w1. split; [exact Hrun|]. exact (proj1 (Hjoin empty_session)).
Defined.

Lemma update_settings_opens_to_oidc_witness :
  exists w1 order',
    update_settings "order-1" true (sample_world admin_session true)
      = (Ok (RedirectResponse "/orders/order-1" 303), w1) /\
    w_orders w1 !! "order-1" = Some order' /\
    can_add_item oidc_identity order' false = true.
Proof.
  destruct (update_settings_opens_to_oidc (sample_world admin_session true)
              (sample_order true false false None 100) "order-1" true
              eq_refl eq_refl eq_refl eq_refl)
    as (w1 & order' & Hrun & Hlook & _ & _ & Hadd).
  exists w1, order'. split; [exact Hrun|]. split; [exact Hlook|].
  exact (proj1 (Hadd oidc_identity) eq_refl).
Defined.

(** ** Items: ownership, names, notifications ([routers/items.py]) *)

Section Items.

Variable OIDC_ENABLED : bool.

#[local] Arguments can_edit_item : simpl never.
#[local] Arguments can_add_item : simpl never.

Lemma can_edit_own_item (identity : Identity) (item : OrderItem) (order : Order)
    (is_admin : bool) :
  id_id identity = i_person_identifier item ->
  can_edit_item OIDC_ENABLED identity item order is_admin = true.
Proof.
  intros Hown. unfold can_edit_item.
  destruct is_admin; [reflexivity|].
  destruct (_ && _ && _); [reflexivity|].
  rewrite Hown. apply String.eqb_refl.
Qed.

Lemma open_or_admin_gate (utcnow deadline : Z) (is_admin : bool) :
  utcnow <= deadline -> (utcnow >? deadline) && negb is_admin = false.
Proof.
  intros H. destruct (Z.gtb_spec utcnow deadline); [lia | reflexivity].
Qed.

(** What [add_item] leaves behind when it succeeds. *)
Lemma add_item_stores (w : World) uuid uuid_item utcnow send_text order_id
    person product quantity sku url note response w1 :
  add_item uuid uuid_item utcnow send_text order_id person product quantity sku url
    note w = (Ok response, w1) ->
  exists identity,
    s_identity (w_session w1) = Some identity /\
    id_type identity = id_type (fst (get_identity uuid (w_session w))) /\
    id_id identity = id_id (fst (get_identity uuid (w_session w))) /\
    s_admin_orders (w_session w1) = s_admin_orders (w_session w) /\
    w_orders w1 = w_orders w /\
    w_items w !! uuid_item = None /\
    w_items w1
      = <[uuid_item :=
            {| i_id := uuid_item; i_order_id := order_id;
               i_person_identifier := id_id identity;
               i_person_name :=
                 if (id_type identity =? "token")%string then id_name identity
                 else person;
               i_product_name := product;
               i_product_sku := or_None sku; i_product_url := or_None url;
               i_quantity := str_or quantity "1"; i_note := or_None note |}]>
          (w_items w).
Proof.
  unfold add_item. handler_unfold.
  destruct (w_orders w !! order_id) as [order|]; [|discriminate].
  unfold get_identity.
  destruct (s_identity (w_session w)) as [i|] eqn:Hi; simpl.
  - destruct (negb (can_add_item i order _)); [discriminate|].
    destruct ((utcnow >? o_deadline order) && _); [discriminate|].
    destruct ((id_type i =? "anon")%string && negb (truthy (id_name i))) eqn:Hanon;
      simpl.
    + destruct (w_items w !! uuid_item) eqn:Hfresh; [discriminate|]. simpl.
      destruct (broadcast send_text (w_subs w) order_id None) as [subs sent]. simpl.
      intros [= _ <-]. simpl. rewrite Hi. simpl.
      eexists. split; [reflexivity|]. simpl.
      apply andb_prop in Hanon. destruct Hanon as [Hanon _].
      apply String.eqb_eq in Hanon. rewrite Hanon. simpl. repeat split.
    + destruct (w_items w !! uuid_item) eqn:Hfresh; [discriminate|]. simpl.
      destruct (broadcast send_text (w_subs w) order_id None) as [subs sent]. simpl.
      intros [= _ <-]. simpl. rewrite Hi.
      eexists. split; [reflexivity|]. repeat split.
  - destruct (negb (can_add_item _ order _)); [discriminate|].
    destruct ((utcnow >? o_deadline order) && _); [discriminate|]. simpl.
    destruct (w_items w !! uuid_item) eqn:Hfresh; [discriminate|]. simpl.
    destruct (broadcast send_text (w_subs w) order_id None) as [subs sent]. simpl.
    intros [= _ <-]. simpl.
    eexists. split; [reflexivity|]. repeat split.
Qed.

(** X19: whoever added an item can edit and delete it from the same
    session while the order is open: the item is stored under the
    caller's identity id, and [edit_item] and [delete_item] on it then
    succeed, whatever the order's flags. *)
Theorem contributor_can_edit_own_item (w : World) (order : Order)
    uuid uuid_item utcnow send_text order_id
    person product quantity sku url note response w1 :
  w_orders w !! order_id = Some order ->
  add_item uuid uuid_item utcnow send_text order_id person product quantity sku url
    note w = (Ok response, w1) ->
  (exists item,
     w_items w1 !! uuid_item = Some item /\
     i_order_id item = order_id /\
     i_person_identifier item = id_id (fst (get_identity uuid (w_session w)))) /\
  (forall uuid' utcnow' send_text' person' product' quantity' sku' url' note',
     utcnow' <= o_deadline order ->
     exists response' w2,
       edit_item OIDC_ENABLED uuid' utcnow' send_text' order_id uuid_item
         person' product' quantity' sku' url' note' w1 = (Ok response', w2)) /\
  (forall uuid' utcnow' send_text',
     utcnow' <= o_deadline order ->
     exists response' w2,
       delete_item OIDC_ENABLED uuid' utcnow' send_text' order_id uuid_item w1
         = (Ok response', w2)).
Proof.
  intros Horder Hadd.
  destruct (add_item_stores _ _ _ _ _ _ _ _ _ _ _ _ _ _ Hadd)
    as (identity & Hsess & _ & Hid & _ & Horders & _ & Hitems).
  split; [|split].
  - eexists. rewrite Hitems, lookup_insert_eq. split; [reflexivity|]. simpl.
    split; [reflexivity | exact Hid].
  - intros uuid' utcnow' send_text' person' product' quantity' sku' url' note' Hopen.
    unfold edit_item. handler_unfold. rewrite Horders, Horder.
    unfold get_identity. rewrite Hsess. simpl.
    unfold find_item. simpl. rewrite Hitems, lookup_insert_eq. simpl.
    rewrite String.eqb_refl.
    rewrite can_edit_own_item by reflexivity. simpl.
    rewrite open_or_admin_gate by exact Hopen. simpl.
    destruct (broadcast send_text' (w_subs w1) order_id None) as [subs sent]. simpl.
    eauto.
  - intros uuid' utcnow' send_text' Hopen.
    unfold delete_item. handler_unfold. rewrite Horders, Horder.
    unfold get_identity. rewrite Hsess. simpl.
    unfold find_item. simpl. rewrite Hitems, lookup_insert_eq. simpl.
    rewrite String.eqb_refl.
    rewrite can_edit_own_item by reflexivity. simpl.
    rewrite open_or_admin_gate by exact Hopen. simpl.
    destruct (broadcast send_text' (w_subs w1) order_id None) as [subs sent]. simpl.
    eauto.
Qed.

(** X20: [edit_item] rewrites one row in place: the item keeps its id,
    its order and its contributor key, also when an admin edits somebody
    else's item; the product fields come from the form, an empty
    quantity is stored as 1, and no other item and no order changes. *)
Theorem edit_item_keeps_ownership (w : World) uuid utcnow send_text order_id item_id
    person product quantity sku url note response w' :
  edit_item OIDC_ENABLED uuid utcnow send_text order_id item_id person product
    quantity sku url note w = (Ok response, w') ->
  exists item item',
    find_item w order_id item_id = Some item /\
    w_items w' = <[i_id item := item']> (w_items w) /\
    i_id item' = i_id item /\
    i_order_id item' = i_order_id item /\
    i_person_identifier item' = i_person_identifier item /\
    i_product_name item' = product /\
    i_quantity item' = (if (quantity =? "")%string then "1" else quantity) /\
    w_orders w' = w_orders w.
Proof.
  unfold edit_item. handler_unfold.
  destruct (w_orders w !! order_id) as [order|]; [|discriminate].
  destruct (get_identity uuid (w_session w)) as [identity s']. simpl.
  replace (find_item (with_session w s') order_id item_id)
    with (find_item w order_id item_id) by reflexivity.
  destruct (find_item w order_id item_id) as [item|]; [|discriminate].
  destruct (negb (can_edit_item OIDC_ENABLED identity item order _)); [discriminate|].
  destruct ((utcnow >? o_deadline order) && _); [discriminate|]. simpl.
  destruct (broadcast send_text (w_subs w) order_id None) as [subs sent]. simpl.
  intros [= _ <-]. simpl.
  eexists _, _. split; [reflexivity|]. split; [reflexivity|]. simpl.
  repeat (split; [reflexivity|]). split; [|reflexivity].
  unfold str_or, truthy. now destruct (quantity =? "")%string.
Qed.

(** X21: [delete_item] removes the item it was asked to remove and no
    other: with every row under its own id, the item is gone afterwards
    and every other item is as before. *)
Theorem delete_item_removes_one (w : World) uuid utcnow send_text order_id item_id
    response w' :
  (forall k item, w_items w !! k = Some item -> i_id item = k) ->
  delete_item OIDC_ENABLED uuid utcnow send_text order_id item_id w
    = (Ok response, w') ->
  is_Some (find_item w order_id item_id) /\
  w_items w' = delete item_id (w_items w) /\
  find_item w' order_id item_id = None /\
  (forall k, k <> item_id -> w_items w' !! k = w_items w !! k) /\
  w_orders w' = w_orders w.
Proof.
  intros Hkeys. unfold delete_item. handler_unfold.
  destruct (w_orders w !! order_id) as [order|]; [|discriminate].
  destruct (get_identity uuid (w_session w)) as [identity s']. simpl.
  replace (find_item (with_session w s') order_id item_id)
    with (find_item w order_id item_id) by reflexivity.
  destruct (find_item w order_id item_id) as [item|] eqn:Hfound; [|discriminate].
  destruct (negb (can_edit_item OIDC_ENABLED identity item order _)); [discriminate|].
  destruct ((utcnow >? o_deadline order) && _); [discriminate|]. simpl.
  destruct (broadcast send_text (w_subs w) order_id None) as [subs sent]. simpl.
  intros [= _ <-]. simpl.
  assert (Hid : i_id item = item_id).
  { unfold find_item in Hfound.
    destruct (w_items w !! item_id) as [it|] eqn:E; [|discriminate].
    destruct (i_order_id it =? order_id)%string; [|discriminate].
    injection Hfound as <-. now apply Hkeys. }
  rewrite Hid. split; [eauto|]. split; [reflexivity|]. split.
  - unfold find_item. simpl. now rewrite lookup_delete_eq.
  - split; [|reflexivity]. intros k Hk. now rewrite lookup_delete_ne.
Qed.

(** X22: an anonymous caller's name is remembered from the first item.
    For a caller whose identity is anonymous (one the session holds, or
    the one a first request is given), a successful [add_item] stores
    the item under the caller's identity id and the name of the form;
    when the identity's name is still empty, as it is on a first
    request, the form's name is stored in the session, and once the
    session has a name [add_item] leaves the session alone. *)
Theorem add_item_remembers_anonymous_name (w : World)
    uuid uuid_item utcnow send_text order_id
    person product quantity sku url note response w' :
  id_type (fst (get_identity uuid (w_session w))) = "anon" ->
  add_item uuid uuid_item utcnow send_text order_id person product quantity sku url
    note w = (Ok response, w') ->
  (exists item,
     w_items w' !! uuid_item = Some item /\ i_person_name item = person /\
     i_person_identifier item = id_id (fst (get_identity uuid (w_session w)))) /\
  (id_name (fst (get_identity uuid (w_session w))) = "" ->
   w_session w'
     = {| s_identity :=
            Some {| id_type := "anon";
                    id_id := id_id (fst (get_identity uuid (w_session w)));
                    id_name := person |};
          s_admin_orders := s_admin_orders (w_session w) |}) /\
  (id_name (fst (get_identity uuid (w_session w))) <> "" ->
   w_session w' = w_session w) /\
  (s_identity (w_session w) = None ->
   w_session w'
     = {| s_identity := Some {| id_type := "anon"; id_id := uuid; id_name := person |};
          s_admin_orders := s_admin_orders (w_session w) |}).
Proof.
  unfold add_item. handler_unfold.
  destruct (w_orders w !! order_id) as [order|]; [|intros _; discriminate].
  unfold get_identity.
  destruct (s_identity (w_session w)) as [identity|] eqn:Hi; simpl.
  - intros Hanon. rewrite Hanon. simpl.
    destruct (negb (can_add_item identity order _)); [discriminate|].
    destruct ((utcnow >? o_deadline order) && _); [discriminate|].
    unfold truthy.
    destruct (id_name identity =? "")%string eqn:Hname; simpl.
    + destruct (w_items w !! uuid_item); [discriminate|]. simpl.
      destruct (broadcast send_text (w_subs w) order_id None) as [subs sent]. simpl.
      intros [= _ <-]. simpl. rewrite Hi. simpl. rewrite Hanon.
      split; [eexists; split; [apply lookup_insert_eq | split; reflexivity]|].
      split; [reflexivity|]. apply String.eqb_eq in Hname.
      split; [intros Hne; contradiction | discriminate].
    + destruct (w_items w !! uuid_item); [discriminate|]. simpl.
      destruct (broadcast send_text (w_subs w) order_id None) as [subs sent]. simpl.
      intros [= _ <-]. simpl.
      split; [eexists; split; [apply lookup_insert_eq | split; reflexivity]|].
      split; [|split; [reflexivity | discriminate]].
      intros Hempty. rewrite Hempty in Hname. discriminate Hname.
  - intros _.
    destruct (negb (can_add_item _ order _)); [discriminate|].
    destruct ((utcnow >? o_deadline order) && _); [discriminate|].
    simpl.
    destruct (w_items w !! uuid_item); [discriminate|]. simpl.
    destruct (broadcast send_text (w_subs w) order_id None) as [subs sent]. simpl.
    intros [= _ <-]. simpl.
    split; [eexists; split; [apply lookup_insert_eq | split; reflexivity]|].
    split; [reflexivity|]. split; [intros Hne; now contradiction Hne | reflexivity].
Qed.

(** X23: every successful item write is followed by exactly one
    broadcast for its order, without a deadline hint, on the registry as
    it stood: the frames sent and the connections pruned are those of
    [broadcast]. *)
Theorem item_writes_notify (w : World) (uuid : string) (utcnow : Z)
    (send_text : nat -> bool) (order_id : string) :
  (forall uuid_item person product quantity sku url note response w',
     add_item uuid uuid_item utcnow send_text order_id person product quantity sku
       url note w = (Ok response, w') ->
     w_subs w' = (broadcast send_text (w_subs w) order_id None).1 /\
     w_sent w' = (w_sent w ++ (broadcast send_text (w_subs w) order_id None).2)%list) /\
  (forall item_id person product quantity sku url note response w',
     edit_item OIDC_ENABLED uuid utcnow send_text order_id item_id person product
       quantity sku url note w = (Ok response, w') ->
     w_subs w' = (broadcast send_text (w_subs w) order_id None).1 /\
     w_sent w' = (w_sent w ++ (broadcast send_text (w_subs w) order_id None).2)%list) /\
  (forall item_id response w',
     delete_item OIDC_ENABLED uuid utcnow send_text order_id item_id w
       = (Ok response, w') ->
     w_subs w' = (broadcast send_text (w_subs w) order_id None).1 /\
     w_sent w' = (w_sent w ++ (broadcast send_text (w_subs w) order_id None).2)%list).
Proof.
  split; [|split]; intros until w'.
  - unfold add_item. handler_cases; intros [= _ <-] || discriminate.
    all: simpl; split; reflexivity.
  - unfold edit_item. handler_cases; intros [= _ <-] || discriminate.
    all: simpl; split; reflexivity.
  - unfold delete_item. handler_cases; intros [= _ <-] || discriminate.
    all: simpl; split; reflexivity.
Qed.

End Items.

Lemma contributor_can_edit_own_item_witness :
  exists response' w2,
    edit_item false "u" 60 all_sends_succeed "order-1" "it-1" "Al" "Cake" "3" "" "" ""
      (snd (add_item "u" "it-1" 50 all_sends_succeed "order-1" "Al" "Bread" "2" "" "" ""
              (sample_world empty_session false)))
    = (Ok response', w2).
Proof.
  apply (proj1 (proj2 (contributor_can_edit_own_item false
                         (sample_world empty_session false)
                         (sample_order false false false None 100)
                         "u" "it-1" 50 all_sends_succeed "order-1"
                         "Al" "Bread" "2" "" "" ""
                         (ItemsList [sample_item "it-1" "u" "Al" "2"])
                         (snd (add_item "u" "it-1" 50 all_sends_succeed "order-1"
                                 "Al" "Bread" "2" "" "" ""
                                 (sample_world empty_session false)))
                         eq_refl ltac:(vm_compute; reflexivity)))).
  simpl. lia.
Defined.

Lemma edit_item_keeps_ownership_witness :
  exists item item',
    find_item (snd (add_item "u" "it-1" 50 all_sends_succeed "order-1" "Al" "Bread" "2"
                      "" "" "" (sample_world empty_session false)))
      "order-1" "it-1" = Some item /\
    i_person_identifier item' = i_person_identifier item /\
    i_quantity item' = "1".
Proof.
  destruct (edit_item_keeps_ownership false
              (snd (add_item "u" "it-1" 50 all_sends_succeed "order-1" "Al" "Bread" "2"
                      "" "" "" (sample_world empty_session false)))
              "u" 60 all_sends_succeed "order-1" "it-1" "Al" "Cake" "" "" "" ""
              (ItemsList
                 [{| i_id := "it-1"; i_order_id := "order-1";
                     i_person_identifier := "u"; i_person_name := "Al";
                     i_product_name := "Cake"; i_product_sku := None;
                     i_product_url := None; i_quantity := "1"; i_note := None |}])
              _ ltac:(vm_compute; reflexivity))
    as (item & item' & Hfound & _ & _ & _ & Hown & _ & Hq & _).
  exists item, item'. split; [exact Hfound|]. split; [exact Hown | exact Hq].
Defined.

Lemma delete_item_removes_one_witness :
  w_items (snd (delete_item false "x" 60 all_sends_succeed "order-1" "it-1"
                  (two_items_world
                     (session_of {| id_type := "token"; id_id := "u"; id_name := "Al" |})
                     false)))
  = delete "it-1"
      (w_items (two_items_world
                  (session_of {| id_type := "token"; id_id := "u"; id_name := "Al" |})
                  false)).
Proof.
  refine (proj1 (proj2 (delete_item_removes_one false
                          (two_items_world
                             (session_of {| id_type := "token"; id_id := "u";
                                            id_name := "Al" |}) false)
                          "x" 60 all_sends_succeed "order-1" "it-1"
                          (ItemsList [sample_item "it-2" "v" "Vi" "3"]) _ _
                          ltac:(vm_compute; reflexivity)))).
  intros k item. unfold two_items_world. simpl.
  rewrite lookup_insert. case_decide as Hk.
  - intros [= <-]. now subst k.
  - rewrite lookup_singleton. case_decide as Hk'.
    + intros [= <-]. now subst k.
    + discriminate.
Defined.

Lemma add_item_remembers_anonymous_name_witness :
  w_session (snd (add_item "x" "it-9" 50 all_sends_succeed "order-1" "Al" "Bread" "2"
                    "" "" "" (sample_world empty_session false)))
  = {| s_identity := Some {| id_type := "anon"; id_id := "x"; id_name := "Al" |};
       s_admin_orders := None |}.
Proof.
  refine (proj2 (proj2 (proj2 (add_item_remembers_anonymous_name
                          (sample_world empty_session false)
                          "x" "it-9" 50 all_sends_succeed "order-1"
                          "Al" "Bread" "2" "" "" ""
                          (ItemsList [sample_item "it-9" "x" "Al" "2"]) _
                          eq_refl ltac:(vm_compute; reflexivity)))) eq_refl).
Defined.

Lemma item_writes_notify_witness :
  w_sent (snd (add_item "x" "it-9" 50 all_sends_succeed "order-1" "Al" "Bread" "2"
                 "" "" "" (sample_world empty_session false)))
  = ([] ++ (broadcast all_sends_succeed ∅ "order-1" None).2)%list.
Proof.
  refine (proj2 (proj1 (item_writes_notify false (sample_world empty_session false)
                          "x" 50 all_sends_succeed "order-1")
                   "it-9" "Al" "Bread" "2" "" "" ""
                   (ItemsList [sample_item "it-9" "x" "Al" "2"]) _
                   ltac:(vm_compute; reflexivity))).
Defined.

(** ** Pages and exports: what a caller is shown ([routers/orders.py],
    [routers/items.py]) *)

Lemma insert_row_perm (rowid : string -> Z) (x : OrderItem) (l : list OrderItem) :
  insert_row rowid x l ≡ₚ x :: l.
Proof.
  induction l as [|y r IH]; simpl; [reflexivity|].
  destruct (rowid (i_id x) <? rowid (i_id y)); [reflexivity|].
  rewrite IH. apply perm_swap.
Qed.

(** Whatever the positions, the database lists every row once. *)
Lemma by_rowid_perm (rowid : string -> Z) (l : list OrderItem) :
  by_rowid rowid l ≡ₚ l.
Proof.
  unfold by_rowid. induction l as [|x r IH]; simpl; [reflexivity|].
  now rewrite insert_row_perm, IH.
Qed.

Lemma order_items_elem (w : World) (order_id : string) (item : OrderItem) :
  item ∈ order_items w order_id <->
  (exists k, w_items w !! k = Some item) /\ i_order_id item = order_id.
Proof.
  unfold order_items. rewrite by_rowid_perm.
  rewrite list_elem_of_filter, list_elem_of_In, in_map_iff.
  split.
  - intros [Horder ([k it] & Hsnd & Hin)]. simpl in Hsnd. subst it.
    apply list_elem_of_In, elem_of_map_to_list in Hin. eauto.
  - intros [[k Hk] Horder]. split; [exact Horder|].
    exists (k, item). split; [reflexivity|].
    now apply list_elem_of_In, elem_of_map_to_list.
Qed.

Lemma visible_items_elem (identity : Identity) (order : Order) (is_admin : bool)
    (w : World) (item : OrderItem) :
  item ∈ List.filter (fun i => can_see_item identity i order is_admin)
           (order_items w (o_id order)) <->
  (exists k, w_items w !! k = Some item) /\ i_order_id item = o_id order /\
  can_see_item identity item order is_admin = true.
Proof.
  rewrite list_elem_of_In, filter_In, <- list_elem_of_In, order_items_elem. tauto.
Qed.

Section PagesShown.

Variable OIDC_ENABLED : bool.
Variable int_max_str_digits : Z.
Variable int_unicode : string -> option Z.

(** X24: the items partial and the order page list exactly the items of
    the order that [can_see_item] lets the caller see; in privacy mode a
    caller who is not admin is therefore shown only items stored under
    the caller's own identity id. *)
Theorem pages_list_visible_items (w : World) (uuid order_id : string) :
  (forall response w',
     items_partial uuid order_id w = (Ok response, w') ->
     exists order items,
       w_orders w !! order_id = Some order /\
       response = ItemsList items /\
       (forall item, item ∈ items <->
          (exists k, w_items w !! k = Some item) /\ i_order_id item = o_id order /\
          can_see_item (fst (get_identity uuid (w_session w))) item order
            (is_order_admin (w_session w) order) = true) /\
       (o_privacy_mode order = true -> is_order_admin (w_session w) order = false ->
        forall item, item ∈ items ->
          i_person_identifier item = id_id (fst (get_identity uuid (w_session w))))) /\
  (forall base_url utcnow ctx w',
     view_order OIDC_ENABLED base_url uuid utcnow order_id w = (Ok ctx, w') ->
     exists order,
       w_orders w !! order_id = Some order /\
       (forall item, item ∈ ctx_items ctx <->
          (exists k, w_items w !! k = Some item) /\ i_order_id item = o_id order /\
          can_see_item (fst (get_identity uuid (w_session w))) item order
            (is_order_admin (w_session w) order) = true) /\
       (o_privacy_mode order = true -> is_order_admin (w_session w) order = false ->
        forall item, item ∈ ctx_items ctx ->
          i_person_identifier item = id_id (fst (get_identity uuid (w_session w))))).
Proof.
  assert (Hown : forall identity item order,
             o_privacy_mode order = true ->
             can_see_item identity item order false = true ->
             i_person_identifier item = id_id identity).
  { intros identity item order Hp. unfold can_see_item. rewrite Hp. simpl.
    intros H. apply String.eqb_eq in H. now symmetry. }
  split.
  - intros response w'. unfold items_partial. handler_unfold.
    destruct (w_orders w !! order_id) as [order|]; [|discriminate].
    pose proof (is_order_admin_get_identity uuid (w_session w) order) as Hadm.
    destruct (get_identity uuid (w_session w)) as [identity s']. simpl in *.
    intros [= <- _]. rewrite Hadm.
    eexists _, _. split; [reflexivity|]. split; [reflexivity|]. split.
    + intros item. apply (visible_items_elem identity order _ (with_session w s')).
    + intros Hp Hna item Hin.
      apply (visible_items_elem identity order _ (with_session w s')) in Hin.
      destruct Hin as (_ & _ & Hsee). rewrite Hna in Hsee. now apply (Hown _ _ order).
  - intros base_url utcnow ctx w'. unfold view_order, _order_context. handler_unfold.
    destruct (w_orders w !! order_id) as [order|]; [|discriminate].
    pose proof (is_order_admin_get_identity uuid (w_session w) order) as Hadm.
    destruct (get_identity uuid (w_session w)) as [identity s']. simpl in *.
    intros [= <- _]. simpl. rewrite Hadm.
    eexists. split; [reflexivity|]. split.
    + intros item. apply (visible_items_elem identity order _ (with_session w s')).
    + intros Hp Hna item Hin.
      apply (visible_items_elem identity order _ (with_session w s')) in Hin.
      destruct Hin as (_ & _ & Hsee). rewrite Hna in Hsee. now apply (Hown _ _ order).
Qed.

(** X25: the order page carries the admin link exactly for an admin; the
    link is the one [create_order] redirects to, and for an order stored
    under its own id following it (as [enter_admin] reads it) is
    accepted.  The page also tells whether the deadline has passed by
    the strict comparison the item handlers use. *)
Theorem view_order_admin_link (w : World) (order : Order)
    (base_url uuid order_id : string) (utcnow : Z) :
  w_orders w !! order_id = Some order ->
  o_id order = order_id ->
  exists ctx w',
    view_order OIDC_ENABLED base_url uuid utcnow order_id w = (Ok ctx, w') /\
    ctx_admin_url ctx
      = (if is_order_admin (w_session w) order
         then Some (base_url ++ "/orders/" ++ order_id ++ "/admin/" ++ o_admin_token order)
         else None) /\
    (ctx_deadline_passed ctx = true <-> utcnow > o_deadline order) /\
    ctx_can_add ctx
      = can_add_item (fst (get_identity uuid (w_session w))) order
          (is_order_admin (w_session w) order) /\
    fst (enter_admin order_id (o_admin_token order) w')
      = Ok (RedirectResponse ("/orders/" ++ order_id) 303).
Proof.
  intros Horder Hid. unfold view_order, _order_context. handler_unfold.
  rewrite Horder.
  pose proof (is_order_admin_get_identity uuid (w_session w) order) as Hadm.
  destruct (get_identity uuid (w_session w)) as [identity s']. simpl in *.
  eexists _, _. split; [reflexivity|]. simpl. rewrite Hadm, Hid.
  split; [reflexivity|]. split.
  - rewrite Z.gtb_lt. lia.
  - split; [reflexivity|].
    unfold enter_admin. handler_unfold. simpl. rewrite Horder. simpl.
    now rewrite String.eqb_refl.
Qed.

(** X26: [export_order] answers 404 for an unknown order and otherwise
    always runs the export; a group other than person and product is
    read as person, and only the product grouping can raise. *)
Theorem export_order_outcomes (w : World) (uuid order_id group : string) :
  (w_orders w !! order_id = None ->
   fst (export_order int_max_str_digits int_unicode uuid order_id group w) = HTTPException 404 "Order not found") /\
  (forall order, w_orders w !! order_id = Some order ->
     exists outcome,
       fst (export_order int_max_str_digits int_unicode uuid order_id group w) = Ok outcome /\
       (group <> "product" ->
        exists csv, outcome = inr csv /\
          csv_fieldnames csv = ["person"; "product"; "sku"; "quantity"; "note"; "url"] /\
          csv_filename csv = "order-" ++ substring 0 8 (o_id order) ++ "-person.csv") /\
       (outcome = inl TypeError -> group = "product")).
Proof.
  split.
  - intros Hnone. unfold export_order. handler_unfold. now rewrite Hnone.
  - intros order Horder. unfold export_order. handler_unfold. rewrite Horder.
    destruct (get_identity uuid (w_session w)) as [identity s']. simpl.
    eexists. split; [reflexivity|].
    destruct (group =? "person")%string eqn:Ep.
    + apply String.eqb_eq in Ep. subst group. simpl. split.
      * intros _. eexists. split; [reflexivity|]. split; reflexivity.
      * discriminate.
    + destruct (group =? "product")%string eqn:Eq; simpl.
      * apply String.eqb_eq in Eq. subst group. split; [congruence | reflexivity].
      * split; [|discriminate].
        intros _. eexists. split; [reflexivity|]. split; reflexivity.
Qed.

End PagesShown.

Lemma pages_list_visible_items_witness :
  exists order items,
    w_orders (two_items_world
                (session_of {| id_type := "token"; id_id := "u"; id_name := "Al" |})
                true) !! "order-1" = Some order /\
    ItemsList [sample_item "it-1" "u" "Al" "2"] = ItemsList items /\
    forall item, item ∈ items -> i_person_identifier item = "u".
Proof.
  destruct (proj1 (pages_list_visible_items false
                     (two_items_world
                        (session_of {| id_type := "token"; id_id := "u";
                                       id_name := "Al" |}) true)
                     "x" "order-1")
              (ItemsList [sample_item "it-1" "u" "Al" "2"]) _
              ltac:(vm_compute; reflexivity))
    as (order & items & Horder & Hresp & _ & Hown).
  exists order, items. split; [exact Horder|]. split; [exact Hresp|].
  apply Hown.
  - injection Horder as <-. reflexivity.
  - injection Horder as <-. reflexivity.
Defined.

Lemma view_order_admin_link_witness :
  exists ctx w',
    view_order false "https://host" "x" 50 "order-1" (sample_world admin_session false)
      = (Ok ctx, w') /\
    ctx_admin_url ctx = Some "https://host/orders/order-1/admin/secret-1".
Proof.
  destruct (view_order_admin_link false (sample_world admin_session false)
              (sample_order false false false None 100) "https://host" "x" "order-1" 50
              eq_refl eq_refl)
    as (ctx & w' & Hrun & Hurl & _).
  exists ctx, w'. split; [exact Hrun | exact Hurl].
Defined.

Lemma export_order_outcomes_witness :
  exists outcome,
    fst (export_order default_max_str_digits sample_int_unicode "x" "order-1"
           "by-colour" (two_items_world empty_session false))
      = Ok outcome /\
    exists csv, outcome = inr csv /\
      csv_fieldnames csv = ["person"; "product"; "sku"; "quantity"; "note"; "url"].
Proof.
  destruct (proj2 (export_order_outcomes default_max_str_digits sample_int_unicode
                     (two_items_world empty_session false)
                     "x" "order-1" "by-colour")
              (sample_order false false false None 100) eq_refl)
    as (outcome & Hrun & Hperson & _).
  exists outcome. split; [exact Hrun|].
  destruct (Hperson ltac:(discriminate)) as (csv & Hcsv & Hfields & _).
  exists csv. split; [exact Hcsv | exact Hfields].
Defined.

(** ** Stored rows: keys and references *)

Lemma tables_ok_insert_order (orders : gmap string Order)
    (items : gmap string OrderItem) (tokens : gmap string EmailToken)
    (order : Order) :
  tables_ok orders items tokens ->
  tables_ok (<[o_id order := order]> orders) items tokens.
Proof.
  intros (Ho & Hi & Ht). split; [|split].
  - intros k o. rewrite lookup_insert. case_decide; [|apply Ho].
    intros [= <-]. congruence.
  - intros k item Hk. destruct (Hi k item Hk) as [Hid Hex]. split; [exact Hid|].
    rewrite lookup_insert. case_decide; [eauto | exact Hex].
  - intros k token Hk. destruct (Ht k token Hk) as [Hid Hex]. split; [exact Hid|].
    rewrite lookup_insert. case_decide; [eauto | exact Hex].
Qed.

Lemma tables_ok_insert_item (orders : gmap string Order)
    (items : gmap string OrderItem) (tokens : gmap string EmailToken)
    (item : OrderItem) :
  tables_ok orders items tokens ->
  is_Some (orders !! i_order_id item) ->
  tables_ok orders (<[i_id item := item]> items) tokens.
Proof.
  intros (Ho & Hi & Ht) Hex. split; [exact Ho|]. split; [|exact Ht].
  intros k it. rewrite lookup_insert. case_decide; [|apply Hi].
  intros [= <-]. split; [congruence | exact Hex].
Qed.

Lemma tables_ok_delete_item (orders : gmap string Order)
    (items : gmap string OrderItem) (tokens : gmap string EmailToken) (k : string) :
  tables_ok orders items tokens ->
  tables_ok orders (delete k items) tokens.
Proof.
  intros (Ho & Hi & Ht). split; [exact Ho|]. split; [|exact Ht].
  intros k' it. rewrite lookup_delete. case_decide; [discriminate | apply Hi].
Qed.

Lemma tables_ok_insert_token (orders : gmap string Order)
    (items : gmap string OrderItem) (tokens : gmap string EmailToken)
    (token : EmailToken) :
  tables_ok orders items tokens ->
  is_Some (orders !! t_order_id token) ->
  tables_ok orders items (<[t_token token := token]> tokens).
Proof.
  intros (Ho & Hi & Ht) Hex. split; [exact Ho|]. split; [exact Hi|].
  intros k tk. rewrite lookup_insert. case_decide; [|apply Ht].
  intros [= <-]. split; [congruence | exact Hex].
Qed.

Lemma find_item_order (w : World) (order_id item_id : string) (item : OrderItem) :
  find_item w order_id item_id = Some item ->
  w_items w !! item_id = Some item /\ i_order_id item = order_id.
Proof.
  unfold find_item. destruct (w_items w !! item_id) as [it|]; [|discriminate].
  destruct (i_order_id it =? order_id)%string eqn:E; [|discriminate].
  intros [= <-]. split; [reflexivity | now apply String.eqb_eq].
Qed.

Section Tables.

Variable OIDC_ENABLED : bool.
Variable LOCAL_TZ : ZoneInfo.
Variable fromisoformat : string -> option Z.
Variable isoformat : Z -> string.
Variable sign_token : string -> string.
Variable unsign_token : string -> option string.

#[local] Arguments can_edit_item : simpl never.
#[local] Arguments can_add_item : simpl never.

Lemma request_step_tables (w w' : World) :
  tables_ok (w_orders w) (w_items w) (w_tokens w) ->
  request_step OIDC_ENABLED LOCAL_TZ fromisoformat isoformat sign_token unsign_token
    w w' ->
  tables_ok (w_orders w') (w_items w') (w_tokens w').
Proof.
  intros Hok Hstep. destruct Hstep.
  - unfold index. handler_cases; exact Hok.
  - unfold callback. handler_cases; exact Hok.
  - exact Hok.
  - unfold create_order, db_add_order. handler_cases; try exact Hok.
    all: match goal with
         | |- tables_ok (<[?k := ?o]> _) _ _ =>
             apply (tables_ok_insert_order _ _ _ o); exact Hok
         end.
  - unfold enter_admin. handler_cases; exact Hok.
  - unfold create_token, db_add_token. handler_cases; try exact Hok.
    match goal with
    | |- tables_ok _ _ (<[?k := ?t]> _) =>
        apply (tables_ok_insert_token _ _ _ t); [exact Hok | simpl; eauto]
    end.
  - unfold join_via_token. handler_cases; exact Hok.
  - unfold extend_deadline, db_update_order. handler_cases; try exact Hok.
    match goal with
    | |- tables_ok (<[_ := ?o]> _) _ _ =>
        apply (tables_ok_insert_order _ _ _ o); exact Hok
    end.
  - unfold update_settings, db_update_order. handler_cases; try exact Hok.
    match goal with
    | |- tables_ok (<[_ := ?o]> _) _ _ =>
        apply (tables_ok_insert_order _ _ _ o); exact Hok
    end.
  - unfold add_item. handler_cases; try exact Hok.
    all: match goal with
         | |- tables_ok _ (<[_ := ?it]> _) _ =>
             apply (tables_ok_insert_item _ _ _ it); [exact Hok | simpl; eauto]
         end.
  - unfold edit_item. handler_cases; try exact Hok.
    all: match goal with
         | H : find_item _ _ _ = Some ?item |- tables_ok _ (<[_ := ?it]> _) _ =>
             apply find_item_order in H; destruct H as [H _];
             apply (tables_ok_insert_item _ _ _ it); [exact Hok|];
             exact (proj2 (proj1 (proj2 Hok) _ _ H))
         end.
  - unfold delete_item. handler_cases; try exact Hok.
    all: now apply tables_ok_delete_item.
  - exact Hok.
  - exact Hok.
  - exact Hok.
Qed.

(** X27: in every state a deployment reaches, each order, item and
    invite sits under its own id, every item belongs to a stored order
    and every invite was issued for a stored order. *)
Theorem reachable_tables_ok (d : Deployment) :
  reachable OIDC_ENABLED LOCAL_TZ fromisoformat isoformat sign_token unsign_token d ->
  tables_ok (d_orders d) (d_items d) (d_tokens d).
Proof.
  intros Hreach. induction Hreach as [|d d' _ IH Hserve].
  - unfold tables_ok. simpl.
    split; [|split]; intros key row Hrow; rewrite lookup_empty in Hrow;
      discriminate Hrow.
  - destruct Hserve as [s w' _ Hstep].
    exact (request_step_tables (enter d s) w' IH Hstep).
Qed.

End Tables.

Lemma reachable_tables_ok_witness :
  tables_ok (d_orders one_order_deployment) (d_items one_order_deployment)
    (d_tokens one_order_deployment).
Proof.
  apply (reachable_tables_ok false UTC_zone sample_fromisoformat sample_isoformat
           sample_sign_token sample_unsign_token one_order_deployment).
  apply (reachable_step _ _ _ _ _ _ empty_deployment); [apply reachable_init|].
  apply (serve_request _ _ _ _ _ _ empty_deployment empty_session);
    [left; reflexivity|].
  apply step_create_order.
Defined.

(** ** A shown deadline submitted again *)

Lemma resubmitted_not_later (ts : list (Z * Z)) :
  forall cur u w,
    match ts with [] => True | (t, o) :: r => zone_wf t (t + o) r end ->
    u + utc_lookup cur ts u = w ->
    w - wall_lookup cur ts w <= u.
Proof.
  induction ts as [|[t o1] r IH]; intros cur u w Hwf Hu.
  - simpl in *. lia.
  - simpl in Hu |- *.
    destruct (w <? t + Z.max cur o1) eqn:Ew.
    + apply Z.ltb_lt in Ew.
      destruct (u <? t) eqn:Eu; [lia|].
      apply Z.ltb_ge in Eu.
      pose proof (utc_lookup_lower r t (t + o1) o1 u Hwf ltac:(lia)) as Hlow.
      lia.
    + apply Z.ltb_ge in Ew.
      destruct (u <? t) eqn:Eu.
      * apply Z.ltb_lt in Eu. lia.
      * apply (IH o1 u w); [|exact Hu].
        destruct r as [|[t2 o2] r']; [exact I|]. simpl in Hwf. tauto.
Qed.

Lemma strftime_minute_bounds (wall : Z) :
  datetime_min <= wall <= datetime_max ->
  datetime_min <= strftime_minute wall <= datetime_max /\
  strftime_minute (strftime_minute wall) = strftime_minute wall /\
  0 <= wall mod minute.
Proof.
  unfold strftime_minute, datetime_min, datetime_max, minute, second.
  intros Hrange. Z.div_mod_to_equations. lia.
Qed.

(** X28: in a well-formed zone, take a stored deadline that the page
    shows (to the minute), such that the UTC offset in force where the
    shown minute starts is the one in force at the deadline.  Then
    submitting the shown minute stores an instant that is not later than
    the one stored before, and the page shows the same minute again. *)
Theorem shown_deadline_resubmitted (tz : ZoneInfo) (dt wall dt' : Z) :
  ZoneInfo_wf tz ->
  fromutc tz dt = Some wall ->
  offset_at tz (dt - wall mod minute) = offset_at tz dt ->
  local_to_utc tz (strftime_minute wall) = Some dt' ->
  _localtime_filter tz dt = Some (strftime_minute wall) /\
  dt' <= dt /\
  _localtime_filter tz dt' = Some (strftime_minute wall).
Proof.
  intros Hwf Hshown Hoff Hstored. unfold _localtime_filter. rewrite Hshown.
  split; [reflexivity|].
  unfold fromutc, local_to_utc, offset_at, utcoffset in *.
  apply new_datetime_Some in Hshown. destruct Hshown as [Hwall Hrange].
  apply new_datetime_Some in Hstored. destruct Hstored as [-> _].
  rewrite <- Hwall in Hrange.
  destruct (strftime_minute_bounds wall Hrange) as (Hrange' & Hidem & Hmod).
  assert (Hstart : dt - wall mod minute +
                   utc_lookup (tti_before tz) (trans_utc tz) (dt - wall mod minute)
                   = strftime_minute wall).
  { rewrite Hoff. unfold strftime_minute. lia. }
  pose proof (resubmitted_not_later (trans_utc tz) (tti_before tz) _ _ Hwf Hstart)
    as Hle.
  split; [lia|].
  rewrite (wall_lookup_utc_lookup (trans_utc tz) (tti_before tz) _ _ Hwf Hstart).
  replace (strftime_minute wall -
           wall_lookup (tti_before tz) (trans_utc tz) (strftime_minute wall) +
           wall_lookup (tti_before tz) (trans_utc tz) (strftime_minute wall))
    with (strftime_minute wall) by lia.
  unfold new_datetime.
  destruct Hrange' as [Hlo Hhi].
  apply Z.leb_le in Hlo, Hhi. rewrite Hlo, Hhi. simpl. now rewrite Hidem.
Qed.

(** 01:30:30 UTC on 2024-10-27 is shown as 02:30 in Berlin, the second
    time that day; the shown minute submitted again is stored as 00:30
    UTC, and shown as 02:30. *)
Lemma shown_deadline_resubmitted_witness :
  _localtime_filter Europe_Berlin_2024 (1729992630 * second)
    = Some (strftime_minute (1729996230 * second)) /\
  1729989000 * second <= 1729992630 * second /\
  _localtime_filter Europe_Berlin_2024 (1729989000 * second)
    = Some (strftime_minute (1729996230 * second)).
Proof.
  apply (shown_deadline_resubmitted Europe_Berlin_2024 (1729992630 * second)
           (1729996230 * second) (1729989000 * second)).
  - cbv [ZoneInfo_wf Europe_Berlin_2024 trans_utc zone_wf second]. lia.
  - reflexivity.
  - reflexivity.
  - reflexivity.
Defined.

(** In 1893 Berlin moved its clocks from local mean time (UTC+0:53:28)
    to CET, skipping 00:00:00 to 00:06:31 on April 1st.  A deadline
    stored as 23:06:42 UTC is shown as 00:06; that minute started in the
    skipped stretch, and submitted again it is stored later, as 23:12:32
    UTC. *)
Example shown_minute_in_a_gap :
  _localtime_filter
    {| tti_before := 3208 * second;
       trans_utc := [(-2422054408 * second, 3600 * second)] |}
    (-2422054398 * second)
  = Some (-2422050840 * second) /\
  local_to_utc
    {| tti_before := 3208 * second;
       trans_utc := [(-2422054408 * second, 3600 * second)] |}
    (-2422050840 * second)
  = Some (-2422054048 * second).
Proof. split; reflexivity. Qed.

(** ** The exported rows *)

Lemma ltb_asym (a b : string) : String.ltb a b = true -> String.ltb b a = false.
Proof.
  unfold String.ltb. rewrite (String.compare_antisym a b).
  destruct (String.compare b a); simpl; congruence.
Qed.

Lemma insert_by_perm {A} (key : A -> string) (x : A) (l : list A) :
  insert_by key x l ≡ₚ x :: l.
Proof.
  induction l as [|y r IH]; simpl; [reflexivity|].
  destruct (String.ltb (key x) (key y)); [reflexivity|].
  rewrite IH. apply perm_swap.
Qed.

Lemma sort_by_perm {A} (key : A -> string) (l : list A) :
  sort_by key l ≡ₚ l.
Proof.
  unfold sort_by.
  assert (H : forall acc, fold_left (fun acc x => insert_by key x acc) l acc ≡ₚ
                          (acc ++ l)%list).
  { induction l as [|x r IH]; intros acc; simpl.
    - now rewrite app_nil_r.
    - rewrite IH, insert_by_perm. apply Permutation_middle. }
  exact (H []).
Qed.

Lemma insert_by_sorted {A} (key : A -> string) (x : A) (l : list A) :
  sorted_by key l -> sorted_by key (insert_by key x l).
Proof.
  unfold sorted_by. induction 1 as [|y r Hr IH Hhd]; simpl.
  - repeat constructor.
  - destruct (String.ltb (key x) (key y)) eqn:E.
    + constructor; [constructor; assumption|].
      constructor. now apply ltb_asym.
    + constructor; [exact IH|].
      destruct r as [|z r']; simpl; [constructor; exact E|].
      destruct (String.ltb (key x) (key z)); constructor; [exact E|].
      now inversion Hhd.
Qed.

Lemma sort_by_sorted {A} (key : A -> string) (l : list A) :
  sorted_by key (sort_by key l).
Proof.
  unfold sort_by.
  assert (H : forall acc, sorted_by key acc ->
                sorted_by key (fold_left (fun acc x => insert_by key x acc) l acc)).
  { induction l as [|x r IH]; intros acc Hacc; simpl; [exact Hacc|].
    apply IH. now apply insert_by_sorted. }
  apply H. constructor.
Qed.

Section ExportRows.

Variable int_max_str_digits : Z.
Variable int_unicode : string -> option Z.

(** X29: the person export never raises and has one row per item, each
    with that item's fields, in the order of the contributors' names. *)
Theorem export_person_rows (order : Order) (items : list OrderItem) :
  exists csv listed,
    export_csv int_max_str_digits int_unicode order items "person" = inr csv /\
    listed ≡ₚ items /\ sorted_by i_person_name listed /\
    csv_rows csv =
      map (fun item =>
             PersonRow (i_person_name item) (i_product_name item)
               (or_empty (i_product_sku item)) (i_quantity item)
               (or_empty (i_note item)) (or_empty (i_product_url item)))
        listed.
Proof.
  eexists. exists (sort_by i_person_name items).
  split; [reflexivity|]. split; [apply sort_by_perm|].
  split; [apply sort_by_sorted | reflexivity].
Qed.




End ExportRows.

